(* ===== verification/_CoqProject ===== *)
-Q . S2P
Prelude.v
PyObject.v
PyRepr.v
PyTree.v
TreeRead.v
GraphDB.v
Dispatch.v
Node.v
Scenarios.v
Runs.v
Coerce.v
NodeInv.v
Calls.v
NodeSpec.v
Errors.v
NodeType.v
Refine.v
Rerun.v
CallLog.v
