(* ===== verification/Prelude.v ===== *)
(** * Verification of the predefined-Cypher node of assist-agent

    The program.  [src/llm_backend/app/lg_agent/kg_sub_graph/
    agentic_rag_agents/components/predefined_cypher/node.py] defines
    [create_predefined_cypher_node(graph, predefined_cypher_dict)], which
    returns the LangGraph node [predefined_cypher(state)].  The node reads
    [query_name] and [query_parameters] from the state dict, prints them,
    replaces every value of [query_parameters["parameters"]] by its [str]
    in place, looks [query_parameters["query"]] up in the registry, runs
    the template with [graph.query] on a hit or records an error on a miss,
    and returns [{"cyphers": [CypherOutputState], "steps": [...]}].  Its
    collaborators are the registry (a dict of templates), the graph
    database, and the Python runtime (dicts, lists, [str], [print]).

    The files, in dependency order:
    - [Prelude] (this file): the result type [res], the state-and-exception
      monad [StErr] with its laws and the [pym_scope] notations, the hint
      databases [pym] and [pym_rw], and generic lemmas on strings, lists
      and options.
    - [PyObject]: Python values ([VNone], [VBool], [VInt], [VStr], [VRef])
      and objects (dicts as ordered entry lists, lists) on a heap
      [gmap loc obj], so that aliasing is the source's; the exceptions;
      [dict.get], [dict.items], [d[k] = v], [list.append], truthiness and
      [or], hashing and [==] on keys ([True == 1]); the well-formedness
      invariant [wf_heap] (every reference allocated, dict keys hashable
      and distinct) and its preservation by each operation.
    - [PyRepr]: CPython's [repr] and [str] on these values: decimal ints,
      the quoting and escaping of [unicode_repr] on Latin-1, [True]/[None],
      and the cycle detection of [Py_ReprEnter] ([[...]], [{...}]).
      [repr] is a [Fixpoint] on fuel; [repr_fuel_for h = S (size h)] is
      enough: each nested object entered is pushed on the stack of objects
      being printed and cannot be entered again, so the measure
      [size (dom h \ stack)] decreases ([repr_fuel_total]); more fuel gives
      the same result ([repr_fuel_mono]).  A round trip parses [repr] of a
      string back ([str_repr_roundtrip]).
    - [PyTree]: JSON-like trees, the data the orchestrator and the database
      exchange with the node, and their allocation on the heap
      ([alloc_tree], one fresh object per dict or list, children first).
    - [TreeRead]: the read-back [read_tree] of a value as a tree (fuel:
      one unit per nesting level, so [tree_depth t < n] is enough), the
      [repr]/[str] of a tree ([tree_repr], [tree_str]), and the theorems
      that a stored tree reads back as itself and prints as [tree_str]
      in every heap that keeps the objects its allocation created.
    - [GraphDB]: the database as a class [Neo4jGraph] with a state of its
      own; the theorems hold for every instance; [mock_graph] is a table.
    - [Dispatch]: the specification's contract on trees: [request],
      [outcome], and [dispatch] (registry lookup, canonical strings as
      bindings, one database call, the fault propagated).
    - [Node]: the node, one definition per block of [predefined_cypher]
      ([read_state] lines 40-47, [get_parameters] line 50,
      [coerce_parameters]/[coerce_loop] lines 51-52, [read_request]
      lines 40-52, [run_statement] lines 54-64, [build_output] lines
      66-80), composed as the source composes them, in the monad over
      [pystate] (heap, stdout lines, database state).  The loop models the
      dict iterator, including its size check; its fuel is
      [S (length kvs)], exactly the number of [next] calls.
    - [Scenarios]: the request heaps of the specification's scenarios A, B,
      C and of three error cases D, E, F.
    - [Runs]: run equations of the primitives.
    - [Coerce]: the coercion loop: it terminates without error and
      computes [str] of each value in place (C4), agrees with the one-pass
      reference on flat dicts (C5), and is idempotent (C10); the binding
      of every scalar parameter reads back as the parameter
      ([parse_binding], C15).  The fuel [S (length kvs)] is the number of
      [next] calls the loop makes, so C4's run ends by the iterator's
      exhaustion, not by the bound.
    - [NodeInv]: a weakest precondition [wp] over the monad, a rule per
      primitive, a lemma per block; the heap invariant holds after every
      run of the node, returning or raising, for every input
      ([predefined_cypher_wp_wf]), which the later files build on.
    - [Calls]: a database wrapper [counted] that counts the queries, a
      rule per primitive ([calls_le]) and the bound: every run of the node
      calls the database at most once (C12).
    - [NodeSpec]: the node on a request of the orchestrator's shape: the
      miss (C2) and hit (C3) outcomes read back through [view_cypher], for
      every database; the in-place coercion of the caller's parameters,
      which the output echoes (C6); the [TypeError] of an unhashable query
      (C7); the [AttributeError] of a non-dict [query_parameters] (C8); the
      default branches (C9).  Each theorem has a witness on a scenario.
    - [Errors]: the two [AttributeError]s of the reading block: a state
      that is not a dict raises at line 42 with only the [errors] list
      allocated (C18); a [parameters] entry that is not a dict raises at
      [parameters.items()], line 51, after the two prints and before the
      lookup (C19).  Scenario G passes the parameters as a list.
    - [NodeType]: the [wp] of [NodeInv] with a frame ([keeps]: dicts stay
      dicts, lists keep their items but [errors]); for every input, the
      returned dict has the field types of [CypherOutputState]
      ([cypher_output_typed], C13), and the specification's invariant
      "errors non-empty iff statement empty" holds for every registry
      without an empty template (C14).
    - [Refine]: the refinement theorem (C1): a request stored as the state
      dict, the node run on it, and its output read back ([read_outcome])
      give [dispatch]'s outcome, database state and faults, for every
      registry, database, sentinel and request, the echoed bag apart (it
      holds the coerced values, [echo_coerced]).  Database rows are assumed
      well keyed ([rows_keyed]), as a driver's records are.  The stdout
      log of the node on a stored request is [node_log] (C11): the name
      and the bag as received (printed before the coercion), the
      statement, and the rows.  A parameter dict that already holds the
      bindings prints as the coerced bag ([py_str_bag]).
    - [Rerun]: repeated invocations of the node on the same state dict
      ([invocations], a step relation closed by [inv_refl]/[inv_next]), as
      the orchestrator makes them (retries, replays; concurrent dispatches
      run one after the other since the coroutine never suspends).  The
      invariant [ready] (the parameter dict holds the bindings; task,
      name and sentinel read back) holds after the first run and, by rule
      induction, in every state reached; every invocation of every
      sequence refines [dispatch] (C16), and the caller's parameters are
      coerced once and never changed again (C17).  A run from a [ready]
      state prints [node_log] of the [coerced_request] ([ready_log]).
    - [CallLog]: the trace of a sequence: after [k] invocations the
      database is the initial one with [query_effect] (one query with the
      template and the original bindings on a hit, nothing on a miss)
      applied [k] times, and stdout holds [session_log], the first run's
      lines then the later runs', which print the coerced bag (C20).

    Not modelled: the value of [NO_CYPHER_RESULTS] (outside [src/]; the
    node takes the sentinel as a parameter); the TypedDicts, which are
    plain dicts at run time; the orchestrator's merge of the returned dict
    into the pipeline state; the driver and Cypher
    semantics behind [graph.query]; the coroutine machinery ([async] has
    no effect here: the node awaits nothing); float, tuple and other
    values the requests do not carry; characters beyond Latin-1 in
    [repr]; Python's recursion limit and the 4300-digit limit of [str]
    on ints (the model's [str] never meets them on values parsed from
    JSON of ordinary size); the order in which [params.get(...)] at line
    50 resolves the method before building its [{}] default (the model
    allocates the default first, which only adds an unreachable empty
    dict on the error path of C8).  No liveness property: the node is one straight-line
    call with one bounded loop, so every run ends (C4 states the loop's
    run in full), and it awaits
    nothing the model could wait on; over sequences of invocations the
    trace theorem (C20) says what every prefix of a session did, which is
    all an unbounded session of a terminating node can show.  Requests
    whose [query_parameters] are not of the orchestrator's shape are not
    in the refinement: the error and default theorems (C7 to C9, C18,
    C19) say what the node does on them. *)

From Stdlib Require Import ZArith String Ascii.
From stdpp Require Import base gmap strings list.

(** ** Results of a computation that may raise *)

Inductive res (E A : Type) : Type :=
| Ok (a : A)
| Err (e : E).
Arguments Ok {E A} a.
Arguments Err {E A} e.

(** ** A state monad with exceptions.  A Python function that mutates the
    heap and may raise is a function from the state before the call to the
    state after it and its outcome: the state after a raise keeps every
    mutation made before the raise, as Python does. *)

Definition StErr (S E A : Type) : Type := S -> S * res E A.

Section StErr.
Context {S E : Type}.

#[export] Instance sterr_ret : MRet (StErr S E) :=
  fun A a s => (s, Ok a).
#[export] Instance sterr_bind : MBind (StErr S E) :=
  fun A B f m s =>
    match m s with
    | (s', Ok a) => f a s'
    | (s', Err e) => (s', Err e)
    end.

Definition throw {A} (e : E) : StErr S E A := fun s => (s, Err e).
Definition get_st : StErr S E S := fun s => (s, Ok s).
Definition put_st (s : S) : StErr S E unit := fun _ => (s, Ok tt).
Definition modify_st (f : S -> S) : StErr S E unit := fun s => (f s, Ok tt).
Definition lift_res {A} (r : res E A) : StErr S E A :=
  fun s => (s, r).
End StErr.

(** ** Notation, in a scope of its own *)

Declare Scope pym_scope.
Delimit Scope pym_scope with pym.
(** [⟦ m ⟧ s] runs the computation [m] from the state [s]. *)
Notation "⟦ m ⟧ s" := (m s) (at level 10, m at level 200, s at level 9, only parsing) : pym_scope.
Notation "'raise!' e" := (throw e) (at level 10, e at level 9) : pym_scope.
Open Scope pym_scope.

(** ** Monad laws (pointwise, on every state) *)

Section Laws.
Context {S E : Type}.

Lemma sterr_bind_run {A B} (m : StErr S E A) (f : A -> StErr S E B) s :
  ⟦ m ≫= f ⟧ s =
  match ⟦ m ⟧ s with (s', Ok a) => ⟦ f a ⟧ s' | (s', Err e) => (s', Err e) end.
Proof. reflexivity. Qed.

Lemma sterr_ret_bind {A B} (a : A) (f : A -> StErr S E B) s :
  ⟦ mret a ≫= f ⟧ s = ⟦ f a ⟧ s.
Proof. reflexivity. Qed.

Lemma sterr_bind_ret {A} (m : StErr S E A) s : ⟦ m ≫= mret ⟧ s = ⟦ m ⟧ s.
Proof. cbv. by destruct (m s) as [? []]. Qed.

Lemma sterr_bind_assoc {A B C} (m : StErr S E A) (f : A -> StErr S E B)
      (g : B -> StErr S E C) s :
  ⟦ (m ≫= f) ≫= g ⟧ s = ⟦ m ≫= (fun a => f a ≫= g) ⟧ s.
Proof. cbv. by destruct (m s) as [? []]. Qed.

Lemma sterr_throw_bind {A B} (e : E) (f : A -> StErr S E B) s :
  ⟦ raise! e ≫= f ⟧ s = (s, Err e).
Proof. reflexivity. Qed.
End Laws.

Create HintDb pym discriminated.
Create Rewrite HintDb pym_rw.
#[export] Hint Rewrite @sterr_ret_bind @sterr_throw_bind : pym_rw.

(** [pym_unfold] exposes the state passing of a monadic computation. *)
Ltac pym_unfold :=
  cbv [mbind mret sterr_bind sterr_ret throw get_st put_st modify_st lift_res] in *.

(** [case_run E] cases on the run of a sub-computation [E] in the goal. *)
Ltac case_run t :=
  let H := fresh "Hrun" in
  destruct t as [?s [?a | ?e]] eqn:H.

(** ** Generic lemmas on strings, lists and options *)

(** stdpp makes [String.append] opaque to [simpl]; these two equations are
    its computation rules. *)
Lemma string_app_nil_l (b : string) : String.append EmptyString b = b.
Proof. reflexivity. Qed.

Lemma string_app_cons x (a b : string) :
  String.append (String x a) b = String x (String.append a b).
Proof. reflexivity. Qed.

Lemma string_app_assoc (a b c : string) :
  String.append (String.append a b) c = String.append a (String.append b c).
Proof.
  induction a as [|x a IH]; [done|]. by rewrite !string_app_cons, IH.
Qed.

Lemma string_app_nil_r (a : string) : String.append a EmptyString = a.
Proof. induction a as [|x a IH]; [done|]. by rewrite string_app_cons, IH. Qed.

#[export] Hint Rewrite string_app_nil_l string_app_cons string_app_assoc
  string_app_nil_r : pym_rw.

Lemma Forall_nth_error {A} (P : A -> Prop) (l : list A) i x :
  Forall P l -> nth_error l i = Some x -> P x.
Proof.
  rewrite Forall_forall. intros HP Hi. apply HP, list_elem_of_In. by eapply nth_error_In.
Qed.

Lemma forallb_impl {A} (f g : A -> bool) (l : list A) :
  (forall x, f x = true -> g x = true) -> forallb f l = true -> forallb g l = true.
Proof.
  intros Hfg. induction l as [|x l IH]; simpl; [done|].
  intros [Hx Hl]%andb_prop. by rewrite Hfg, IH.
Qed.

Lemma forallb_Forall {A} (f : A -> bool) (l : list A) :
  forallb f l = true -> Forall (fun x => f x = true) l.
Proof.
  induction l as [|x l IH]; simpl; [done|].
  intros [Hx Hl]%andb_prop. constructor; auto.
Qed.

Lemma mapM_mono_Some {A B} (f g : A -> option B) (l : list A) (k : list B) :
  (forall x y, f x = Some y -> g x = Some y) -> mapM f l = Some k -> mapM g l = Some k.
Proof.
  intros Hfg. rewrite !mapM_Some. intros H. eapply Forall2_impl; [exact H|].
  intros x y. apply Hfg.
Qed.

Lemma mapM_bind_mono {A B C} (f g : A -> option B) (k : list B -> option C) l r :
  (forall x y, f x = Some y -> g x = Some y) ->
  (mapM f l ≫= k) = Some r -> (mapM g l ≫= k) = Some r.
Proof.
  intros Hfg (ys & Hys & Hk)%bind_Some. apply bind_Some. exists ys.
  split; [by eapply mapM_mono_Some|done].
Qed.

Lemma fmap_mapM_mono {A B C} (f g : A -> option B) (c : list B -> C) l r :
  (forall x y, f x = Some y -> g x = Some y) ->
  (c <$> mapM f l) = Some r -> (c <$> mapM g l) = Some r.
Proof.
  intros Hfg. destruct (mapM f l) as [ys|] eqn:E; simpl; [|done]. intros [= <-].
  by rewrite (mapM_mono_Some f g l ys Hfg E).
Qed.

Lemma Forall_Forall2_flip {A B} (P : A -> Prop) (Q : A -> B -> Prop) (R : B -> A -> Prop) xs ys :
  Forall P xs -> Forall2 Q xs ys -> (forall x y, P x -> Q x y -> R y x) -> Forall2 R ys xs.
Proof. intros HP HQ HR. induction HQ; inversion HP; subst; constructor; auto. Qed.

Lemma foldr_max_Forall {A} (g : A -> nat) (xs : list A) :
  Forall (fun x => g x <= foldr max 0 (map g xs)) xs.
Proof.
  induction xs as [|x xs IH]; simpl; constructor; [lia|].
  eapply Forall_impl; [exact IH|]. simpl. lia.
Qed.

Lemma mapM_map_Forall2 {A B C} (f : B -> option C) (g : A -> C) xs vs :
  Forall2 (fun x v => f v = Some (g x)) xs vs -> mapM f vs = Some (map g xs).
Proof. induction 1 as [|x v xs vs Hxv _ IH]; simpl; [done|]. by rewrite Hxv, IH. Qed.

Lemma lookup_map_list {A B} (f : A -> B) (l : list A) i : map f l !! i = f <$> l !! i.
Proof. revert i. induction l as [|x l IH]; intros [|i]; simpl; auto. Qed.

Lemma bind_is_Some_2 {A B} (m : option A) (k : A -> option B) :
  is_Some m -> (forall a, m = Some a -> is_Some (k a)) -> is_Some (m ≫= k).
Proof. intros [a Ha] Hk. rewrite Ha. simpl. by apply Hk. Qed.

Lemma forallb_Forall_iff {A} (f : A -> bool) (l : list A) :
  forallb f l = true <-> Forall (fun x => f x = true) l.
Proof.
  split; [apply forallb_Forall|]. induction 1; simpl; [done|].
  by apply andb_true_intro.
Qed.

(** Two lists that agree with [c] below and above [i] splice into [c]. *)
Lemma take_drop_agree {A} (a b c : list A) i :
  length a = length c -> length b = length c ->
  (forall j, j < i -> a !! j = c !! j) -> (forall j, i <= j -> b !! j = c !! j) ->
  take i a ++ drop i b = c.
Proof.
  intros Ha Hb Hlo Hhi. apply list_eq. intros j.
  destruct (decide (j < i)) as [Hj|Hj].
  - destruct (decide (j < length a)) as [Hja|Hja].
    + rewrite lookup_app_l by (rewrite length_take; lia).
      rewrite lookup_take, decide_True by lia. auto.
    + rewrite !lookup_ge_None_2; [done| |];
        rewrite ?length_app, ?length_take, ?length_drop; lia.
  - rewrite lookup_app_r by (rewrite length_take; lia). rewrite lookup_drop, length_take.
    destruct (decide (i <= length a)).
    + replace (i + (j - i `min` length a)) with j by lia. apply Hhi. lia.
    + rewrite !lookup_ge_None_2; [done|lia|lia].
Qed.
