(* ===== verification/PyObject.v ===== *)
(** * The Python object model the node runs on

    Python values as the node handles them: the immutable scalars
    ([None], [bool], [int], [str]) are values; dicts and lists are objects
    on a heap, reached by reference, so that two names bound to the same
    dict see each other's mutations.  This file holds the values, the heap,
    the exceptions the node can raise, the dict operations the node calls
    ([dict.get], [d[k] = v], [dict.items], [list.append]) and the heap's
    well-formedness invariant. *)

From Stdlib Require Import ZArith String Ascii.
From stdpp Require Import base gmap strings list.
From S2P Require Import Prelude.

(** ** Values, objects, heap *)

Definition loc := positive.

Inductive value : Type :=
| VNone
| VBool (b : bool)
| VInt (z : Z)
| VStr (s : string)
| VRef (l : loc).

Inductive obj : Type :=
| ODict (kvs : list (value * value))   (** entries in insertion order *)
| OList (xs : list value).

Abbreviation heap := (gmap loc obj).

#[export] Instance value_eq_dec : EqDecision value.
Proof. solve_decision. Defined.
#[export] Instance obj_eq_dec : EqDecision obj.
Proof. solve_decision. Defined.

(** The exceptions the node can raise.  [Neo4jError] stands for any fault
    raised by [graph.query] (driver, connection, Cypher errors). *)
Inductive exn : Type :=
| TypeError (msg : string)
| AttributeError (msg : string)
| RuntimeError (msg : string)
| RecursionError (msg : string)
| Neo4jError (msg : string).

#[export] Instance exn_eq_dec : EqDecision exn.
Proof. solve_decision. Defined.

(** ** Type names, truth values, hashing *)

Definition type_name (h : heap) (v : value) : string :=
  match v with
  | VNone => "NoneType"
  | VBool _ => "bool"
  | VInt _ => "int"
  | VStr _ => "str"
  | VRef l =>
      match h !! l with
      | Some (ODict _) => "dict"
      | Some (OList _) => "list"
      | None => "object"
      end
  end%string.

(** [bool(v)]: what [x or y] tests. *)
Definition truthy (h : heap) (v : value) : bool :=
  match v with
  | VNone => false
  | VBool b => b
  | VInt z => negb (Z.eqb z 0)
  | VStr s => negb (String.eqb s EmptyString)
  | VRef l =>
      match h !! l with
      | Some (ODict kvs) => negb (Nat.eqb (length kvs) 0)
      | Some (OList xs) => negb (Nat.eqb (length xs) 0)
      | None => true
      end
  end.

(** [x or y]: [x] when [x] is true, else [y]. *)
Definition py_or (h : heap) (x y : value) : value :=
  if truthy h x then x else y.

(** Dicts and lists are unhashable; the scalars are hashable. *)
Definition hashable (v : value) : bool :=
  match v with VRef _ => false | _ => true end.

Definition num_of (v : value) : option Z :=
  match v with
  | VBool b => Some (if b then 1 else 0)%Z
  | VInt z => Some z
  | _ => None
  end.

(** Key equality of a dict: [==] on hashable values.  [True == 1] and
    [False == 0], so a bool and an int can denote the same key. *)
Definition key_eq (a b : value) : bool :=
  match a, b with
  | VNone, VNone => true
  | VStr s, VStr t => String.eqb s t
  | _, _ =>
      match num_of a, num_of b with
      | Some x, Some y => Z.eqb x y
      | _, _ => false
      end
  end.

Definition unhashable_msg (h : heap) (k : value) : string :=
  ("unhashable type: '" ++ type_name h k ++ "'")%string.

Definition no_attr_msg (h : heap) (v : value) (attr : string) : string :=
  ("'" ++ type_name h v ++ "' object has no attribute '" ++ attr ++ "'")%string.

(** ** Dict entries *)

(** The index of the entry whose key equals [k]. *)
Fixpoint dict_find (kvs : list (value * value)) (k : value) : option nat :=
  match kvs with
  | [] => None
  | (k', _) :: rest =>
      if key_eq k' k then Some 0 else S <$> dict_find rest k
  end.

Definition dict_lookup (kvs : list (value * value)) (k : value) : option value :=
  i ← dict_find kvs k; snd <$> kvs !! i.

(** [d[k] = v]: an existing key keeps its position and its key object; a
    new key is appended. *)
Definition dict_set (kvs : list (value * value)) (k v : value) : list (value * value) :=
  match dict_find kvs k with
  | Some i =>
      match kvs !! i with
      | Some (k', _) => <[i := (k', v)]> kvs
      | None => kvs
      end
  | None => kvs ++ [(k, v)]
  end.

(** ** Heap operations *)

Definition alloc (h : heap) (o : obj) : loc * heap :=
  let l := fresh (dom h) in (l, <[l := o]> h).

(** [o.get(k, d)] *)
Definition dict_get (h : heap) (o k d : value) : res exn value :=
  match o with
  | VRef l =>
      match h !! l with
      | Some (ODict kvs) =>
          if hashable k then Ok (default d (dict_lookup kvs k))
          else Err (TypeError (unhashable_msg h k))
      | _ => Err (AttributeError (no_attr_msg h o "get"))
      end
  | _ => Err (AttributeError (no_attr_msg h o "get"))
  end.

(** [o.items()]: the entries, in order. *)
Definition dict_items (h : heap) (o : value) : res exn (loc * list (value * value)) :=
  match o with
  | VRef l =>
      match h !! l with
      | Some (ODict kvs) => Ok (l, kvs)
      | _ => Err (AttributeError (no_attr_msg h o "items"))
      end
  | _ => Err (AttributeError (no_attr_msg h o "items"))
  end.

(** [d[k] = v] on the dict at [l]. *)
Definition dict_setitem (h : heap) (l : loc) (k v : value) : res exn heap :=
  match h !! l with
  | Some (ODict kvs) =>
      if hashable k then Ok (<[l := ODict (dict_set kvs k v)]> h)
      else Err (TypeError (unhashable_msg h k))
  | _ => Err (TypeError "'object' does not support item assignment"%string)
  end.

(** [xs.append(v)] on the list at [l]. *)
Definition list_append (h : heap) (l : loc) (v : value) : res exn heap :=
  match h !! l with
  | Some (OList xs) => Ok (<[l := OList (xs ++ [v])]> h)
  | _ => Err (AttributeError "'object' object has no attribute 'append'"%string)
  end.

(** ** Well-formedness of the heap *)

Definition value_okb (h : heap) (v : value) : bool :=
  match v with VRef l => bool_decide (is_Some (h !! l)) | _ => true end.

Fixpoint keys_unique (ks : list value) : bool :=
  match ks with
  | [] => true
  | k :: rest => negb (existsb (key_eq k) rest) && keys_unique rest
  end.

Definition obj_okb (h : heap) (o : obj) : bool :=
  match o with
  | ODict kvs =>
      forallb (fun kv => hashable kv.1 && value_okb h kv.2) kvs
      && keys_unique kvs.*1
  | OList xs => forallb (value_okb h) xs
  end.

(** Every reference points to an allocated object, and every dict has
    hashable, pairwise distinct keys. *)
Definition wf_heap (h : heap) : Prop :=
  map_Forall (fun _ o => obj_okb h o = true) h.

#[export] Instance wf_heap_dec h : Decision (wf_heap h).
Proof. unfold wf_heap. apply _. Defined.

(** ** Lemmas on keys and dict entries *)

Lemma key_eq_refl k : hashable k = true -> key_eq k k = true.
Proof.
  destruct k; simpl; intros H; try done.
  - by destruct b.
  - apply Z.eqb_refl.
  - apply String.eqb_refl.
Qed.

Lemma key_eq_sym a b : key_eq a b = key_eq b a.
Proof.
  destruct a as [|b1|z1|s1|l1], b as [|b2|z2|s2|l2]; simpl; try done;
    try apply String.eqb_sym; try apply Z.eqb_sym;
    repeat match goal with bb : bool |- _ => destruct bb end; done.
Qed.

Lemma dict_find_Some kvs k i :
  dict_find kvs k = Some i ->
  exists k' v, kvs !! i = Some (k', v) /\ key_eq k' k = true.
Proof.
  revert i. induction kvs as [|[k' v] kvs IH]; intros i; simpl; [done|].
  destruct (key_eq k' k) eqn:E.
  - intros [= <-]. eauto.
  - destruct (dict_find kvs k) as [j|] eqn:Ej; simpl; [|done].
    intros [= <-]. by apply IH.
Qed.

Lemma dict_find_None kvs k :
  dict_find kvs k = None ->
  forall j k' v, kvs !! j = Some (k', v) -> key_eq k' k = false.
Proof.
  induction kvs as [|[k0 v0] kvs IH]; simpl; intros Hf j k' v Hj; [done|].
  destruct (key_eq k0 k) eqn:E; [done|].
  destruct (dict_find kvs k); [done|].
  destruct j as [|j]; simpl in Hj; [by injection Hj as -> ->|eauto].
Qed.

(** In a dict with distinct keys, the key stored at position [i] is found at
    position [i]. *)
Lemma dict_find_unique kvs i k v :
  keys_unique kvs.*1 = true -> hashable k = true ->
  kvs !! i = Some (k, v) -> dict_find kvs k = Some i.
Proof.
  revert i. induction kvs as [|[k0 v0] kvs IH]; intros i Hu Hh Hi; [done|].
  simpl in Hu. apply andb_prop in Hu as [Hn Hu]. simpl.
  destruct i as [|i]; simpl in Hi.
  - injection Hi as -> ->. by rewrite key_eq_refl.
  - destruct (key_eq k0 k) eqn:E.
    + exfalso. apply negb_true_iff in Hn. revert Hn. apply not_false_iff_true.
      apply existsb_exists. exists k. split; [|done].
      apply list_elem_of_In, list_elem_of_fmap. exists (k, v). split; [done|].
      by eapply list_elem_of_lookup_2.
    + by rewrite (IH i).
Qed.

Lemma dict_set_found kvs k v i k' w :
  dict_find kvs k = Some i -> kvs !! i = Some (k', w) ->
  dict_set kvs k v = <[i := (k', v)]> kvs.
Proof. unfold dict_set. by intros -> ->. Qed.

(** Replacing the value of an entry keeps the keys. *)
Lemma keys_insert_same (kvs : list (value * value)) i k' v w :
  kvs !! i = Some (k', w) -> (<[i := (k', v)]> kvs).*1 = kvs.*1.
Proof.
  intros Hi. rewrite list_fmap_insert. simpl.
  apply list_insert_id. by rewrite list_lookup_fmap, Hi.
Qed.

(** ** The heap only grows *)

(** Every location allocated in [h] is allocated in [h']. *)
Definition heap_grows (h h' : heap) : Prop :=
  forall l, is_Some (h !! l) -> is_Some (h' !! l).

Lemma heap_grows_refl h : heap_grows h h.
Proof. by intros l. Qed.

Lemma heap_grows_trans h1 h2 h3 :
  heap_grows h1 h2 -> heap_grows h2 h3 -> heap_grows h1 h3.
Proof. intros H12 H23 l Hl. by apply H23, H12. Qed.

Lemma heap_grows_insert h l o : heap_grows h (<[l := o]> h).
Proof.
  intros l' Hl'. destruct (decide (l = l')) as [->|Hne].
  - by rewrite lookup_insert_eq.
  - by rewrite lookup_insert_ne.
Qed.

#[export] Hint Resolve heap_grows_refl heap_grows_insert : pym.

Lemma value_okb_grows h h' v :
  heap_grows h h' -> value_okb h v = true -> value_okb h' v = true.
Proof.
  intros Hg. destruct v; simpl; try done.
  rewrite !bool_decide_eq_true. apply Hg.
Qed.

Lemma obj_okb_grows h h' o :
  heap_grows h h' -> obj_okb h o = true -> obj_okb h' o = true.
Proof.
  intros Hg. destruct o as [kvs|xs]; simpl.
  - intros [Hf Hu]%andb_prop. rewrite Hu, andb_true_r.
    revert Hf. apply forallb_impl. intros [k v] [Hk Hv]%andb_prop.
    by rewrite Hk, (value_okb_grows h h').
  - apply forallb_impl. intros v. by apply value_okb_grows.
Qed.

(** Storing a well-formed object keeps the heap well formed. *)
Lemma wf_heap_insert h l o :
  wf_heap h -> obj_okb (<[l := o]> h) o = true -> wf_heap (<[l := o]> h).
Proof.
  intros Hwf Ho. apply map_Forall_insert_2; [done|].
  intros l' o' Hl'. eapply obj_okb_grows; [apply heap_grows_insert|]. by eapply Hwf.
Qed.

Lemma alloc_fresh h o : h !! (alloc h o).1 = None.
Proof. apply not_elem_of_dom. apply is_fresh. Qed.

Lemma alloc_lookup h o : (alloc h o).2 !! (alloc h o).1 = Some o.
Proof. apply lookup_insert_eq. Qed.

Lemma alloc_lookup_other h o l :
  is_Some (h !! l) -> (alloc h o).2 !! l = h !! l.
Proof.
  intros Hl. pose proof (alloc_fresh h o) as F.
  unfold alloc in *; simpl in *. apply lookup_insert_ne. intros Heq.
  rewrite <- Heq, F in Hl. by destruct Hl.
Qed.

Lemma alloc_grows h o : heap_grows h (alloc h o).2.
Proof. apply heap_grows_insert. Qed.
#[export] Hint Resolve alloc_grows : pym.

(** ** What well-formedness gives at one object *)

Lemma wf_heap_list h l xs :
  wf_heap h -> h !! l = Some (OList xs) -> Forall (fun x => value_okb h x = true) xs.
Proof. intros Hwf Hl. apply forallb_Forall. exact (Hwf l _ Hl). Qed.

Lemma wf_heap_dict h l kvs :
  wf_heap h -> h !! l = Some (ODict kvs) ->
  Forall (fun kv => hashable kv.1 && value_okb h kv.2 = true) kvs /\
  keys_unique kvs.*1 = true.
Proof.
  intros Hwf Hl. pose proof (Hwf l _ Hl) as Ho. simpl in Ho.
  apply andb_prop in Ho as [Hf Hu]. split; [by apply forallb_Forall|done].
Qed.

Lemma hashable_value_okb h v : hashable v = true -> value_okb h v = true.
Proof. by destruct v. Qed.

(** ** Storing objects keeps the heap well formed *)

Lemma wf_heap_alloc h o :
  wf_heap h -> obj_okb h o = true ->
  wf_heap (alloc h o).2 /\ value_okb (alloc h o).2 (VRef (alloc h o).1) = true.
Proof.
  intros Hwf Ho. split.
  - apply wf_heap_insert; [done|]. eapply obj_okb_grows; [|exact Ho]. auto with pym.
  - simpl. apply bool_decide_eq_true. rewrite lookup_insert_eq. by eexists.
Qed.

Lemma keys_unique_snoc ks k :
  keys_unique (ks ++ [k]) = keys_unique ks && forallb (fun k' => negb (key_eq k' k)) ks.
Proof.
  induction ks as [|k0 ks IH]; simpl; [done|].
  rewrite IH, existsb_app. simpl. rewrite orb_false_r.
  destruct (key_eq k0 k), (existsb _ ks), (keys_unique ks), (forallb _ ks); done.
Qed.

Definition entry_okb (h : heap) (kv : value * value) : bool :=
  hashable kv.1 && value_okb h kv.2.

(** [d[k] = v] keeps the entries well formed and the keys distinct. *)
Lemma dict_set_ok h kvs k v :
  Forall (fun kv => entry_okb h kv = true) kvs -> keys_unique kvs.*1 = true ->
  hashable k = true -> value_okb h v = true ->
  Forall (fun kv => entry_okb h kv = true) (dict_set kvs k v) /\
  keys_unique (dict_set kvs k v).*1 = true.
Proof.
  intros Hkvs Hu Hk Hv. unfold dict_set.
  destruct (dict_find kvs k) as [i|] eqn:Hf.
  - destruct (kvs !! i) as [[k' w]|] eqn:Hi; [|done].
    rewrite (keys_insert_same _ _ _ _ _ Hi). split; [|done].
    apply Forall_insert; [done|]. unfold entry_okb; simpl.
    pose proof (Forall_lookup_1 _ _ _ _ Hkvs Hi) as Hkw. unfold entry_okb in Hkw.
    simpl in Hkw. apply andb_prop in Hkw as [-> _]. by rewrite Hv.
  - split.
    + apply Forall_app; split; [done|]. constructor; [|done].
      unfold entry_okb; simpl. by rewrite Hk, Hv.
    + rewrite fmap_app. simpl. rewrite keys_unique_snoc, Hu. simpl.
      apply forallb_Forall_iff, Forall_forall. intros k' Hk'.
      apply list_elem_of_fmap in Hk' as [[k'' w] [-> Hin]].
      apply list_elem_of_lookup in Hin as [j Hj].
      simpl. by rewrite (dict_find_None _ _ Hf j k'' w Hj).
Qed.

Lemma wf_heap_setitem h l kvs k v :
  wf_heap h -> h !! l = Some (ODict kvs) -> hashable k = true -> value_okb h v = true ->
  wf_heap (<[l := ODict (dict_set kvs k v)]> h).
Proof.
  intros Hwf Hl Hk Hv. apply wf_heap_insert; [done|].
  apply (obj_okb_grows h); [auto with pym|].
  destruct (wf_heap_dict _ _ _ Hwf Hl) as [Hkvs Hu].
  destruct (dict_set_ok h kvs k v) as [H1 H2]; try done.
  simpl. rewrite H2, andb_true_r. by apply forallb_Forall_iff.
Qed.

Lemma wf_heap_append h l xs v :
  wf_heap h -> h !! l = Some (OList xs) -> value_okb h v = true ->
  wf_heap (<[l := OList (xs ++ [v])]> h).
Proof.
  intros Hwf Hl Hv. apply wf_heap_insert; [done|].
  apply (obj_okb_grows h); [auto with pym|]. simpl.
  apply forallb_Forall_iff, Forall_app. split; [by eapply wf_heap_list|by constructor].
Qed.

Lemma dict_setitem_wf h l k w h' :
  wf_heap h -> value_okb h w = true -> dict_setitem h l k w = Ok h' -> wf_heap h'.
Proof.
  intros Hwf Hw. unfold dict_setitem.
  destruct (h !! l) as [[kvs|xs]|] eqn:Hl; try done.
  destruct (hashable k) eqn:Hk; [|done]. intros [= <-]. by apply wf_heap_setitem.
Qed.

Lemma list_append_wf h l w h' :
  wf_heap h -> value_okb h w = true -> list_append h l w = Ok h' -> wf_heap h'.
Proof.
  intros Hwf Hw. unfold list_append.
  destruct (h !! l) as [[kvs|xs]|] eqn:Hl; try done. intros [= <-]. by apply wf_heap_append.
Qed.

Lemma alloc_lookup_old h o l x : h !! l = Some x -> (alloc h o).2 !! l = Some x.
Proof. intros Hl. rewrite alloc_lookup_other; [done|by eexists]. Qed.
#[export] Hint Resolve alloc_lookup_old : pym.

Lemma alloc_None_old h o l : (alloc h o).2 !! l = None -> h !! l = None.
Proof. intros H. destruct (h !! l) eqn:E; [|done]. by rewrite (alloc_lookup_old _ _ _ _ E) in H. Qed.

Lemma dict_get_dict h l kvs k df :
  h !! l = Some (ODict kvs) -> hashable k = true ->
  dict_get h (VRef l) k df = Ok (default df (dict_lookup kvs k)).
Proof. intros Hl Hk. simpl. by rewrite Hl, Hk. Qed.

Lemma dict_items_dict h l kvs :
  h !! l = Some (ODict kvs) -> dict_items h (VRef l) = Ok (l, kvs).
Proof. intros Hl. simpl. by rewrite Hl. Qed.

Lemma value_okb_alloc h o v : value_okb h v = true -> value_okb (alloc h o).2 v = true.
Proof. apply value_okb_grows, alloc_grows. Qed.
#[export] Hint Resolve value_okb_alloc : pym.

Lemma value_okb_VRef h l x : h !! l = Some x -> value_okb h (VRef l) = true.
Proof. intros Hl. simpl. apply bool_decide_eq_true. by eexists. Qed.
#[export] Hint Resolve alloc_lookup : pym.

Lemma value_okb_VRef_inv h l : value_okb h (VRef l) = true -> exists x, h !! l = Some x.
Proof. simpl. by intros ?%bool_decide_eq_true_1. Qed.

Lemma alloc_spec h o l h' : alloc h o = (l, h') -> h !! l = None /\ h' = <[l := o]> h.
Proof.
  intros E. pose proof (alloc_fresh h o) as F. unfold alloc in *. injection E as <- <-.
  split; [done|reflexivity].
Qed.

(** Name every allocation of the goal: a fresh location and an insert. *)
Ltac name_allocs :=
  repeat match goal with
  | |- context [alloc ?h ?o] =>
      lazymatch h with context [alloc _ _] => fail | _ => idtac end;
      lazymatch o with context [alloc _ _] => fail | _ => idtac end;
      let E := fresh "Ealloc" in
      let l := fresh "l" in
      let h' := fresh "h" in
      destruct (alloc h o) as [l h'] eqn:E;
      apply alloc_spec in E as [? ->]; cbn [fst snd] in *
  end;
  repeat match goal with
  | H : <[_ := _]> _ !! _ = None |- _ => apply lookup_insert_None in H as [H ?]
  end.

(** Locations fresh for [h] differ from every location allocated in [h]. *)
Ltac fresh_ne :=
  repeat match goal with
  | H : <[_ := _]> _ !! _ = None |- _ => apply lookup_insert_None in H as [H ?]
  end;
  repeat match goal with
  | H : ?h !! ?a = None, H' : ?h !! ?b = Some _ |- _ =>
      lazymatch goal with
      | _ : a <> b |- _ => fail
      | _ => assert (a <> b) by (intros ->; congruence)
      end
  end.

Lemma heap_grows_insert_r h h' l o : heap_grows h h' -> heap_grows h (<[l := o]> h').
Proof. intros Hg. eapply heap_grows_trans; [exact Hg|apply heap_grows_insert]. Qed.
#[export] Hint Resolve heap_grows_insert_r : pym.

(** The type of a value does not change while the heap only grows. *)
Lemma type_name_extends h h' v :
  value_okb h v = true -> (forall l x, h !! l = Some x -> h' !! l = Some x) ->
  type_name h' v = type_name h v.
Proof.
  intros Hv Hext. destruct v as [| | | |l]; try done.
  destruct (value_okb_VRef_inv _ _ Hv) as [x Hx]. simpl. by rewrite (Hext _ _ Hx), Hx.
Qed.
