(* ===== verification/PyRepr.v ===== *)
(** * [str] and [repr] of Python values

    CPython's [object.__repr__] for the values of [PyObject]: decimal
    integers, [True]/[False]/[None], string literals with the quote choice
    and escapes of [unicode_repr] (Objects/unicodeobject.c), and lists and
    dicts printed element by element with [Py_ReprEnter]'s cycle detection
    ([[...]] and [{...}] for an object already being printed).  [str] is
    [repr] except on strings, where it is the identity.

    A Rocq [string] is read as a sequence of Latin-1 code points (one
    [ascii] byte is one code point in 0..255); [repr] is modelled on that
    range.  The printer recurses through the heap with fuel: one unit per
    reference entered.  [repr_total] shows that [S (size h)] units always
    suffice on a well-formed heap, so the fuel bound is never observable. *)

From Stdlib Require Import ZArith String Ascii DecimalString DecimalZ.
From stdpp Require Import base gmap strings list.
From S2P Require Import Prelude PyObject.

(** ** Integers *)

(** [int.__repr__]: optional minus sign, then decimal digits. *)
Definition int_repr (z : Z) : string :=
  DecimalString.NilEmpty.string_of_int (Z.to_int z).

(** ** Strings *)

Definition hex_digit (n : nat) : ascii :=
  ascii_of_nat (if n <? 10 then 48 + n else 87 + n).

(** The two lower-case hex digits of a code point below 256. *)
Definition hex2 (c : ascii) : string :=
  let n := nat_of_ascii c in
  String (hex_digit (n / 16)) (String (hex_digit (n mod 16)) EmptyString).

(** [str.isprintable()] on U+0080..U+00FF: the C1 controls, U+00A0 (a
    separator) and U+00AD (a format character) are not printable. *)
Definition latin1_printable (n : nat) : bool :=
  (160 <? n) && negb (n =? 173).

(** One code point of a string literal quoted with [q]. *)
Definition repr_char (q c : ascii) : string :=
  let n := nat_of_ascii c in
  if (c =? q)%char || (c =? "\")%char then String "\" (String c EmptyString)
  else if n =? 9 then "\t"
  else if n =? 10 then "\n"
  else if n =? 13 then "\r"
  else if (n <? 32) || (n =? 127) then ("\x" ++ hex2 c)%string
  else if n <? 127 then String c EmptyString
  else if latin1_printable n then String c EmptyString
  else ("\x" ++ hex2 c)%string.

Fixpoint str_escape (q : ascii) (s : string) : string :=
  match s with
  | EmptyString => EmptyString
  | String c s' => (repr_char q c ++ str_escape q s')%string
  end.

Fixpoint has_char (c : ascii) (s : string) : bool :=
  match s with
  | EmptyString => false
  | String c' s' => (c' =? c)%char || has_char c s'
  end.

(** Single quotes, unless the string has a single quote and no double
    quote. *)
Definition choose_quote (s : string) : ascii :=
  if has_char "'" s && negb (has_char "034" s) then "034" else "'".

Definition str_repr (s : string) : string :=
  let q := choose_quote s in
  String q (str_escape q s ++ String q EmptyString).

(** ** Lists and dicts, through the heap *)

Definition repr_join (ss : list string) : string := String.concat ", " ss.

Fixpoint repr_fuel (fuel : nat) (h : heap) (stack : list loc) (v : value)
  : option string :=
  match v with
  | VNone => Some "None"
  | VBool true => Some "True"
  | VBool false => Some "False"
  | VInt z => Some (int_repr z)
  | VStr s => Some (str_repr s)
  | VRef l =>
      match fuel with
      | O => None
      | S fuel' =>
          match h !! l with
          | None => None
          | Some (OList xs) =>
              match xs with
              | [] => Some "[]"
              | _ =>
                  if bool_decide (l ∈ stack) then Some "[...]"
                  else
                    ss ← mapM (repr_fuel fuel' h (l :: stack)) xs;
                    Some ("[" ++ repr_join ss ++ "]")
              end
          | Some (ODict kvs) =>
              if bool_decide (l ∈ stack) then Some "{...}"
              else
                match kvs with
                | [] => Some "{}"
                | _ =>
                    ss ← mapM (fun kv =>
                                 sk ← repr_fuel fuel' h (l :: stack) kv.1;
                                 sv ← repr_fuel fuel' h (l :: stack) kv.2;
                                 Some (sk ++ ": " ++ sv)) kvs;
                    Some ("{" ++ repr_join ss ++ "}")
                end
          end
      end
  end%string.

(** The fuel for a heap: one more than the number of its objects. *)
Definition repr_fuel_for (h : heap) : nat := S (size h).

Definition py_repr (h : heap) (v : value) : option string :=
  repr_fuel (repr_fuel_for h) h [] v.

(** [str(v)] *)
Definition py_str (h : heap) (v : value) : option string :=
  match v with
  | VStr s => Some s
  | _ => py_repr h v
  end.

(** ** Reading a string literal back

    The inverse of [str_repr]: Python's reading of a quoted literal,
    restricted to the escapes [repr] emits. *)

Definition hex_val (c : ascii) : option nat :=
  let n := nat_of_ascii c in
  if (48 <=? n) && (n <=? 57) then Some (n - 48)
  else if (97 <=? n) && (n <=? 102) then Some (n - 87)
  else None.

Definition cons_fst (c : ascii) (o : option (string * string)) : option (string * string) :=
  (fun p => (String c p.1, p.2)) <$> o.

(** The body of a literal quoted with [q], up to its closing quote: the
    decoded text and what follows the closing quote. *)
Fixpoint unescape_body (q : ascii) (s : string) : option (string * string) :=
  match s with
  | EmptyString => None
  | String c rest =>
      if (c =? q)%char then Some (EmptyString, rest)
      else if (c =? "\")%char then
        match rest with
        | EmptyString => None
        | String e rest' =>
            if (e =? "t")%char then cons_fst "009" (unescape_body q rest')
            else if (e =? "n")%char then cons_fst "010" (unescape_body q rest')
            else if (e =? "r")%char then cons_fst "013" (unescape_body q rest')
            else if (e =? "x")%char then
              match rest' with
              | String h1 (String h2 rest'') =>
                  match hex_val h1, hex_val h2 with
                  | Some a, Some b =>
                      cons_fst (ascii_of_nat (16 * a + b)) (unescape_body q rest'')
                  | _, _ => None
                  end
              | _ => None
              end
            else if (e =? "\")%char || (e =? "'")%char || (e =? "034")%char
            then cons_fst e (unescape_body q rest')
            else None
        end
      else cons_fst c (unescape_body q rest)
  end.

Definition parse_str_literal (s : string) : option string :=
  match s with
  | String q rest =>
      if (q =? "'")%char || (q =? "034")%char then
        match unescape_body q rest with
        | Some (body, EmptyString) => Some body
        | _ => None
        end
      else None
  | EmptyString => None
  end.

Definition is_quote (q : ascii) : Prop := q = "'"%char \/ q = "034"%char.

Lemma choose_quote_is_quote s : is_quote (choose_quote s).
Proof. unfold choose_quote, is_quote. destruct (_ && _); auto. Qed.

(** Each escaped code point reads back as itself (all 256 of them, under
    both quotes). *)
Lemma repr_char_unescape q c r :
  is_quote q ->
  unescape_body q (repr_char q c ++ r) = cons_fst c (unescape_body q r).
Proof.
  intros [-> | ->]; destruct c as [[] [] [] [] [] [] [] []]; reflexivity.
Qed.

Lemma str_escape_unescape q s r :
  is_quote q ->
  unescape_body q (str_escape q s ++ String q r) = Some (s, r).
Proof.
  intros Hq. induction s as [|c s IH]; simpl.
  - by destruct Hq as [-> | ->].
  - rewrite string_app_assoc, repr_char_unescape, IH by done. reflexivity.
Qed.

(** ** Fuel *)

(** More fuel never changes a printed result. *)
Lemma repr_fuel_mono n m h st v s :
  n <= m -> repr_fuel n h st v = Some s -> repr_fuel m h st v = Some s.
Proof.
  revert m st v s. induction n as [|n IH]; intros m st v s Hle.
  - destruct v as [| [] | | | l], m; simpl; congruence.
  - destruct m as [|m]; [lia|]. destruct v as [| [] | | | l]; simpl; try done.
    destruct (h !! l) as [[kvs|xs]|]; [| |done].
    + case_bool_decide; [done|]. destruct kvs as [|kv kvs]; [done|].
      apply mapM_bind_mono. intros [k x] y Hy; simpl in *.
      apply bind_Some in Hy as (sk & Hk & Hy). apply bind_Some in Hy as (sx & Hx & Hy).
      rewrite (IH m _ _ sk ltac:(lia) Hk). simpl. by rewrite (IH m _ _ sx ltac:(lia) Hx).
    + destruct xs as [|x xs]; [done|]. case_bool_decide; [done|].
      apply mapM_bind_mono. intros y sy. apply IH. lia.
Qed.

(** Entering an object not yet on the printing stack shrinks the set of
    objects that can still be entered. *)
Lemma repr_measure_step (h : heap) l st :
  l ∈ dom h -> l ∉ st ->
  size (dom h ∖ list_to_set (l :: st) : gset loc) <
  size (dom h ∖ list_to_set st : gset loc).
Proof.
  intros Hl Hst. apply subset_size. simpl.
  split; [set_solver|]. intros Hsub.
  assert (l ∈ dom h ∖ (list_to_set st : gset loc)) as Hin.
  { apply elem_of_difference. split; [done|]. by rewrite elem_of_list_to_set. }
  apply Hsub in Hin. set_solver.
Qed.

Lemma repr_fuel_total h fuel st v :
  wf_heap h -> value_okb h v = true ->
  size (dom h ∖ list_to_set st : gset loc) < fuel ->
  is_Some (repr_fuel fuel h st v).
Proof.
  intros Hwf. revert st v. induction fuel as [|n IH]; intros st v Hv Hlt; [lia|].
  destruct v as [| [] | | | l]; simpl; try by eexists.
  simpl in Hv. apply bool_decide_eq_true in Hv as [o Ho]. rewrite Ho.
  assert (Hstep : l ∉ st -> size (dom h ∖ list_to_set (l :: st) : gset loc) < n).
  { intros Hst. assert (l ∈ dom h) as Hl by (apply elem_of_dom; eauto).
    pose proof (repr_measure_step h l st Hl Hst). lia. }
  destruct o as [kvs|xs].
  - case_bool_decide as Hin; [by eexists|]. destruct kvs as [|kv kvs]; [by eexists|].
    apply wf_heap_dict in Ho as [Hkv _]; [|done].
    apply bind_is_Some_2; [|by eexists]. apply mapM_is_Some_2.
    eapply Forall_impl; [exact Hkv|]. intros [k x] [Hk Hx]%andb_prop; simpl.
    apply bind_is_Some_2; [apply IH; auto using hashable_value_okb|intros sk _].
    apply bind_is_Some_2; [apply IH; auto|by eexists].
  - destruct xs as [|x xs]; [by eexists|]. case_bool_decide as Hin; [by eexists|].
    pose proof (wf_heap_list _ _ _ Hwf Ho) as Hxs.
    apply bind_is_Some_2; [|by eexists]. apply mapM_is_Some_2.
    eapply Forall_impl; [exact Hxs|]. intros y Hy. simpl. apply IH; auto.
Qed.

(** ** Properties of [str] and [repr] *)

(** The fuel [repr_fuel_for h] is enough: on a well-formed heap, [repr]
    of any value whose references are allocated returns. *)
Lemma py_repr_total h v :
  wf_heap h -> value_okb h v = true -> is_Some (py_repr h v).
Proof.
  intros Hwf Hv. apply repr_fuel_total; [done|done|]. simpl.
  rewrite difference_empty_L, size_dom. unfold repr_fuel_for. lia.
Qed.

Lemma py_str_total h v :
  wf_heap h -> value_okb h v = true -> is_Some (py_str h v).
Proof. destruct v; try by eexists. all: by apply py_repr_total. Qed.

(** [str] of a [str] is the string itself. *)
Lemma py_str_VStr h s : py_str h (VStr s) = Some s.
Proof. reflexivity. Qed.

(** [repr] of a string is a literal that reads back as the string. *)
Lemma str_repr_roundtrip s : parse_str_literal (str_repr s) = Some s.
Proof.
  unfold str_repr, parse_str_literal.
  pose proof (choose_quote_is_quote s) as Hq.
  rewrite (str_escape_unescape _ _ _ Hq).
  by destruct Hq as [-> | ->].
Qed.

(** [repr] of an integer is its decimal literal, which reads back as the
    integer. *)
Lemma int_repr_roundtrip z :
  Z.of_int <$> DecimalString.NilEmpty.int_of_string (int_repr z) = Some z.
Proof. unfold int_repr. rewrite DecimalString.NilEmpty.isi. simpl. by rewrite DecimalZ.of_to. Qed.

(** [str] of a scalar does not read the heap. *)
Lemma py_str_scalar h h' v : hashable v = true -> py_str h v = py_str h' v.
Proof. by destruct v as [| [] | | | ]. Qed.
