(* ===== verification/PyTree.v ===== *)
(** * Python data as trees

    The records a Cypher query returns and the request the orchestrator
    builds are plain data: scalars, lists and dicts with scalar keys, with
    no sharing.  [pytree] is that data; [alloc_tree] stores a tree on the
    heap as fresh objects, children first, each dict built entry by entry
    as [dict(pairs)] does (a repeated key keeps its first position and its
    last value). *)

From Stdlib Require Import ZArith String Ascii.
From stdpp Require Import base gmap strings list.
From S2P Require Import Prelude PyObject.

Inductive scalar : Type :=
| SNone
| SBool (b : bool)
| SInt (z : Z)
| SStr (s : string).

#[export] Instance scalar_eq_dec : EqDecision scalar.
Proof. solve_decision. Defined.

Definition scalar_value (s : scalar) : value :=
  match s with
  | SNone => VNone
  | SBool b => VBool b
  | SInt z => VInt z
  | SStr s => VStr s
  end.

Unset Elimination Schemes.
Inductive pytree : Type :=
| TScalar (s : scalar)
| TList (xs : list pytree)
| TDict (kvs : list (scalar * pytree)).
Set Elimination Schemes.

(** Induction over trees, with a hypothesis for every child of a list or a
    dict. *)
Definition pytree_ind (P : pytree -> Prop)
    (fs : forall s, P (TScalar s))
    (fl : forall xs, Forall P xs -> P (TList xs))
    (fd : forall kvs, Forall (fun kv => P kv.2) kvs -> P (TDict kvs)) :
    forall t, P t :=
  fix F t :=
    match t with
    | TScalar s => fs s
    | TList xs =>
        fl xs ((fix G xs : Forall P xs :=
                  match xs with
                  | [] => Forall_nil_2 _
                  | x :: xs' => Forall_cons_2 _ _ _ (F x) (G xs')
                  end) xs)
    | TDict kvs =>
        fd kvs ((fix G kvs : Forall (fun kv => P kv.2) kvs :=
                   match kvs with
                   | [] => Forall_nil_2 _
                   | kv :: kvs' => Forall_cons_2 _ _ _ (F kv.2) (G kvs')
                   end) kvs)
    end.

(** [dict(pairs)]: insert the pairs in order. *)
Definition dict_of_pairs (kvs : list (value * value)) : list (value * value) :=
  fold_left (fun acc kv => dict_set acc kv.1 kv.2) kvs [].

(** Allocate a sequence, left to right, threading the heap. *)
Definition alloc_seq {A B} (f : heap -> A -> B * heap) : heap -> list A -> list B * heap :=
  fix go h xs :=
    match xs with
    | [] => ([], h)
    | x :: xs' =>
        let '(v, h1) := f h x in
        let '(vs, h2) := go h1 xs' in (v :: vs, h2)
    end.

(** Store a tree: the children first, left to right, then the container. *)
Fixpoint alloc_tree (h : heap) (t : pytree) : value * heap :=
  match t with
  | TScalar s => (scalar_value s, h)
  | TList xs =>
      let '(vs, h1) := alloc_seq alloc_tree h xs in
      let '(l, h2) := alloc h1 (OList vs) in (VRef l, h2)
  | TDict kvs =>
      let '(vs, h1) :=
        alloc_seq (fun h kx => let '(v, h') := alloc_tree h kx.2 in ((scalar_value kx.1, v), h'))
          h kvs in
      let '(l, h2) := alloc h1 (ODict (dict_of_pairs vs)) in (VRef l, h2)
  end.

(** A list of trees, stored as a list object. *)
Definition alloc_tree_list (h : heap) (ts : list pytree) : value * heap :=
  alloc_tree h (TList ts).

(** ** Stored trees are well formed *)

Lemma dict_of_pairs_ok h vs :
  Forall (fun kv => entry_okb h kv = true) vs ->
  obj_okb h (ODict (dict_of_pairs vs)) = true.
Proof.
  unfold dict_of_pairs. intros Hvs.
  cut (forall acc, Forall (fun kv => entry_okb h kv = true) acc ->
         keys_unique acc.*1 = true ->
         obj_okb h (ODict (fold_left (fun acc kv => dict_set acc kv.1 kv.2) vs acc)) = true).
  { intros C. by apply C. }
  induction Hvs as [|[k v] vs Hkv Hvs IH]; intros acc Hacc Hu; simpl.
  - rewrite Hu, andb_true_r. by apply forallb_Forall_iff.
  - unfold entry_okb in Hkv. simpl in Hkv. apply andb_prop in Hkv as [Hk Hv].
    destruct (dict_set_ok h acc k v) as [H1 H2]; try done. by apply IH.
Qed.

Lemma alloc_seq_nil {A B} (f : heap -> A -> B * heap) h : alloc_seq f h [] = ([], h).
Proof. reflexivity. Qed.

Lemma alloc_seq_cons {A B} (f : heap -> A -> B * heap) h x xs :
  alloc_seq f h (x :: xs) =
    ((f h x).1 :: (alloc_seq f (f h x).2 xs).1, (alloc_seq f (f h x).2 xs).2).
Proof. simpl. destruct (f h x) as [v h1]. simpl. by destruct (alloc_seq f h1 xs). Qed.

(** ** Reasoning about [alloc_seq]

    An invariant [I] of the heap, a preorder [R] on heaps, and a relation
    [S] between an element, its stored value and a heap, stable along [R]:
    if storing each element keeps [I], steps along [R] and relates the
    element to its value, storing the sequence does so for every element
    in the final heap. *)
Section AllocSeq.
Context {A B : Type} (f : heap -> A -> B * heap).
Context (I : heap -> Prop) (R : heap -> heap -> Prop) (S : A -> B -> heap -> Prop).
Hypothesis R_refl : forall h, R h h.
Hypothesis R_trans : forall h1 h2 h3, R h1 h2 -> R h2 h3 -> R h1 h3.
Hypothesis S_stable : forall x v h h', S x v h -> R h h' -> S x v h'.

Lemma alloc_seq_spec xs h :
  Forall (fun x => forall h, I h -> I (f h x).2 /\ R h (f h x).2 /\ S x (f h x).1 (f h x).2) xs ->
  I h ->
  I (alloc_seq f h xs).2 /\ R h (alloc_seq f h xs).2 /\
  Forall2 (fun x v => S x v (alloc_seq f h xs).2) xs (alloc_seq f h xs).1.
Proof.
  intros Hxs. revert h. induction Hxs as [|x xs Hx Hxs IH]; intros h Hh; simpl; [auto|].
  destruct (Hx h Hh) as (Hh1 & HR1 & HS1).
  destruct (f h x) as [v h1]; simpl in *.
  destruct (IH h1 Hh1) as (Hh2 & HR2 & HS2).
  destruct (alloc_seq f h1 xs) as [vs h2]; simpl in *.
  split_and!; [done|by eapply R_trans|]. constructor; [|done]. by eapply S_stable.
Qed.
End AllocSeq.

(** The entries of a stored dict, before [dict(...)] orders them. *)
Definition alloc_entry (h : heap) (kx : scalar * pytree) : (value * value) * heap :=
  let '(v, h') := alloc_tree h kx.2 in ((scalar_value kx.1, v), h').

Lemma alloc_tree_TScalar h s : alloc_tree h (TScalar s) = (scalar_value s, h).
Proof. reflexivity. Qed.

Lemma alloc_tree_TList h xs :
  alloc_tree h (TList xs) =
    (VRef (alloc (alloc_seq alloc_tree h xs).2 (OList (alloc_seq alloc_tree h xs).1)).1,
     (alloc (alloc_seq alloc_tree h xs).2 (OList (alloc_seq alloc_tree h xs).1)).2).
Proof. simpl. by destruct (alloc_seq alloc_tree h xs). Qed.

Lemma alloc_tree_TDict h kvs :
  alloc_tree h (TDict kvs) =
    (VRef (alloc (alloc_seq alloc_entry h kvs).2
                 (ODict (dict_of_pairs (alloc_seq alloc_entry h kvs).1))).1,
     (alloc (alloc_seq alloc_entry h kvs).2
            (ODict (dict_of_pairs (alloc_seq alloc_entry h kvs).1))).2).
Proof. simpl. by destruct (alloc_seq _ h kvs). Qed.

Lemma alloc_entry_fst h kx : (alloc_entry h kx).1 = (scalar_value kx.1, (alloc_tree h kx.2).1).
Proof. unfold alloc_entry. by destruct (alloc_tree h kx.2). Qed.

Lemma alloc_entry_snd h kx : (alloc_entry h kx).2 = (alloc_tree h kx.2).2.
Proof. unfold alloc_entry. by destruct (alloc_tree h kx.2). Qed.

Lemma alloc_tree_ok t h :
  wf_heap h ->
  wf_heap (alloc_tree h t).2 /\ heap_grows h (alloc_tree h t).2 /\
  value_okb (alloc_tree h t).2 (alloc_tree h t).1 = true.
Proof.
  revert h. induction t as [s|xs IH|kvs IH] using pytree_ind; intros h Hwf.
  - destruct s; simpl; auto with pym.
  - rewrite alloc_tree_TList.
    destruct (alloc_seq_spec alloc_tree wf_heap heap_grows (fun _ v h => value_okb h v = true)
                heap_grows_refl heap_grows_trans
                (fun _ v h h' Hv Hg => value_okb_grows h h' v Hg Hv) xs h IH Hwf)
      as (Hw1 & Hg1 & Hv1).
    destruct (wf_heap_alloc _ (OList (alloc_seq alloc_tree h xs).1) Hw1) as [Hw2 Hv2].
    { apply forallb_Forall_iff. apply Forall_forall. intros v Hv.
      apply list_elem_of_lookup_1 in Hv as [i Hi].
      destruct (Forall2_lookup_r _ _ _ _ _ Hv1 Hi) as (x & _ & ?). done. }
    split; [done|]. split; [|done]. eapply heap_grows_trans; [exact Hg1|]. apply alloc_grows.
  - rewrite alloc_tree_TDict.
    destruct (alloc_seq_spec alloc_entry wf_heap heap_grows (fun _ kv h => entry_okb h kv = true)
                heap_grows_refl heap_grows_trans) with (xs := kvs) (h := h)
      as (Hw1 & Hg1 & Hv1); [| |done|].
    { intros _ [k v] h1 h2. unfold entry_okb. simpl. intros [Hk Hv]%andb_prop Hg.
      by rewrite Hk, (value_okb_grows h1 h2 v). }
    { eapply Forall_impl; [exact IH|]. intros [k x] Hx h1 Hh1. simpl in Hx.
      rewrite alloc_entry_fst, alloc_entry_snd. destruct (Hx h1 Hh1) as (? & ? & ?).
      split_and!; [done|done|]. unfold entry_okb. simpl. by destruct k. }
    destruct (wf_heap_alloc _ (ODict (dict_of_pairs (alloc_seq alloc_entry h kvs).1)) Hw1)
      as [Hw2 Hv2].
    { apply dict_of_pairs_ok. apply Forall_forall. intros kv Hkv.
      apply list_elem_of_lookup_1 in Hkv as [i Hi].
      destruct (Forall2_lookup_r _ _ _ _ _ Hv1 Hi) as (x & _ & ?). done. }
    split; [done|]. split; [|done]. eapply heap_grows_trans; [exact Hg1|]. apply alloc_grows.
Qed.

(** A stored list of rows is a list object with one element per row. *)
Lemma alloc_tree_list_shape h rows :
  exists l vs, (alloc_tree_list h rows).1 = VRef l /\
    (alloc_tree_list h rows).2 !! l = Some (OList vs) /\ length vs = length rows.
Proof.
  unfold alloc_tree_list. rewrite alloc_tree_TList. simpl.
  eexists _, _. split; [reflexivity|]. split; [apply alloc_lookup|].
  destruct (alloc_seq_spec alloc_tree (fun _ => True) (fun _ _ => True) (fun _ _ _ => True))
    with (xs := rows) (h := h) as (_ & _ & HF); auto.
  - by apply Forall_forall.
  - symmetry. by eapply Forall2_length.
Qed.

(** Storing a tree only adds objects: what was allocated keeps its value. *)
Definition heap_extends (h h' : heap) : Prop := forall l x, h !! l = Some x -> h' !! l = Some x.

Lemma heap_extends_refl h : heap_extends h h.
Proof. by intros l x. Qed.

Lemma heap_extends_trans h1 h2 h3 : heap_extends h1 h2 -> heap_extends h2 h3 -> heap_extends h1 h3.
Proof. intros H12 H23 l x Hl. by apply H23, H12. Qed.

Lemma heap_extends_alloc h o : heap_extends h (alloc h o).2.
Proof. intros l x Hl. by apply alloc_lookup_old. Qed.

Lemma alloc_tree_extends_heap t h : heap_extends h (alloc_tree h t).2.
Proof.
  revert h. induction t as [s|xs IH|kvs IH] using pytree_ind; intros h.
  - apply heap_extends_refl.
  - rewrite alloc_tree_TList.
    destruct (alloc_seq_spec alloc_tree (fun _ => True) heap_extends (fun _ _ _ => True)
                heap_extends_refl heap_extends_trans) with (xs := xs) (h := h)
      as (_ & HR & _); auto.
    { eapply Forall_impl; [exact IH|]. auto. }
    eapply heap_extends_trans; [exact HR|apply heap_extends_alloc].
  - rewrite alloc_tree_TDict.
    destruct (alloc_seq_spec alloc_entry (fun _ => True) heap_extends (fun _ _ _ => True)
                heap_extends_refl heap_extends_trans) with (xs := kvs) (h := h)
      as (_ & HR & _); auto.
    { eapply Forall_impl; [exact IH|]. intros [k x] Hx h1 _. rewrite alloc_entry_snd. auto. }
    eapply heap_extends_trans; [exact HR|apply heap_extends_alloc].
Qed.

Lemma alloc_tree_extends t h l x :
  h !! l = Some x -> (alloc_tree h t).2 !! l = Some x.
Proof. apply alloc_tree_extends_heap. Qed.
