(* ===== verification/TreeRead.v ===== *)
(** * Reading trees back from the heap

    [read_tree n h v] reads the value [v] of the heap [h] back as a tree,
    unfolding at most [n] levels of containers; [tree_repr] is [repr] on
    trees, the specification's canonical textual form.  A stored tree
    whose dicts have distinct keys reads back as itself once the fuel
    exceeds its depth ([alloc_tree_read]), in every heap that extends the
    one it was stored in, and CPython's [str] of the stored value is
    [tree_str] of the tree ([py_str_alloc_tree]): the heap model and the
    tree model agree on the data the node exchanges. *)

From Stdlib Require Import ZArith String Ascii.
From stdpp Require Import base gmap strings list.
From S2P Require Import Prelude PyObject PyRepr PyTree.

Definition scalar_of (v : value) : option scalar :=
  match v with
  | VNone => Some SNone
  | VBool b => Some (SBool b)
  | VInt z => Some (SInt z)
  | VStr s => Some (SStr s)
  | VRef _ => None
  end.

Fixpoint read_tree (n : nat) (h : heap) (v : value) : option pytree :=
  match v with
  | VRef l =>
      match n with
      | O => None
      | S n' =>
          match h !! l with
          | Some (OList xs) => TList <$> mapM (read_tree n' h) xs
          | Some (ODict kvs) =>
              TDict <$> mapM (fun kv => k ← scalar_of kv.1; t ← read_tree n' h kv.2; Some (k, t)) kvs
          | None => None
          end
      end
  | _ => TScalar <$> scalar_of v
  end.

Fixpoint tree_depth (t : pytree) : nat :=
  match t with
  | TScalar _ => 0
  | TList xs => S (foldr max 0 (map tree_depth xs))
  | TDict kvs => S (foldr max 0 (map (fun kv => tree_depth kv.2) kvs))
  end.

(** Every dict of the tree has distinct keys, as a JSON object has. *)
Fixpoint tree_keys_ok (t : pytree) : bool :=
  match t with
  | TScalar _ => true
  | TList xs => forallb tree_keys_ok xs
  | TDict kvs =>
      keys_unique (map (fun kv => scalar_value kv.1) kvs) &&
      forallb (fun kv => tree_keys_ok kv.2) kvs
  end.

Definition scalar_repr (s : scalar) : string :=
  match s with
  | SNone => "None"
  | SBool true => "True"
  | SBool false => "False"
  | SInt z => int_repr z
  | SStr s => str_repr s
  end%string.

Fixpoint tree_repr (t : pytree) : string :=
  match t with
  | TScalar s => scalar_repr s
  | TList [] => "[]"
  | TList xs => "[" ++ repr_join (map tree_repr xs) ++ "]"
  | TDict [] => "{}"
  | TDict kvs =>
      "{" ++ repr_join (map (fun kv => scalar_repr kv.1 ++ ": " ++ tree_repr kv.2) kvs) ++ "}"
  end%string.

(** [str] on trees: a string is itself, anything else its [repr]. *)
Definition tree_str (t : pytree) : string :=
  match t with TScalar (SStr s) => s | _ => tree_repr t end.

(** ** Lemmas *)

Lemma scalar_of_value s : scalar_of (scalar_value s) = Some s.
Proof. by destruct s. Qed.

Lemma repr_fuel_scalar n h st s : repr_fuel n h st (scalar_value s) = Some (scalar_repr s).
Proof. by destruct s as [|[]| |], n. Qed.

Lemma read_tree_mono n m h v t :
  n <= m -> read_tree n h v = Some t -> read_tree m h v = Some t.
Proof.
  revert m v t. induction n as [|n IH]; intros m v t Hle.
  - destruct v, m; simpl; congruence.
  - destruct m as [|m]; [lia|]. destruct v as [| | | |l]; simpl; try done.
    destruct (h !! l) as [[kvs|xs]|]; [| |done]; apply fmap_mapM_mono.
    + intros kv p. destruct (scalar_of kv.1); simpl; [|done].
      destruct (read_tree n h kv.2) eqn:E; simpl; [|done].
      by rewrite (IH m kv.2 _ ltac:(lia) E).
    + intros x y. apply IH. lia.
Qed.

Lemma read_tree_extends n h h' v t :
  heap_extends h h' -> read_tree n h v = Some t -> read_tree n h' v = Some t.
Proof.
  intros Hext. revert v t. induction n as [|n IH]; intros v t.
  - by destruct v.
  - destruct v as [| | | |l]; simpl; try done.
    destruct (h !! l) as [[kvs|xs]|] eqn:Hl; [| |done]; rewrite (Hext _ _ Hl);
      apply fmap_mapM_mono.
    + intros kv p. destruct (scalar_of kv.1); simpl; [|done].
      destruct (read_tree n h kv.2) eqn:E; simpl; [|done].
      by rewrite (IH kv.2 _ E).
    + intros x y. apply IH.
Qed.

(** [dict(pairs)] on pairs with distinct keys keeps them as they are. *)
Lemma keys_unique_app_cons ks1 k ks2 :
  keys_unique (ks1 ++ k :: ks2) = true -> Forall (fun k' => key_eq k' k = false) ks1.
Proof.
  induction ks1 as [|a ks1 IH]; simpl; [done|].
  intros [Hn Hu]%andb_prop. constructor; [|by apply IH].
  apply negb_true_iff in Hn. destruct (key_eq a k) eqn:E; [|done].
  exfalso. revert Hn. rewrite existsb_app. simpl. rewrite E, orb_true_r. done.
Qed.

Lemma dict_find_fresh kvs k :
  Forall (fun k' => key_eq k' k = false) kvs.*1 -> dict_find kvs k = None.
Proof.
  induction kvs as [|[k' v] kvs IH]; simpl; [done|]. intros Hf. inversion Hf; subst.
  simpl in *. rewrite H1. by rewrite IH.
Qed.

Lemma dict_of_pairs_id vs : keys_unique vs.*1 = true -> dict_of_pairs vs = vs.
Proof.
  unfold dict_of_pairs.
  cut (forall acc, keys_unique (acc ++ vs).*1 = true ->
         fold_left (fun acc kv => dict_set acc kv.1 kv.2) vs acc = acc ++ vs).
  { intros C Hu. by apply (C []). }
  induction vs as [|[k v] vs IH]; intros acc Hu; simpl; [by rewrite app_nil_r|].
  unfold dict_set. rewrite dict_find_fresh.
  - rewrite IH; [by rewrite <- app_assoc|]. by rewrite <- app_assoc.
  - rewrite fmap_app in Hu. simpl in Hu. by eapply keys_unique_app_cons.
Qed.

(** The keys of stored entries are the scalars of the tree's keys. *)
Lemma stored_keys (P : scalar * pytree -> value * value -> Prop) kvs vs :
  Forall2 (fun kx kv => kv.1 = scalar_value kx.1 /\ P kx kv) kvs vs ->
  vs.*1 = map (fun kv => scalar_value kv.1) kvs.
Proof. induction 1 as [|kx kv kxs vs [Hk _] _ IH]; simpl; [done|]. by f_equal. Qed.

(** ** Frames

    [agree_new h0 h1 h']: [h'] holds every object that [h1] holds and [h0]
    does not, i.e. the objects allocated between [h0] and [h1] are still
    there, unchanged, in [h'].  A stored tree only needs these. *)
Definition agree_new (h0 h1 h' : heap) : Prop :=
  forall l x, h0 !! l = None -> h1 !! l = Some x -> h' !! l = Some x.

Lemma agree_new_refl h0 h1 : agree_new h0 h1 h1.
Proof. by intros l x. Qed.

Lemma agree_new_extends h0 h1 h' : heap_extends h1 h' -> agree_new h0 h1 h'.
Proof. intros E l x _. apply E. Qed.

Lemma agree_new_mono h0 h0' h1 h1' h' :
  heap_extends h0 h0' -> heap_extends h1 h1' -> agree_new h0 h1' h' -> agree_new h0' h1 h'.
Proof.
  intros E0 E1 A l x H0 H1. apply A; [|by apply E1].
  destruct (h0 !! l) eqn:E; [|done]. by rewrite (E0 _ _ E) in H0.
Qed.

Lemma extends_None h h' l : heap_extends h h' -> h' !! l = None -> h !! l = None.
Proof. intros E H. destruct (h !! l) eqn:E'; [|done]. by rewrite (E _ _ E') in H. Qed.

(** The container of a stored tree is new. *)
Lemma agree_new_alloc h h1 o h' :
  heap_extends h h1 -> agree_new h (alloc h1 o).2 h' -> h' !! (alloc h1 o).1 = Some o.
Proof.
  intros E A. apply A; [|apply alloc_lookup]. eapply extends_None; [exact E|apply alloc_fresh].
Qed.

(** ** A stored tree reads back as itself *)

Lemma alloc_tree_read t h h' n :
  tree_keys_ok t = true -> tree_depth t < n -> agree_new h (alloc_tree h t).2 h' ->
  read_tree n h' (alloc_tree h t).1 = Some t.
Proof.
  revert h h' n. induction t as [s|xs IH|kvs IH] using pytree_ind; intros h h' n Hok Hd Ha.
  - destruct s, n; reflexivity.
  - rewrite alloc_tree_TList in *. destruct n as [|n]; [lia|]. cbn [fst snd read_tree] in *.
    destruct (alloc_seq_spec alloc_tree (heap_extends h) heap_extends
                (fun x v h1 => forall h' n, agree_new h h1 h' -> tree_depth x < n ->
                   read_tree n h' v = Some x)
                heap_extends_refl heap_extends_trans) with (xs := xs) (h := h)
      as (HI & _ & HF); [| |apply heap_extends_refl|].
    { intros x v h1 h2 Hx H12 h3 m A. apply Hx. by eapply agree_new_mono; [apply heap_extends_refl| |]. }
    { simpl in Hok. apply forallb_Forall in Hok.
      eapply Forall_impl; [apply Forall_and; split; [exact IH|exact Hok]|].
      intros x [Hx Hxok] h1 H1. split_and!;
        [eapply heap_extends_trans; [exact H1|apply alloc_tree_extends_heap]
        |apply alloc_tree_extends_heap|].
      intros h3 m A Hm. apply Hx; [done|done|]. by eapply agree_new_mono; [|apply heap_extends_refl|]. }
    rewrite (agree_new_alloc h _ _ _ HI Ha). cbn [fmap option_fmap option_map].
    rewrite (proj2 (mapM_Some _ _ xs)); [done|].
    eapply Forall_Forall2_flip; [apply (foldr_max_Forall tree_depth xs)|exact HF|].
    cbn [tree_depth] in Hd. intros x v Hle Hx. cbv beta in Hle, Hx. apply Hx; [|lia].
    by eapply agree_new_mono; [apply heap_extends_refl|apply heap_extends_alloc|].
  - rewrite alloc_tree_TDict in *. destruct n as [|n]; [lia|]. cbn [fst snd read_tree] in *.
    simpl in Hok. apply andb_prop in Hok as [Hu Hok]. apply forallb_Forall in Hok.
    destruct (alloc_seq_spec alloc_entry (heap_extends h) heap_extends
                (fun (kx : scalar * pytree) (kv : value * value) h1 =>
                   kv.1 = scalar_value kx.1 /\
                   forall h' n, agree_new h h1 h' -> tree_depth kx.2 < n ->
                   read_tree n h' kv.2 = Some kx.2)
                heap_extends_refl heap_extends_trans) with (xs := kvs) (h := h)
      as (HI & _ & HF); [| |apply heap_extends_refl|].
    { intros kx kv h1 h2 [Hk Hx] H12. split; [done|]. intros h3 m A. apply Hx.
      by eapply agree_new_mono; [apply heap_extends_refl| |]. }
    { eapply Forall_impl; [apply Forall_and; split; [exact IH|exact Hok]|].
      intros [k x] [Hx Hxok] h1 H1. rewrite alloc_entry_fst, alloc_entry_snd.
      split_and!;
        [eapply heap_extends_trans; [exact H1|apply alloc_tree_extends_heap]
        |apply alloc_tree_extends_heap|done|].
      intros h3 m A Hm. apply Hx; [done|done|]. by eapply agree_new_mono; [|apply heap_extends_refl|]. }
    rewrite dict_of_pairs_id in Ha |- * by (erewrite stored_keys; [exact Hu|exact HF]).
    rewrite (agree_new_alloc h _ _ _ HI Ha). cbn [fmap option_fmap option_map].
    rewrite (proj2 (mapM_Some _ _ kvs)); [done|].
    eapply Forall_Forall2_flip;
      [apply (foldr_max_Forall (fun kv => tree_depth kv.2) kvs)|exact HF|].
    cbn [tree_depth] in Hd. intros [k x] [k' v] Hle [Hk Hx]. cbv beta in Hle, Hx.
    cbn [fst snd] in *. subst k'. rewrite scalar_of_value. cbn [mbind option_bind].
    rewrite (Hx h' n); [done| |lia].
    by eapply agree_new_mono; [apply heap_extends_refl|apply heap_extends_alloc|].
Qed.

Lemma read_tree_VRef n h l t : read_tree n h (VRef l) = Some t -> is_Some (h !! l).
Proof. destruct n; simpl; [done|]. destruct (h !! l); [by eexists|done]. Qed.

(** ** [repr] of a stored tree

    The objects of a stored tree are fresh: none of them is on the stack
    of objects being printed by an enclosing call, so [repr] never prints
    [[...]] or [{...}] on it and computes [tree_repr]. *)
Lemma alloc_tree_repr t h :
  tree_keys_ok t = true ->
  forall h' fuel stack,
    agree_new h (alloc_tree h t).2 h' ->
    (forall l, l ∈ stack -> (alloc_tree h t).2 !! l = None) ->
    tree_depth t < fuel ->
    repr_fuel fuel h' stack (alloc_tree h t).1 = Some (tree_repr t).
Proof.
  revert h. induction t as [s|xs IH|kvs IH] using pytree_ind;
    intros h Hok h' fuel stack Ha Hst Hd.
  - apply repr_fuel_scalar.
  - rewrite alloc_tree_TList in *. destruct fuel as [|fuel]; [cbn in Hd; lia|].
    cbn [fst snd repr_fuel] in *.
    destruct (alloc_seq_spec alloc_tree (heap_extends h) heap_extends
                (fun x v h1 => forall h' fuel stack, agree_new h h1 h' ->
                   (forall l, l ∈ stack -> h1 !! l = None) -> tree_depth x < fuel ->
                   repr_fuel fuel h' stack v = Some (tree_repr x))
                heap_extends_refl heap_extends_trans) with (xs := xs) (h := h)
      as (HI & _ & HF); [| |apply heap_extends_refl|].
    { intros x v h1 h2 Hx H12 h3 f st A Hst' Hf.
      apply Hx; [by eapply agree_new_mono; [apply heap_extends_refl| |]| |done].
      intros l Hl. by eapply extends_None, Hst'. }
    { simpl in Hok. apply forallb_Forall in Hok.
      eapply Forall_impl; [apply Forall_and; split; [exact IH|exact Hok]|].
      intros x [Hx Hxok] h1 H1. split_and!;
        [eapply heap_extends_trans; [exact H1|apply alloc_tree_extends_heap]
        |apply alloc_tree_extends_heap|].
      intros h3 f st A Hst' Hf. apply Hx; [done| |done|done].
      by eapply agree_new_mono; [|apply heap_extends_refl|]. }
    rewrite (agree_new_alloc h _ _ _ HI Ha).
    pose proof (Forall2_length _ _ _ HF) as Hlen.
    destruct xs as [|x xs'], (alloc_seq alloc_tree h _).1 as [|v vs'] eqn:Evs;
      simpl in Hlen; try lia; [done|].
    rewrite bool_decide_eq_false_2.
    2:{ intros Hin%Hst. by rewrite alloc_lookup in Hin. }
    rewrite <- Evs. erewrite mapM_map_Forall2; [reflexivity|].
    rewrite Evs. eapply Forall_Forall2_flip in HF;
      [|apply (foldr_max_Forall tree_depth (x :: xs'))|intros y w Hle Hy; exact (conj Hle Hy)].
    eapply Forall2_flip, Forall2_impl; [exact HF|]. intros w y [Hle Hy]. cbv beta in *.
    apply Hy.
    + by eapply agree_new_mono; [apply heap_extends_refl|apply heap_extends_alloc|].
    + intros l [->|Hl]%elem_of_cons; [apply alloc_fresh|].
      by eapply alloc_None_old, Hst.
    + cbn [tree_depth] in Hd. lia.
  - rewrite alloc_tree_TDict in *. destruct fuel as [|fuel]; [cbn in Hd; lia|].
    cbn [fst snd repr_fuel] in *.
    simpl in Hok. apply andb_prop in Hok as [Hu Hok]. apply forallb_Forall in Hok.
    destruct (alloc_seq_spec alloc_entry (heap_extends h) heap_extends
                (fun (kx : scalar * pytree) (kv : value * value) h1 =>
                   kv.1 = scalar_value kx.1 /\
                   forall h' fuel stack, agree_new h h1 h' ->
                   (forall l, l ∈ stack -> h1 !! l = None) -> tree_depth kx.2 < fuel ->
                   repr_fuel fuel h' stack kv.2 = Some (tree_repr kx.2))
                heap_extends_refl heap_extends_trans) with (xs := kvs) (h := h)
      as (HI & _ & HF); [| |apply heap_extends_refl|].
    { intros kx kv h1 h2 [Hk Hx] H12. split; [done|]. intros h3 f st A Hst' Hf.
      apply Hx; [by eapply agree_new_mono; [apply heap_extends_refl| |]| |done].
      intros l Hl. by eapply extends_None, Hst'. }
    { eapply Forall_impl; [apply Forall_and; split; [exact IH|exact Hok]|].
      intros [k x] [Hx Hxok] h1 H1. rewrite alloc_entry_fst, alloc_entry_snd.
      split_and!;
        [eapply heap_extends_trans; [exact H1|apply alloc_tree_extends_heap]
        |apply alloc_tree_extends_heap|done|].
      intros h3 f st A Hst' Hf. apply Hx; [done| |done|done].
      by eapply agree_new_mono; [|apply heap_extends_refl|]. }
    rewrite dict_of_pairs_id in Hst, Ha |- * by (erewrite stored_keys; [exact Hu|exact HF]).
    rewrite (agree_new_alloc h _ _ _ HI Ha).
    rewrite bool_decide_eq_false_2.
    2:{ intros Hin%Hst. by rewrite alloc_lookup in Hin. }
    pose proof (Forall2_length _ _ _ HF) as Hlen.
    destruct kvs as [|kx kvs'], (alloc_seq alloc_entry h _).1 as [|kv vs'] eqn:Evs;
      simpl in Hlen; try lia; [done|].
    rewrite <- Evs. erewrite mapM_map_Forall2; [reflexivity|].
    rewrite Evs. eapply Forall_Forall2_flip in HF;
      [|apply (foldr_max_Forall (fun kv => tree_depth kv.2) (kx :: kvs'))
       |intros y w Hle Hy; exact (conj Hle Hy)].
    eapply Forall2_flip, Forall2_impl; [exact HF|].
    intros [k' w] [k x] [Hle [Hk Hy]]. cbv beta in *. cbn [fst snd] in Hk, Hle |- *. subst k'.
    rewrite repr_fuel_scalar, Hy; [reflexivity| | |].
    + by eapply agree_new_mono; [apply heap_extends_refl|apply heap_extends_alloc|].
    + intros l [->|Hl]%elem_of_cons; [apply alloc_fresh|].
      by eapply alloc_None_old, Hst.
    + cbn [fst snd tree_depth foldr map] in Hd, Hle |- *. lia.
Qed.

(** ** A stored tree of depth [d] occupies at least [d] objects *)

Lemma heap_extends_size h1 h2 : heap_extends h1 h2 -> size h1 <= size h2.
Proof. intros E. by apply map_subseteq_size, map_subseteq_spec. Qed.

Lemma agree_new_size h0 h1 h' : agree_new h0 h1 h' -> size h1 <= size h0 + size h'.
Proof.
  intros A. rewrite <- (size_dom h1), <- (size_dom h0), <- (size_dom h').
  transitivity (size (dom h0 ∪ dom h')).
  - apply subseteq_size. intros l Hl. apply elem_of_dom in Hl as [x Hx].
    apply elem_of_union. destruct (h0 !! l) eqn:E.
    + left. apply elem_of_dom. by eexists.
    + right. apply elem_of_dom. eexists. by apply A.
  - rewrite size_union_alt.
    assert (Hs : dom h' ∖ dom h0 ⊆ dom h') by set_solver.
    pose proof (subseteq_size _ _ Hs). lia.
Qed.

Lemma foldr_max_bound {A} (g : A -> nat) (xs : list A) c N :
  Forall (fun x => c + g x <= N) xs -> c <= N -> c + foldr max 0 (map g xs) <= N.
Proof. induction 1; simpl; lia. Qed.

Lemma alloc_size h o : size (alloc h o).2 = S (size h).
Proof. apply map_size_insert_None, (alloc_fresh h o). Qed.

Lemma alloc_tree_size t h : size h + tree_depth t <= size (alloc_tree h t).2.
Proof.
  revert h. induction t as [s|xs IH|kvs IH] using pytree_ind; intros h; simpl tree_depth.
  - simpl. lia.
  - rewrite alloc_tree_TList. cbn [snd]. rewrite alloc_size.
    destruct (alloc_seq_spec alloc_tree (heap_extends h) heap_extends
                (fun x _ hf => size h + tree_depth x <= size hf)
                heap_extends_refl heap_extends_trans) with (xs := xs) (h := h)
      as (HI & _ & HF); [| |apply heap_extends_refl|].
    { intros x v h1 h2 Hx H12. pose proof (heap_extends_size _ _ H12). lia. }
    { eapply Forall_impl; [exact IH|]. intros x Hx h1 H1.
      pose proof (heap_extends_size _ _ H1). specialize (Hx h1).
      split_and!; [eapply heap_extends_trans; [exact H1|apply alloc_tree_extends_heap]
                  |apply alloc_tree_extends_heap|lia]. }
    enough (size h + foldr max 0 (map tree_depth xs) <= size (alloc_seq alloc_tree h xs).2) by lia.
    apply foldr_max_bound; [|by apply heap_extends_size].
    apply Forall_forall. intros x Hx. apply list_elem_of_lookup_1 in Hx as [i Hi].
    destruct (Forall2_lookup_l _ _ _ _ _ HF Hi) as (v & _ & ?). done.
  - rewrite alloc_tree_TDict. cbn [snd]. rewrite alloc_size.
    destruct (alloc_seq_spec alloc_entry (heap_extends h) heap_extends
                (fun (kx : scalar * pytree) _ hf => size h + tree_depth kx.2 <= size hf)
                heap_extends_refl heap_extends_trans) with (xs := kvs) (h := h)
      as (HI & _ & HF); [| |apply heap_extends_refl|].
    { intros x v h1 h2 Hx H12. pose proof (heap_extends_size _ _ H12). lia. }
    { eapply Forall_impl; [exact IH|]. intros [k x] Hx h1 H1. rewrite alloc_entry_snd.
      pose proof (heap_extends_size _ _ H1). specialize (Hx h1). simpl in Hx |- *.
      split_and!; [eapply heap_extends_trans; [exact H1|apply alloc_tree_extends_heap]
                  |apply alloc_tree_extends_heap|lia]. }
    enough (size h + foldr max 0 (map (fun kv => tree_depth kv.2) kvs)
              <= size (alloc_seq alloc_entry h kvs).2) by lia.
    apply foldr_max_bound; [|by apply heap_extends_size].
    apply Forall_forall. intros x Hx. apply list_elem_of_lookup_1 in Hx as [i Hi].
    destruct (Forall2_lookup_l _ _ _ _ _ HF Hi) as (v & _ & ?). done.
Qed.

Lemma alloc_tree_depth_le t h h' :
  agree_new h (alloc_tree h t).2 h' -> tree_depth t <= size h'.
Proof.
  intros A. pose proof (alloc_tree_size t h). pose proof (agree_new_size _ _ _ A). lia.
Qed.

(** [str] of a stored tree, in any heap that keeps the objects of the
    tree. *)
Lemma py_str_alloc_tree t h h' :
  tree_keys_ok t = true -> agree_new h (alloc_tree h t).2 h' ->
  py_str h' (alloc_tree h t).1 = Some (tree_str t).
Proof.
  intros Hok Ha. pose proof (alloc_tree_depth_le _ _ _ Ha) as Hd.
  destruct t as [[|b|z|s]|xs|kvs];
    [exact (repr_fuel_scalar (repr_fuel_for h') h' [] SNone)
    |exact (repr_fuel_scalar (repr_fuel_for h') h' [] (SBool b))
    |exact (repr_fuel_scalar (repr_fuel_for h') h' [] (SInt z))
    |reflexivity| |];
    (match goal with
     | |- py_str _ (alloc_tree _ ?t).1 = _ =>
         assert (Hv : exists l, (alloc_tree h t).1 = VRef l)
           by (rewrite ?alloc_tree_TList, ?alloc_tree_TDict; by eexists)
     end;
     destruct Hv as [l Hv]; rewrite Hv; cbn [py_str]; unfold py_repr, tree_str;
     rewrite <- Hv; apply alloc_tree_repr; [done|done|by intros ? ?%elem_of_nil|];
     unfold repr_fuel_for; lia).
Qed.

(** ** [str] in a larger heap *)

(** The objects a [repr] reads are the same in every heap that keeps
    them; a larger heap gives more fuel, which changes nothing. *)
Lemma repr_fuel_extends n h h' st v s :
  heap_extends h h' -> repr_fuel n h st v = Some s -> repr_fuel n h' st v = Some s.
Proof.
  intros E. revert st v s. induction n as [|n IH]; intros st v s.
  - destruct v as [| [] | | | l]; simpl; congruence.
  - destruct v as [| [] | | | l]; simpl; try done.
    destruct (h !! l) as [[kvs|xs]|] eqn:Hl; [| |done]; rewrite (E _ _ Hl).
    + case_bool_decide; [done|]. destruct kvs as [|kv kvs]; [done|].
      apply mapM_bind_mono. intros [k x] y Hy; simpl in *.
      apply bind_Some in Hy as (sk & Hk & Hy). apply bind_Some in Hy as (sx & Hx & Hy).
      rewrite (IH _ _ sk Hk). simpl. by rewrite (IH _ _ sx Hx).
    + destruct xs as [|x xs]; [done|]. case_bool_decide; [done|].
      apply mapM_bind_mono. intros y sy. apply IH.
Qed.

Lemma py_str_extends h h' v s :
  heap_extends h h' -> py_str h v = Some s -> py_str h' v = Some s.
Proof.
  intros E. destruct v; try done; unfold py_str, py_repr, repr_fuel_for; intros Hs;
    apply (repr_fuel_extends _ h); try done;
    apply (repr_fuel_mono (S (size h))); try done; pose proof (heap_extends_size _ _ E); lia.
Qed.
