(* ===== verification/GraphDB.v ===== *)
(** * The graph database, as the node sees it

    The node's only collaborator is [graph.query(query=..., params=...)] of
    langchain's [Neo4jGraph].  The interface is a class: a database with a
    state of its own, a query that receives the Cypher text and the entries
    of the parameter dict (as the driver reads them at the call) and either
    returns rows, as trees, or raises.  The node's theorems are proved for
    every instance.  [MockGraph] is one instance, a table from statements to
    rows with a log of the calls it received, used to run the node on
    concrete requests. *)

From Stdlib Require Import ZArith String Ascii.
From stdpp Require Import base gmap strings list.
From S2P Require Import Prelude PyObject PyTree.

Class Neo4jGraph (D : Type) := {
  graph_query : D -> string -> list (value * value) -> D * res string (list pytree)
}.

(** ** A mock database *)

Record mock_db := MockDb {
  mock_table : list (string * list pytree);
  mock_log : list (string * list (value * value))
}.

Definition mock_query (m : mock_db) (q : string) (params : list (value * value))
  : mock_db * res string (list pytree) :=
  let m' := MockDb (mock_table m) (mock_log m ++ [(q, params)]) in
  match list_find (fun e => e.1 = q) (mock_table m) with
  | Some (_, (_, rows)) => (m', Ok rows)
  | None => (m', Err "Neo.ClientError.Statement.SyntaxError"%string)
  end.

#[export] Instance mock_graph : Neo4jGraph mock_db := {| graph_query := mock_query |}.
