(* ===== verification/Dispatch.v ===== *)
(** * The specification's dispatch, on trees

    The contract of the component as the specification states it
    (sections 3, 4.2 and 6), independent of the Python heap: a
    [QueryRequest] (task, query name, and a parameter bag holding the
    lookup key and the parameters), the registry lookup, the coercion of
    every parameter to its canonical textual form (section 9's
    [toBindingString], which is Python's [str]), one call of the database
    with the template and the bindings, and the [QueryOutcome].  A
    database fault is the [Err] of the result: the specification lets it
    propagate (section 7).  The orchestrator's encoding of a request as
    the state dict is [request_tree]. *)

From Stdlib Require Import ZArith String Ascii.
From stdpp Require Import base gmap strings list.
From S2P Require Import Prelude PyObject PyRepr PyTree TreeRead GraphDB.

Local Open Scope string_scope.

(** [QueryRequest] (section 3). *)
Record request := Request {
  rq_task : pytree;                       (** [taskDescription] *)
  rq_name : pytree;                       (** [queryName] *)
  rq_query : scalar;                      (** [queryParameters.query] *)
  rq_params : list (scalar * pytree)      (** [queryParameters.parameters] *)
}.

(** [QueryOutcome] (section 3). *)
Record outcome := Outcome {
  oc_task : pytree;
  oc_statement : string;
  oc_parameters : pytree;
  oc_errors : list string;
  oc_records : pytree;
  oc_steps : list string
}.

(** The parameter bag, as the request carries it. *)
Definition bag_tree (q : scalar) (ps : list (scalar * pytree)) : pytree :=
  TDict [(SStr "query", TScalar q); (SStr "parameters", TDict ps)].

(** The state dict the orchestrator passes. *)
Definition request_tree (rq : request) : pytree :=
  TDict [(SStr "task", rq_task rq); (SStr "query_name", rq_name rq);
         (SStr "query_parameters", bag_tree (rq_query rq) (rq_params rq))].

(** Section 4.1: the registry answers string keys. *)
Definition registry_lookup (reg : gmap string string) (key : scalar) : option string :=
  match key with SStr s => reg !! s | _ => None end.

(** Section 4.2 step 2 and section 9: every value replaced by its
    canonical textual form. *)
Definition coerce_bag (ps : list (scalar * pytree)) : list (scalar * pytree) :=
  map (fun kv => (kv.1, TScalar (SStr (tree_str kv.2)))) ps.

(** The bindings handed to the database (section 6). *)
Definition bindings (ps : list (scalar * pytree)) : list (value * value) :=
  map (fun kv => (scalar_value kv.1, VStr (tree_str kv.2))) ps.

Definition spec_step : string := "execute_predefined_cypher".

Definition lookup_miss_msg (name : string) : string :=
  "Unable to find the specified Cypher statement: " ++ name.

Section Dispatch.
Context {D : Type} `{!Neo4jGraph D}.

(** Section 4.2, [dispatch(request)]. *)
Definition dispatch (reg : gmap string string) (sentinel : pytree) (d : D) (rq : request)
  : D * res string outcome :=
  let echoed := bag_tree (rq_query rq) (rq_params rq) in
  match registry_lookup reg (rq_query rq) with
  | Some tmpl =>
      match graph_query d tmpl (bindings (rq_params rq)) with
      | (d', Ok rows) =>
          (d', Ok (Outcome (rq_task rq) tmpl echoed []
                     (match rows with [] => sentinel | _ => TList rows end) [spec_step]))
      | (d', Err msg) => (d', Err msg)
      end
  | None =>
      (d, Ok (Outcome (rq_task rq) "" echoed [lookup_miss_msg (tree_str (rq_name rq))]
                sentinel [spec_step]))
  end.
End Dispatch.
