(* ===== verification/Node.v ===== *)
(** * The [predefined_cypher] node

    [create_predefined_cypher_node(graph, predefined_cypher_dict)] returns
    the coroutine [predefined_cypher(state)] (node.py, lines 13-82).  It is
    modelled as a computation in the state-and-exception monad of the
    prelude, over a state made of the Python heap, the lines printed on
    stdout, and the database's state.  The body is split along the three
    blocks of the source: reading the request and coercing the parameters
    to strings (lines 40-52), looking the statement up and running it
    (lines 54-64), and building the returned dict (lines 66-80).  Every
    allocation the source performs is an allocation here, in the source's
    order, and every dict the node reads or mutates is a heap object, so
    that the aliasing between [params] and the caller's state is the
    source's. *)

From Stdlib Require Import ZArith String Ascii.
From stdpp Require Import base gmap strings list.
From S2P Require Import Prelude PyObject PyRepr PyTree GraphDB.

Section Node.
Context {D : Type} `{!Neo4jGraph D}.

Record pystate := PyState {
  st_heap : heap;
  st_out : list string;   (** lines printed, oldest first *)
  st_db : D
}.

Local Abbreviation PyM := (StErr pystate exn).

(** ** Primitive operations *)

Definition m_heap : PyM heap := fun s => (s, Ok (st_heap s)).

Definition m_set_heap (h : heap) : PyM unit :=
  fun s => (PyState h (st_out s) (st_db s), Ok tt).

Definition m_lift {A} (f : heap -> res exn A) : PyM A :=
  h ← m_heap; lift_res (f h).

Definition m_alloc (o : obj) : PyM loc :=
  h ← m_heap; m_set_heap (alloc h o).2;; mret (alloc h o).1.

Definition m_get (o k d : value) : PyM value := m_lift (fun h => dict_get h o k d).

Definition m_items (o : value) : PyM (loc * list (value * value)) :=
  m_lift (fun h => dict_items h o).

Definition m_setitem (l : loc) (k v : value) : PyM unit :=
  h ← m_heap; h' ← lift_res (dict_setitem h l k v); m_set_heap h'.

Definition m_append (l : loc) (v : value) : PyM unit :=
  h ← m_heap; h' ← lift_res (list_append h l v); m_set_heap h'.

Definition recursion_msg : string :=
  "maximum recursion depth exceeded while getting the repr of an object".

(** [str(v)] *)
Definition m_str (v : value) : PyM string :=
  h ← m_heap;
  match py_str h v with
  | Some s => mret s
  | None => raise! (RecursionError recursion_msg)
  end.

(** [print(a, b, ...)]: the [str] of each argument, separated by spaces. *)
Definition m_print (args : list value) : PyM unit :=
  ss ← mapM m_str args;
  modify_st (fun s => PyState (st_heap s) (st_out s ++ [String.concat " " ss]) (st_db s)).

(** [graph.query(query=stmt, params=parameters)]: the driver reads the
    entries of the parameter dict; the rows come back as a fresh list. *)
Definition m_query (stmt : string) (parameters : value) : PyM value :=
  '(_, kvs) ← m_items parameters;
  s ← get_st;
  let '(d', r) := graph_query (st_db s) stmt kvs in
  put_st (PyState (st_heap s) (st_out s) d');;
  match r with
  | Err msg => raise! (Neo4jError msg)
  | Ok rows =>
      h ← m_heap;
      m_set_heap (alloc_tree_list h rows).2;;
      mret (alloc_tree_list h rows).1
  end.

(** [predefined_cypher_dict.get(key)]: the registry maps strings to
    strings; a key that is not a string is absent, and a dict or list key
    raises. *)
Definition reg_get (reg : gmap string string) (h : heap) (k : value)
  : res exn (option string) :=
  match k with
  | VStr s => Ok (reg !! s)
  | VRef _ => Err (TypeError (unhashable_msg h k))
  | _ => Ok None
  end.

Definition stmt_value (o : option string) : value :=
  match o with Some t => VStr t | None => VNone end.

(** ** Lines 49-52: [for key, value in parameters.items():
                        parameters[key] = str(value)]

    The dict iterator's [next] checks that the dict kept its size, then
    yields the entry at its position, or stops past the end.  [n] bounds
    the number of [next] calls: [S (length kvs)] is exactly the number the
    loop makes. *)
Fixpoint coerce_loop (n : nat) (l : loc) (len0 i : nat) : PyM unit :=
  match n with
  | O => mret tt
  | S n' =>
      '(_, kvs) ← m_items (VRef l);
      if decide (length kvs = len0) then
        match kvs !! i with
        | None => mret tt
        | Some (k, v) =>
            s ← m_str v;
            m_setitem l k (VStr s);;
            coerce_loop n' l len0 (S i)
        end
      else raise! (RuntimeError "dictionary changed size during iteration")
  end.

Definition coerce_parameters (parameters : value) : PyM unit :=
  '(l, kvs) ← m_items parameters;
  coerce_loop (S (length kvs)) l (length kvs) 0.

(** ** Lines 40-47: read the request and print it *)
Definition read_state (state : value) : PyM (loc * value * value) :=
  errors ← m_alloc (OList []);
  statement_name ← m_get state (VStr "query_name") (VStr "");
  dflt ← m_alloc (ODict []);
  params ← m_get state (VStr "query_parameters") (VRef dflt);
  m_print [VStr "statement_name"; statement_name];;
  m_print [VStr "params"; params];;
  mret (errors, statement_name, params).

(** ** Line 50: [parameters = params.get("parameters", {})] *)
Definition get_parameters (params : value) : PyM value :=
  dflt ← m_alloc (ODict []);
  m_get params (VStr "parameters") (VRef dflt).

(** ** Lines 40-52: read the request, coerce the parameters *)
Definition read_request (state : value) : PyM (loc * value * value * value) :=
  '(errors, statement_name, params) ← read_state state;
  parameters ← get_parameters params;
  coerce_parameters parameters;;
  mret (errors, statement_name, params, parameters).

Definition miss_msg (name : string) : string :=
  "Unable to find the specified Cypher statement: " ++ name.

(** ** Lines 54-64: look the statement up, run it or record the miss *)
Definition run_statement (reg : gmap string string) (errors : loc)
    (statement_name params parameters : value) : PyM (option string * value) :=
  q ← m_get params (VStr "query") VNone;
  statement ← m_lift (fun h => reg_get reg h q);
  m_print [VStr "statement"; stmt_value statement];;
  match statement with
  | Some stmt =>
      records ← m_query stmt parameters;
      rs ← m_str records;
      m_print [VStr ("records: " ++ rs)];;
      mret (statement, records)
  | None =>
      name ← m_str statement_name;
      m_append errors (VStr (miss_msg name));;
      rl ← m_alloc (OList []);
      mret (statement, VRef rl)
  end.

Definition step_name : string := "execute_predefined_cypher".

(** The fields of [CypherOutputState], in the order of the literal. *)
Definition cypher_fields (task stmt params : value) (errors : loc)
    (records : value) (steps : loc) : list (value * value) :=
  [(VStr "task", task); (VStr "statement", stmt); (VStr "parameters", params);
   (VStr "errors", VRef errors); (VStr "records", records);
   (VStr "steps", VRef steps)].

(** ** Lines 66-80: the returned dict.  [no_results] is the module
    constant [NO_CYPHER_RESULTS]. *)
Definition build_output (no_results state : value) (errors : loc)
    (statement : option string) (params records : value) : PyM value :=
  task ← m_get state (VStr "task") (VStr "");
  h ← m_heap;
  let stmt := py_or h (stmt_value statement) (VStr "") in
  let recs := py_or h records no_results in
  steps ← m_alloc (OList [VStr step_name]);
  let fields := cypher_fields task stmt params errors recs steps in
  _ ← m_alloc (ODict fields);
  cy ← m_alloc (ODict fields);
  cyphers ← m_alloc (OList [VRef cy]);
  steps' ← m_alloc (OList [VStr step_name]);
  out ← m_alloc (ODict [(VStr "cyphers", VRef cyphers); (VStr "steps", VRef steps')]);
  mret (VRef out).

(** ** The node *)
Definition predefined_cypher (reg : gmap string string) (no_results state : value)
  : PyM value :=
  '(errors, statement_name, params, parameters) ← read_request state;
  '(statement, records) ← run_statement reg errors statement_name params parameters;
  build_output no_results state errors statement params records.

Definition create_predefined_cypher_node (reg : gmap string string) (no_results : value)
  : value -> PyM value :=
  predefined_cypher reg no_results.
End Node.

Arguments pystate : clear implicits.
