(* ===== verification/Scenarios.v ===== *)
(** * Concrete requests

    The three scenarios of the specification (section 8), as heaps built
    from the request trees the orchestrator would pass, a registry, and a
    mock database; and three requests that leave the specification's
    happy path: a dict as the query key (D), a string as
    [query_parameters] (E), no [query_parameters] at all (F).  The node's theorems are applied to them in [NodeSpec].
    [no_results_tree] stands for the module constant [NO_CYPHER_RESULTS],
    whose value lives outside the repository's sources. *)

From Stdlib Require Import ZArith String Ascii.
From stdpp Require Import base gmap strings list.
From S2P Require Import Prelude PyObject PyRepr PyTree GraphDB Node.

Open Scope string_scope.

Definition no_results_tree : pytree :=
  TList [TDict [(SStr "error", TScalar (SStr "No data was found"))]].

(** The heap holding the sentinel, and the sentinel's value. *)
Definition heap0 : heap := Eval vm_compute in (alloc_tree ∅ no_results_tree).2.
Definition no_results : value := Eval vm_compute in (alloc_tree ∅ no_results_tree).1.

Definition find_person : string := "MATCH (p:Person {id:$id}) RETURN p".

(** Scenario A: a registered query, found, with one row. *)
Definition request_A : pytree :=
  TDict [(SStr "task", TScalar (SStr "Who is person 42?"));
         (SStr "query_name", TScalar (SStr "find_person"));
         (SStr "query_parameters",
           TDict [(SStr "query", TScalar (SStr "find_person"));
                  (SStr "parameters", TDict [(SStr "id", TScalar (SInt 42))])])].
Definition registry_A : gmap string string := {[ "find_person" := find_person ]}.
Definition db_A : mock_db :=
  MockDb [(find_person, [TDict [(SStr "p", TScalar (SStr "Ann"))]])] [].

(** Scenario B: an empty registry; the lookup misses. *)
Definition request_B : pytree :=
  TDict [(SStr "task", TScalar (SStr "Find someone"));
         (SStr "query_name", TScalar (SStr "lookup_person"));
         (SStr "query_parameters",
           TDict [(SStr "query", TScalar (SStr "missing"));
                  (SStr "parameters", TDict [])])].
Definition registry_B : gmap string string := ∅.
Definition db_B : mock_db := MockDb [] [].

(** Scenario C: a registered query that returns no rows. *)
Definition request_C : pytree :=
  TDict [(SStr "task", TScalar (SStr "Count the widgets"));
         (SStr "query_name", TScalar (SStr "q1"));
         (SStr "query_parameters",
           TDict [(SStr "query", TScalar (SStr "q1"));
                  (SStr "parameters", TDict [(SStr "color", TScalar (SStr "red"))])])].
Definition registry_C : gmap string string := {[ "q1" := "MATCH (w:Widget) RETURN w" ]}.
Definition db_C : mock_db := MockDb [("MATCH (w:Widget) RETURN w", [])] [].

Definition heap_A : heap := Eval vm_compute in (alloc_tree heap0 request_A).2.
Definition state_A : value := Eval vm_compute in (alloc_tree heap0 request_A).1.
Definition heap_B : heap := Eval vm_compute in (alloc_tree heap0 request_B).2.
Definition state_B : value := Eval vm_compute in (alloc_tree heap0 request_B).1.
Definition heap_C : heap := Eval vm_compute in (alloc_tree heap0 request_C).2.
Definition state_C : value := Eval vm_compute in (alloc_tree heap0 request_C).1.

(** The entries of the three dicts of each request. *)
Definition dict_entries (h : heap) (l : loc) : list (value * value) :=
  match h !! l with Some (ODict kvs) => kvs | _ => [] end.

Definition state_kvs_A := Eval vm_compute in dict_entries heap_A 5%positive.
Definition params_kvs_A := Eval vm_compute in dict_entries heap_A 4%positive.
Definition parameters_kvs_A := Eval vm_compute in dict_entries heap_A 3%positive.
Definition state_kvs_B := Eval vm_compute in dict_entries heap_B 5%positive.
Definition params_kvs_B := Eval vm_compute in dict_entries heap_B 4%positive.
Definition parameters_kvs_B := Eval vm_compute in dict_entries heap_B 3%positive.
Definition state_kvs_C := Eval vm_compute in dict_entries heap_C 5%positive.
Definition params_kvs_C := Eval vm_compute in dict_entries heap_C 4%positive.
Definition parameters_kvs_C := Eval vm_compute in dict_entries heap_C 3%positive.

(** The state after coercing the parameters of scenario A. *)
Definition coerced_state_A : pystate mock_db :=
  Eval vm_compute in (coerce_parameters (VRef 3%positive) (PyState heap_A [] db_A)).1.

(** Scenario D: the model put a dict where the query name belongs. *)
Definition request_D : pytree :=
  TDict [(SStr "task", TScalar (SStr "Who is person 42?"));
         (SStr "query_name", TScalar (SStr "find_person"));
         (SStr "query_parameters",
           TDict [(SStr "query", TDict [(SStr "name", TScalar (SStr "find_person"))]);
                  (SStr "parameters", TDict [(SStr "id", TScalar (SInt 42))])])].
Definition heap_D : heap := Eval vm_compute in (alloc_tree heap0 request_D).2.
Definition state_D : value := Eval vm_compute in (alloc_tree heap0 request_D).1.

(** Scenario E: [query_parameters] is a string. *)
Definition request_E : pytree :=
  TDict [(SStr "task", TScalar (SStr "Who is person 42?"));
         (SStr "query_name", TScalar (SStr "find_person"));
         (SStr "query_parameters", TScalar (SStr "find_person"))].
Definition heap_E : heap := Eval vm_compute in (alloc_tree heap0 request_E).2.
Definition state_E : value := Eval vm_compute in (alloc_tree heap0 request_E).1.

(** Scenario F: no [query_parameters] at all. *)
Definition request_F : pytree :=
  TDict [(SStr "task", TScalar (SStr "Who is person 42?"));
         (SStr "query_name", TScalar (SStr "find_person"))].
Definition heap_F : heap := Eval vm_compute in (alloc_tree heap0 request_F).2.
Definition state_F : value := Eval vm_compute in (alloc_tree heap0 request_F).1.
