(* ===== verification/Runs.v ===== *)
(** * Run lemmas of the primitive operations

    Each primitive of [Node] ([m_alloc], [m_get], [m_items], [m_str],
    [m_setitem], [m_append], [m_print], [m_lift], [m_query]) gets an
    equation that computes its run from a state whose heap satisfies the
    operation's precondition.  The proofs of [Coerce] and [NodeSpec] are
    chains of these equations, glued by [sterr_bind_run]. *)

From Stdlib Require Import ZArith String Ascii.
From stdpp Require Import base gmap strings list.
From S2P Require Import Prelude PyObject PyRepr PyTree GraphDB Node.

Section Runs.
Context {D : Type} `{!Neo4jGraph D}.
Implicit Types (h : heap) (o : list string) (d : D).

Lemma m_alloc_run h o d ob :
  m_alloc ob (PyState h o d) = (PyState (alloc h ob).2 o d, Ok (alloc h ob).1).
Proof. reflexivity. Qed.

Lemma m_get_run h o d ov k df :
  m_get ov k df (PyState h o d) = (PyState h o d, dict_get h ov k df).
Proof. reflexivity. Qed.

Lemma m_items_run h o d ov :
  m_items ov (PyState h o d) = (PyState h o d, dict_items h ov).
Proof. reflexivity. Qed.

Lemma m_str_run h o d v s :
  py_str h v = Some s -> m_str v (PyState h o d) = (PyState h o d, Ok s).
Proof. intros Hs. cbv [m_str m_heap mbind sterr_bind]. cbn [st_heap]. by rewrite Hs. Qed.

Lemma m_setitem_run h o d l k v h' :
  dict_setitem h l k v = Ok h' ->
  m_setitem l k v (PyState h o d) = (PyState h' o d, Ok tt).
Proof. intros Hs. cbv [m_setitem m_heap mbind sterr_bind lift_res]. cbn [st_heap]. by rewrite Hs. Qed.

Lemma m_append_run h o d l v h' :
  list_append h l v = Ok h' ->
  m_append l v (PyState h o d) = (PyState h' o d, Ok tt).
Proof. intros Hs. cbv [m_append m_heap mbind sterr_bind lift_res]. cbn [st_heap]. by rewrite Hs. Qed.

Lemma mapM_m_str_run h o d args ss :
  mapM (py_str h) args = Some ss ->
  mapM m_str args (PyState h o d) = (PyState h o d, Ok ss).
Proof.
  revert ss. induction args as [|a args IH]; intros ss Hss; simpl in *.
  - by injection Hss as <-.
  - destruct (py_str h a) as [sa|] eqn:Ha; [|done]. simpl in Hss.
    destruct (mapM (py_str h) args) as [sas|] eqn:Has; [|done]. simpl in Hss.
    injection Hss as <-.
    rewrite sterr_bind_run, (m_str_run _ _ _ _ _ Ha). cbv beta iota.
    rewrite sterr_bind_run, (IH sas) by done. reflexivity.
Qed.

Lemma m_print_run h o d args ss :
  mapM (py_str h) args = Some ss ->
  m_print args (PyState h o d) = (PyState h (o ++ [String.concat " " ss]) d, Ok tt).
Proof.
  intros Hss. unfold m_print. rewrite sterr_bind_run.
  by rewrite (mapM_m_str_run _ _ _ _ _ Hss).
Qed.

(** On a well-formed heap, [print] of allocated values prints. *)
Lemma mapM_py_str_total h args :
  wf_heap h -> Forall (fun v => value_okb h v = true) args ->
  is_Some (mapM (py_str h) args).
Proof.
  intros Hwf Hargs. apply mapM_is_Some_2. eapply Forall_impl; [exact Hargs|].
  intros v Hv. by apply py_str_total.
Qed.
Lemma print_total h o d args :
  wf_heap h -> Forall (fun v => value_okb h v = true) args ->
  exists line, m_print args (PyState h o d) = (PyState h (o ++ [line]) d, Ok tt).
Proof.
  intros Hwf Hargs. destruct (mapM_py_str_total h args Hwf Hargs) as [ss Hss].
  eexists. by apply m_print_run.
Qed.

Lemma dict_lookup_okb h l kvs k v :
  wf_heap h -> h !! l = Some (ODict kvs) -> dict_lookup kvs k = Some v -> value_okb h v = true.
Proof.
  intros Hwf Hl. unfold dict_lookup.
  destruct (dict_find kvs k) as [i|]; simpl; [|done].
  destruct (kvs !! i) as [[k' v']|] eqn:Hi; simpl; [|done]. intros [= <-].
  destruct (wf_heap_dict _ _ _ Hwf Hl) as [Hok _].
  pose proof (Forall_lookup_1 _ _ _ _ Hok Hi) as Hkv. unfold entry_okb in Hkv.
  simpl in Hkv. by apply andb_prop in Hkv as [_ ?].
Qed.

Lemma default_lookup_okb h l kvs k df :
  wf_heap h -> h !! l = Some (ODict kvs) -> value_okb h df = true ->
  value_okb h (default df (dict_lookup kvs k)) = true.
Proof.
  intros Hwf Hl Hdf. destruct (dict_lookup kvs k) eqn:E; simpl; [|done].
  by eapply dict_lookup_okb.
Qed.

Lemma m_lift_run {A} h o d (f : heap -> res exn A) :
  m_lift f (PyState h o d) = (PyState h o d, f h).
Proof. reflexivity. Qed.

Lemma m_query_run h o d t l kvs :
  h !! l = Some (ODict kvs) ->
  m_query t (VRef l) (PyState h o d) =
    match graph_query d t kvs with
    | (d', Ok rows) =>
        (PyState (alloc_tree_list h rows).2 o d', Ok (alloc_tree_list h rows).1)
    | (d', Err msg) => (PyState h o d', Err (Neo4jError msg))
    end.
Proof.
  intros Hl. unfold m_query.
  rewrite sterr_bind_run, m_items_run, (dict_items_dict _ _ _ Hl). cbv beta iota.
  cbv [get_st put_st mbind sterr_bind]. cbn [st_db st_heap st_out].
  destruct (graph_query d t kvs) as [d' [rows|msg]]; reflexivity.
Qed.
End Runs.
