(* ===== verification/Coerce.v ===== *)
(** * The coercion loop (node.py, lines 49-52)

    [for key, value in parameters.items(): parameters[key] = str(value)]:
    the loop terminates without error on every dict of a well-formed heap,
    replaces every value by its [str] (computed in the heap where the
    earlier positions already hold their strings, which matters when the
    dict contains itself), keeps the keys, their order and every other
    object; on a dict that does not contain itself it agrees with the
    one-pass reference [str_entries]; it is idempotent. *)

From Stdlib Require Import ZArith String Ascii.
From stdpp Require Import base gmap strings list.
From S2P Require Import Prelude PyObject PyRepr PyTree TreeRead GraphDB Node Scenarios Runs.

(** ** The coercion loop (lines 49-52) *)

(** [d[k] = v] with a key taken from the dict replaces the value at the
    key's own position: keys are distinct. *)
Lemma setitem_own_key h l cur i k v w :
  wf_heap (<[l := ODict cur]> h) -> cur !! i = Some (k, v) ->
  dict_setitem (<[l := ODict cur]> h) l k w = Ok (<[l := ODict (<[i := (k, w)]> cur)]> h).
Proof.
  intros Hwf Hi. destruct (wf_heap_dict _ l cur Hwf) as [Hok Hu]; [apply lookup_insert_eq|].
  pose proof (Forall_lookup_1 _ _ _ _ Hok Hi) as Hkv.
  unfold entry_okb in Hkv; simpl in Hkv. apply andb_prop in Hkv as [Hk _].
  unfold dict_setitem. rewrite lookup_insert_eq, Hk, insert_insert_eq.
  erewrite dict_set_found; [done| |exact Hi]. by eapply dict_find_unique.
Qed.

(** The value at position [j] of the dict at [l] was replaced by its [str],
    computed in the heap where the positions before [j] already hold their
    strings. *)
Definition coerced_at (h : heap) (l : loc) (kvs cur : list (value * value)) (j : nat) : Prop :=
  forall k v, kvs !! j = Some (k, v) ->
    exists s, cur !! j = Some (k, VStr s) /\
              py_str (<[l := ODict (take j cur ++ drop j kvs)]> h) v = Some s.

Section Coerce.
Context {D : Type} `{!Neo4jGraph D}.
Implicit Types (h : heap) (o : list string) (d : D).

Lemma coerce_loop_run n h o d l kvs cur i :
  wf_heap (<[l := ODict cur]> h) -> length cur = length kvs -> cur.*1 = kvs.*1 ->
  (forall j, i <= j -> cur !! j = kvs !! j) -> i <= length kvs -> length kvs - i < n ->
  exists cur',
    coerce_loop n l (length kvs) i (PyState (<[l := ODict cur]> h) o d) =
      (PyState (<[l := ODict cur']> h) o d, Ok tt) /\
    wf_heap (<[l := ODict cur']> h) /\
    length cur' = length kvs /\ cur'.*1 = kvs.*1 /\
    (forall j, j < i -> cur' !! j = cur !! j) /\
    (forall j, i <= j -> coerced_at h l kvs cur' j).
Proof.
  revert cur i. induction n as [|n IH]; intros cur i Hwf Hlen Hkeys Hrest Hi Hn; [lia|].
  simpl. rewrite sterr_bind_run, m_items_run. simpl. rewrite lookup_insert_eq.
  cbv beta iota. rewrite decide_True by done.
  destruct (cur !! i) as [[k v]|] eqn:Hci.
  - assert (kvs !! i = Some (k, v)) as Hki by (rewrite <- Hrest; auto).
    destruct (wf_heap_dict _ l cur Hwf) as [Hok _]; [apply lookup_insert_eq|].
    pose proof (Forall_lookup_1 _ _ _ _ Hok Hci) as Hkv.
    unfold entry_okb in Hkv; simpl in Hkv. apply andb_prop in Hkv as [Hk Hv].
    destruct (py_str_total _ v Hwf Hv) as [s Hs].
    rewrite sterr_bind_run, (m_str_run _ _ _ _ _ Hs). cbv beta iota.
    rewrite sterr_bind_run, (m_setitem_run _ _ _ _ _ _ _ (setitem_own_key _ _ _ _ _ _ _ Hwf Hci)).
    cbv beta iota.
    assert (Hwf1 : wf_heap (<[l := ODict (<[i := (k, VStr s)]> cur)]> h)).
    { eapply (dict_setitem_wf _ l k (VStr s)); [exact Hwf|done|]. by eapply setitem_own_key. }
    assert (i < length kvs) as Hlt by (rewrite <- Hlen; by eapply lookup_lt_Some).
    assert (Hrest1 : forall j, S i <= j -> <[i := (k, VStr s)]> cur !! j = kvs !! j).
    { intros j Hj. rewrite list_lookup_insert_ne by lia. apply Hrest. lia. }
    destruct (IH (<[i := (k, VStr s)]> cur) (S i) Hwf1)
      as (cur' & Hrun & Hwf' & Hlen' & Hkeys' & Hlo & Hhi);
      [by rewrite length_insert|by rewrite (keys_insert_same _ _ _ _ _ Hci)|done|lia|lia|].
    exists cur'. split; [done|]. do 3 (split; [done|]). split.
    { intros j Hj. rewrite Hlo by lia. apply list_lookup_insert_ne. lia. }
    intros j Hj k' v' Hkj.
    destruct (decide (j = i)) as [->|Hne]; [|apply Hhi; [lia|done]].
    rewrite Hki in Hkj. injection Hkj as <- <-. exists s. split.
    + rewrite Hlo by lia. apply list_lookup_insert_eq. lia.
    + rewrite (take_drop_agree cur' kvs cur i); [done|lia|lia| |].
      * intros j0 Hj0. rewrite Hlo by lia. apply list_lookup_insert_ne. lia.
      * intros j0 Hj0. symmetry. by apply Hrest.
  - apply lookup_ge_None_1 in Hci. exists cur. split; [done|].
    do 4 (split; [done|]).
    intros j Hj k' v' Hkj. apply lookup_lt_Some in Hkj. lia.
Qed.
End Coerce.

Section CoerceParameters.
Context {D : Type} `{!Neo4jGraph D}.
Implicit Types (h : heap) (o : list string) (d : D).

Lemma coerce_parameters_run h o d l kvs :
  wf_heap h -> h !! l = Some (ODict kvs) ->
  exists kvs',
    coerce_parameters (VRef l) (PyState h o d) = (PyState (<[l := ODict kvs']> h) o d, Ok tt) /\
    wf_heap (<[l := ODict kvs']> h) /\ length kvs' = length kvs /\ kvs'.*1 = kvs.*1 /\
    (forall j, coerced_at h l kvs kvs' j).
Proof.
  intros Hwf Hl. pose proof (insert_id h l _ Hl) as Hid.
  destruct (coerce_loop_run (S (length kvs)) h o d l kvs kvs 0)
    as (kvs' & Hrun & Hwf' & Hlen & Hkeys & _ & Hco); rewrite ?Hid; try done; try lia.
  exists kvs'. unfold coerce_parameters.
  rewrite sterr_bind_run, m_items_run, (dict_items_dict _ _ _ Hl). cbv beta iota.
  rewrite <- Hid at 1. repeat split; try done. intros j. apply Hco. lia.
Qed.

(** C4 (coercion).  On a well-formed heap, the loop over the dict at [l]
    terminates without raising, after [len + 1] iterator steps; it keeps
    the keys and their order, replaces the value at each position [j] by
    its [str] computed in the heap where the positions before [j] already
    hold their strings, keeps the heap well formed, and changes no other
    object. *)
Theorem coerce_parameters_spec h o d l kvs :
  wf_heap h -> h !! l = Some (ODict kvs) ->
  exists kvs',
    coerce_parameters (VRef l) (PyState h o d) = (PyState (<[l := ODict kvs']> h) o d, Ok tt) /\
    wf_heap (<[l := ODict kvs']> h) /\ length kvs' = length kvs /\ kvs'.*1 = kvs.*1 /\
    (forall j, coerced_at h l kvs kvs' j).
Proof. apply coerce_parameters_run. Qed.
End CoerceParameters.

Section CoerceProps.
Context {D : Type} `{!Neo4jGraph D}.
Implicit Types (h : heap) (o : list string) (d : D).

(** Every value of the dict is a string. *)
Definition all_strings (kvs : list (value * value)) : Prop :=
  Forall (fun kv => exists s, kv.2 = VStr s) kvs.

(** The reference: [{k: str(v) for k, v in d.items()}], in one pass over
    the original entries. *)
Definition str_entries (h : heap) (kvs : list (value * value)) : option (list (value * value)) :=
  mapM (fun kv => s ← py_str h kv.2; Some (kv.1, VStr s)) kvs.

Lemma coerced_all_strings h l kvs kvs' :
  length kvs' = length kvs -> (forall j, coerced_at h l kvs kvs' j) -> all_strings kvs'.
Proof.
  intros Hlen Hco. apply Forall_lookup_2. intros j [k' v'] Hj.
  destruct (kvs !! j) as [[k v]|] eqn:Hkj.
  - destruct (Hco j k v Hkj) as (s & Hs & _). rewrite Hs in Hj.
    injection Hj as <- <-. by eexists.
  - apply lookup_ge_None_1 in Hkj. apply lookup_lt_Some in Hj. lia.
Qed.

(** C5 (coercion, reference equivalence).  On a parameter dict whose
    values are all scalars (the dicts an LLM's JSON output produces), the
    in-place loop [for key, value in parameters.items(): parameters[key] =
    str(value)] terminates and leaves the dict equal to the one-pass
    reference [{k: str(v) for k, v in parameters.items()}], and changes
    nothing else. *)
Theorem coerce_parameters_flat h o d l kvs :
  wf_heap h -> h !! l = Some (ODict kvs) -> Forall (fun kv => hashable kv.2 = true) kvs ->
  exists kvs', str_entries h kvs = Some kvs' /\
    coerce_parameters (VRef l) (PyState h o d) = (PyState (<[l := ODict kvs']> h) o d, Ok tt).
Proof.
  intros Hwf Hl Hflat.
  destruct (coerce_parameters_run h o d l kvs Hwf Hl) as (kvs' & Hrun & _ & Hlen & _ & Hco).
  exists kvs'. split; [|done]. apply mapM_Some, Forall2_same_length_lookup.
  split; [done|]. intros j [k v] [k' v'] Hj Hj'.
  destruct (Hco j k v Hj) as (s & Hs & Hstr). rewrite Hs in Hj'. injection Hj' as <- <-.
  simpl. rewrite (py_str_scalar _ h) in Hstr; [by rewrite Hstr|].
  exact (Forall_lookup_1 _ _ _ _ Hflat Hj).
Qed.

(** A dict whose values are all strings is left as it is. *)
Lemma coerce_parameters_strings h o d l kvs :
  wf_heap h -> h !! l = Some (ODict kvs) -> all_strings kvs ->
  coerce_parameters (VRef l) (PyState h o d) = (PyState h o d, Ok tt).
Proof.
  intros Hwf Hl Hstr.
  destruct (coerce_parameters_run h o d l kvs Hwf Hl) as (kvs' & Hrun & _ & Hlen & _ & Hco).
  rewrite Hrun. do 3 f_equal. rewrite <- (insert_id h l (ODict kvs)) at 2 by done.
  do 2 f_equal. apply list_eq. intros j.
  destruct (kvs !! j) as [[k v]|] eqn:Hkj.
  - destruct (Hco j k v Hkj) as (s & Hs & Hpy). rewrite Hs.
    destruct (Forall_lookup_1 _ _ _ _ Hstr Hkj) as [s0 Hs0]. simpl in Hs0. subst v.
    simpl in Hpy. by injection Hpy as ->.
  - apply lookup_ge_None_2. apply lookup_ge_None_1 in Hkj. lia.
Qed.

(** C10 (coercion is idempotent).  Running the coercion a second time on the
    state the first run produced leaves that state unchanged: after one
    pass every value is a string and [str] of a string is itself. *)
Theorem coerce_parameters_idempotent h o d l kvs s1 :
  wf_heap h -> h !! l = Some (ODict kvs) ->
  coerce_parameters (VRef l) (PyState h o d) = (s1, Ok tt) ->
  (exists kvs', st_heap s1 !! l = Some (ODict kvs') /\ all_strings kvs') /\
  coerce_parameters (VRef l) s1 = (s1, Ok tt).
Proof.
  intros Hwf Hl Hrun1.
  destruct (coerce_parameters_run h o d l kvs Hwf Hl) as (kvs' & Hrun & Hwf' & Hlen & _ & Hco).
  rewrite Hrun in Hrun1. injection Hrun1 as <-.
  assert (Hs : all_strings kvs') by (by eapply coerced_all_strings).
  split; [exists kvs'; split; [apply lookup_insert_eq|done]|].
  by eapply coerce_parameters_strings; [|apply lookup_insert_eq|].
Qed.
End CoerceProps.

Lemma coerced_at_insert h l (ob : obj) kvs cur j :
  coerced_at h l kvs cur j -> coerced_at (<[l := ob]> h) l kvs cur j.
Proof. unfold coerced_at. by setoid_rewrite insert_insert_eq. Qed.

(** The dict at [l] part-way through the loop, its first [j] values
    replaced by strings, is a well-formed object of the caller's heap. *)
Lemma coerced_prefix_okb h l kvs cur j :
  wf_heap h -> h !! l = Some (ODict kvs) -> cur.*1 = kvs.*1 ->
  (forall i k v, kvs !! i = Some (k, v) -> exists s, cur !! i = Some (k, VStr s)) ->
  obj_okb (<[l := ODict (take j cur ++ drop j kvs)]> h) (ODict (take j cur ++ drop j kvs)) = true.
Proof.
  intros Hwf Hl Hkeys Hstr. destruct (wf_heap_dict h l kvs Hwf Hl) as [Hok Huniq].
  set (H := <[l := ODict (take j cur ++ drop j kvs)]> h).
  assert (Hg : heap_grows h H) by apply heap_grows_insert.
  cbn [obj_okb]. apply andb_true_intro. split.
  - apply forallb_Forall_iff, Forall_app. split.
    + apply Forall_take, Forall_lookup_2. intros i [k' v'] Hi.
      assert (Hlt : i < length kvs).
      { rewrite <- (length_fmap fst kvs), <- Hkeys, length_fmap. by eapply lookup_lt_Some. }
      destruct (lookup_lt_is_Some_2 kvs i Hlt) as [[k v] Hkv].
      destruct (Hstr i k v Hkv) as [s Hs]. rewrite Hs in Hi. injection Hi as <- <-.
      pose proof (Forall_lookup_1 _ _ _ _ Hok Hkv) as Hkv'. cbn in Hkv' |- *.
      apply andb_prop in Hkv' as [-> _]. done.
    + apply Forall_drop. eapply Forall_impl; [exact Hok|]. intros [k v] Hkv. cbn in *.
      apply andb_prop in Hkv as [-> Hv]. cbn. by eapply value_okb_grows.
  - by rewrite fmap_app, fmap_take, fmap_drop, Hkeys, take_drop.
Qed.

(** A [coerced_at] fact of a heap that keeps the caller's objects (the
    dict at [l] apart) is one of the caller's heap: [str] of a value
    reads only objects the caller had. *)
Lemma coerced_at_shrink h h' l kvs cur j :
  wf_heap h -> h !! l = Some (ODict kvs) -> cur.*1 = kvs.*1 ->
  (forall l' x, h !! l' = Some x -> l' <> l -> h' !! l' = Some x) ->
  (forall i, coerced_at h' l kvs cur i) -> coerced_at h l kvs cur j.
Proof.
  intros Hwf Hl Hkeys Hkeep Hco k v Hkv.
  destruct (Hco j k v Hkv) as (s & Hcur & Hs). exists s. split; [done|].
  assert (Hstr : forall i k v, kvs !! i = Some (k, v) -> exists s, cur !! i = Some (k, VStr s)).
  { intros i k0 v0 Hi. destruct (Hco i k0 v0 Hi) as (s0 & ? & _). by exists s0. }
  set (X := ODict (take j cur ++ drop j kvs)).
  assert (Hwf' : wf_heap (<[l := X]> h)).
  { apply wf_heap_insert; [done|]. by apply coerced_prefix_okb. }
  assert (Hv : value_okb (<[l := X]> h) v = true).
  { destruct (wf_heap_dict h l kvs Hwf Hl) as [Hok _].
    pose proof (Forall_lookup_1 _ _ _ _ Hok Hkv) as Hkv'. cbn in Hkv'.
    apply andb_prop in Hkv' as [_ Hv]. eapply value_okb_grows; [apply heap_grows_insert|done]. }
  destruct (py_str_total _ v Hwf' Hv) as [s0 Hs0]. rewrite Hs0.
  rewrite (py_str_extends (<[l := X]> h) (<[l := X]> h') v s0) in Hs; [done| |done].
  intros l' x Hx. destruct (decide (l' = l)) as [->|Hne].
  - by rewrite lookup_insert_eq in Hx |- *.
  - rewrite lookup_insert_ne in Hx |- * by done. by apply Hkeep.
Qed.

(** ** The coercion on scenario A *)

(** The coercion at scenario A: [{"id": 42}] becomes [{"id": "42"}]. *)
Lemma coerce_parameters_spec_witness :
  exists kvs',
    coerce_parameters (VRef 3%positive) (PyState heap_A [] db_A) =
      (PyState (<[3%positive := ODict kvs']> heap_A) [] db_A, Ok tt) /\
    wf_heap (<[3%positive := ODict kvs']> heap_A) /\ length kvs' = length parameters_kvs_A /\
    kvs'.*1 = parameters_kvs_A.*1 /\ (forall j, coerced_at heap_A 3%positive parameters_kvs_A kvs' j).
Proof.
  apply coerce_parameters_spec.
  - apply (bool_decide_unpack _). vm_compute. exact I.
  - vm_compute. reflexivity.
Defined.

Lemma coerce_parameters_flat_witness :
  exists kvs', str_entries heap_A parameters_kvs_A = Some kvs' /\
    coerce_parameters (VRef 3%positive) (PyState heap_A [] db_A) =
      (PyState (<[3%positive := ODict kvs']> heap_A) [] db_A, Ok tt).
Proof.
  apply coerce_parameters_flat.
  - apply (bool_decide_unpack _). vm_compute. exact I.
  - vm_compute. reflexivity.
  - vm_compute. repeat constructor.
Defined.

Lemma coerce_parameters_idempotent_witness :
  (exists kvs', st_heap coerced_state_A !! 3%positive = Some (ODict kvs') /\ all_strings kvs') /\
  coerce_parameters (VRef 3%positive) coerced_state_A = (coerced_state_A, Ok tt).
Proof.
  apply (coerce_parameters_idempotent heap_A [] db_A 3%positive parameters_kvs_A).
  - apply (bool_decide_unpack _). vm_compute. exact I.
  - vm_compute. reflexivity.
  - vm_compute. reflexivity.
Defined.

(** ** The loop's fuel, and reading the bindings back *)

(** How the database reads a binding back as a value of the type of the
    parameter it replaced: [int(s)] for an integer, the literals [True],
    [False] and [None], the string itself for a string. *)
Definition parse_binding (like : value) (s : string) : option value :=
  match like with
  | VInt _ => (fun n => VInt (Z.of_int n)) <$> DecimalString.NilEmpty.int_of_string s
  | VStr _ => Some (VStr s)
  | VBool _ =>
      if String.eqb s "True" then Some (VBool true)
      else if String.eqb s "False" then Some (VBool false) else None
  | VNone => if String.eqb s "None" then Some VNone else None
  | VRef _ => None
  end.

(** [str] of a scalar reads back as the scalar. *)
Lemma parse_binding_str h v s : hashable v = true -> py_str h v = Some s -> parse_binding v s = Some v.
Proof.
  destruct v as [|[]|z|s'|]; try done; intros _ Hs; simpl in Hs; injection Hs as <-; try reflexivity.
  cbn [parse_binding]. pose proof (int_repr_roundtrip z) as Hz.
  destruct (DecimalString.NilEmpty.int_of_string (int_repr z)); simpl in *; by simplify_eq.
Qed.

Section CoerceRoundtrip.
Context {D : Type} `{!Neo4jGraph D}.
Implicit Types (h : heap) (o : list string) (d : D).

(** C15 (round trip of the bindings).  On a dict of a well-formed heap,
    the coercion returns, and every parameter whose value is a scalar
    ([None], a boolean, an integer or a string) is bound to a string that
    reads back as that value: the coercion keeps the value and loses only
    its type, which the database recovers. *)
Theorem coerce_parameters_roundtrip h o d l kvs :
  wf_heap h -> h !! l = Some (ODict kvs) ->
  exists kvs',
    coerce_parameters (VRef l) (PyState h o d) = (PyState (<[l := ODict kvs']> h) o d, Ok tt) /\
    forall j k v, kvs !! j = Some (k, v) -> hashable v = true ->
      exists s, kvs' !! j = Some (k, VStr s) /\ parse_binding v s = Some v.
Proof.
  intros Hwf Hl. destruct (coerce_parameters_run h o d l kvs Hwf Hl) as (kvs' & Hrun & _ & _ & _ & Hco).
  exists kvs'. split; [exact Hrun|]. intros j k v Hj Hv.
  destruct (Hco j k v Hj) as (s & Hs & Hstr). exists s. split; [done|].
  by apply (parse_binding_str _ _ _ Hv Hstr).
Qed.
End CoerceRoundtrip.

Lemma coerce_parameters_roundtrip_witness :
  (wf_heap heap_A /\ heap_A !! 3%positive = Some (ODict parameters_kvs_A)) /\
  exists kvs',
    coerce_parameters (VRef 3%positive) (PyState heap_A [] db_A) =
      (PyState (<[3%positive := ODict kvs']> heap_A) [] db_A, Ok tt) /\
    forall j k v, parameters_kvs_A !! j = Some (k, v) -> hashable v = true ->
      exists s, kvs' !! j = Some (k, VStr s) /\ parse_binding v s = Some v.
Proof.
  assert (Hwf : wf_heap heap_A) by (apply (bool_decide_unpack _); vm_compute; reflexivity).
  assert (Hl : heap_A !! 3%positive = Some (ODict parameters_kvs_A)) by (vm_compute; reflexivity).
  split; [split; [exact Hwf|exact Hl]|].
  exact (coerce_parameters_roundtrip heap_A [] db_A 3%positive parameters_kvs_A Hwf Hl).
Defined.
