(* ===== verification/NodeInv.v ===== *)
(** * The heap invariant, for every input

    [wp m Q h]: run from the well-formed heap [h], whatever the output
    lines and the database, [m] leaves a well-formed heap that extends [h]
    (no object disappears), and if it returns [a], [Q a] holds of the heap
    it leaves.  Raising is allowed: the invariant must hold after a raise
    too, since Python keeps every mutation made before it.  Each primitive
    of [Node] gets a rule in continuation form, each block of the node a
    lemma proved from the rules, and the node a theorem: from any
    well-formed heap and any state whose references are allocated, every
    run of [predefined_cypher] keeps the heap well formed. *)

From Stdlib Require Import ZArith String Ascii.
From stdpp Require Import base gmap strings list.
From S2P Require Import Prelude PyObject PyRepr PyTree GraphDB Node Scenarios Runs.

Section WP.
Context {D : Type} `{!Neo4jGraph D}.
Implicit Types (h : heap) (o : list string) (d : D).
Local Abbreviation PyM := (StErr (pystate D) exn).

Definition wp {A} (m : PyM A) (Q : A -> heap -> Prop) (h : heap) : Prop :=
  wf_heap h -> forall o d s' r, m (PyState h o d) = (s', r) ->
    wf_heap (st_heap s') /\ heap_grows h (st_heap s') /\
    forall a, r = Ok a -> Q a (st_heap s').

(** ** Structural rules *)

Lemma wp_ret {A} (a : A) Q h : Q a h -> wp (mret a) Q h.
Proof. intros HQ Hwf o d s' r [= <- <-]. split_and!; [done|apply heap_grows_refl|]. by intros ? [= <-]. Qed.

Lemma wp_bind {A B} (m : PyM A) (f : A -> PyM B) Q h :
  wp m (fun a h' => wp (f a) Q h') h -> wp (m ≫= f) Q h.
Proof.
  intros Hm Hwf o d s' r. rewrite sterr_bind_run.
  destruct (m (PyState h o d)) as [[h1 o1 d1] [a|e]] eqn:E.
  - destruct (Hm Hwf o d _ _ E) as (Hwf1 & Hg1 & Hf). simpl in *.
    intros Hrun. destruct (Hf a eq_refl Hwf1 o1 d1 s' r Hrun) as (? & ? & ?).
    split_and!; [done|by eapply heap_grows_trans|done].
  - intros [= <- <-]. destruct (Hm Hwf o d _ _ E) as (? & ? & _). done.
Qed.

Lemma wp_wf {A} (m : PyM A) Q h : (wf_heap h -> wp m Q h) -> wp m Q h.
Proof. intros Hm Hwf. by apply Hm. Qed.

Lemma wp_throw {A} (e : exn) (Q : A -> heap -> Prop) h : wp (raise! e) Q h.
Proof. intros Hwf o d s' r [= <- <-]. split_and!; [done|apply heap_grows_refl|done]. Qed.

Lemma wp_heap Q h : Q h h -> wp m_heap Q h.
Proof. intros HQ Hwf o d s' r [= <- <-]. split_and!; [done|apply heap_grows_refl|]. by intros ? [= <-]. Qed.

Lemma wp_mono {A} (m : PyM A) (Q Q' : A -> heap -> Prop) h :
  wp m Q h -> (forall a h', Q a h' -> Q' a h') -> wp m Q' h.
Proof.
  intros Hm HQ Hwf o d s' r Hrun. destruct (Hm Hwf o d s' r Hrun) as (? & ? & HQa).
  split_and!; [done|done|]. intros a Ha. by apply HQ, HQa.
Qed.

(** A computation that leaves the heap as it was. *)
Lemma wp_same_heap {A} (m : PyM A) Q h :
  (forall o d, exists o' d' r, m (PyState h o d) = (PyState h o' d', r) /\
                               forall a, r = Ok a -> Q a h) ->
  wp m Q h.
Proof.
  intros Hm Hwf o d s' r Hrun. destruct (Hm o d) as (o' & d' & r' & E & HQ).
  rewrite E in Hrun. injection Hrun as <- <-. simpl.
  split_and!; [done|apply heap_grows_refl|done].
Qed.

(** ** The primitives *)

Lemma wp_alloc ob Q h :
  obj_okb h ob = true -> (forall l, h !! l = None -> Q l (<[l := ob]> h)) -> wp (m_alloc ob) Q h.
Proof.
  intros Hob HQ Hwf o d s' r. rewrite m_alloc_run. intros [= <- <-]. cbn [st_heap].
  destruct (wf_heap_alloc h ob Hwf Hob) as [Hwf' _].
  split_and!; [exact Hwf'|apply heap_grows_insert|]. intros a [= <-].
  apply HQ. apply (alloc_fresh h ob).
Qed.

Lemma wp_lift {A} (f : heap -> res exn A) Q h :
  (wf_heap h -> forall a, f h = Ok a -> Q a h) -> wp (m_lift f) Q h.
Proof.
  intros HQ Hwf. apply wp_same_heap; [|done]. intros o d. exists o, d, (f h).
  split; [done|]. by apply HQ.
Qed.

(** [m_get], its continuation told the lookup that succeeded. *)
Lemma wp_get_ok v k df Q h :
  value_okb h df = true ->
  (forall r, dict_get h v k df = Ok r -> value_okb h r = true -> Q r h) -> wp (m_get v k df) Q h.
Proof.
  intros Hdf HQ. apply wp_lift. intros Hwf a E. apply HQ; [done|]. revert E.
  destruct v as [| | | |l]; try done. simpl.
  destruct (h !! l) as [[kvs|xs]|] eqn:Hl; try done. destruct (hashable k); [|done].
  intros [= <-]. by apply (default_lookup_okb h l kvs).
Qed.

Lemma wp_get v k df Q h :
  value_okb h v = true -> value_okb h df = true ->
  (forall r, value_okb h r = true -> Q r h) -> wp (m_get v k df) Q h.
Proof. intros _ Hdf HQ. apply wp_get_ok; [done|]. intros r _. apply HQ. Qed.

Lemma wp_items v Q h :
  (forall l kvs, h !! l = Some (ODict kvs) -> Q (l, kvs) h) -> wp (m_items v) Q h.
Proof.
  intros HQ. apply wp_lift. intros _ a.
  destruct v as [| | | |l]; try done. simpl.
  destruct (h !! l) as [[kvs|xs]|] eqn:Hl; try done. intros [= <-]. by apply HQ.
Qed.

Lemma wp_str v Q h :
  value_okb h v = true -> (forall s, Q s h) -> wp (m_str v) Q h.
Proof.
  intros Hv HQ Hwf. destruct (py_str_total h v Hwf Hv) as [s Hs].
  apply wp_same_heap; [|done]. intros o d. exists o, d, (Ok s).
  split; [by apply m_str_run|]. by intros ? [= <-].
Qed.

Lemma wp_print args Q h :
  Forall (fun v => value_okb h v = true) args -> Q tt h -> wp (m_print args) Q h.
Proof.
  intros Hargs HQ Hwf. apply wp_same_heap; [|done]. intros o d.
  destruct (print_total h o d args Hwf Hargs) as [line Hp].
  exists (o ++ [line])%list, d, (Ok tt). split; [done|]. by intros [] _.
Qed.

Lemma wp_setitem l k w Q h :
  value_okb h w = true ->
  (forall h', dict_setitem h l k w = Ok h' -> wf_heap h' -> heap_grows h h' -> Q tt h') ->
  wp (m_setitem l k w) Q h.
Proof.
  intros Hw HQ Hwf o d s' r.
  destruct (dict_setitem h l k w) as [h'|e] eqn:E.
  - rewrite (m_setitem_run _ _ _ _ _ _ _ E). intros [= <- <-]. simpl.
    assert (Hwf' : wf_heap h') by (eapply dict_setitem_wf; eauto).
    assert (Hg : heap_grows h h').
    { unfold dict_setitem in E. destruct (h !! l) as [[kvs|]|]; try done.
      destruct (hashable k); [|done]. injection E as <-. apply heap_grows_insert. }
    split_and!; [done|done|]. intros [] _. by apply HQ.
  - cbv [m_setitem m_heap mbind sterr_bind lift_res]. cbn [st_heap]. rewrite E.
    intros [= <- <-]. simpl. split_and!; [done|apply heap_grows_refl|done].
Qed.

Lemma wp_append l w Q h :
  value_okb h w = true ->
  (forall h', list_append h l w = Ok h' -> wf_heap h' -> heap_grows h h' -> Q tt h') ->
  wp (m_append l w) Q h.
Proof.
  intros Hw HQ Hwf o d s' r.
  destruct (list_append h l w) as [h'|e] eqn:E.
  - rewrite (m_append_run _ _ _ _ _ _ E). intros [= <- <-]. simpl.
    assert (Hwf' : wf_heap h') by (eapply list_append_wf; eauto).
    assert (Hg : heap_grows h h').
    { unfold list_append in E. destruct (h !! l) as [[|xs]|]; try done.
      injection E as <-. apply heap_grows_insert. }
    split_and!; [done|done|]. intros [] _. by apply HQ.
  - cbv [m_append m_heap mbind sterr_bind lift_res]. cbn [st_heap]. rewrite E.
    intros [= <- <-]. simpl. split_and!; [done|apply heap_grows_refl|done].
Qed.

Lemma wp_query stmt v Q h :
  (forall h' r, (exists rows, r = (alloc_tree_list h rows).1 /\ h' = (alloc_tree_list h rows).2) ->
     wf_heap h' -> heap_grows h h' -> value_okb h' r = true -> Q r h') ->
  wp (m_query stmt v) Q h.
Proof.
  intros HQ Hwf o d s' r. unfold m_query.
  rewrite sterr_bind_run, m_items_run.
  destruct (dict_items h v) as [[l kvs]|e]; cbv beta iota;
    [|intros [= <- <-]; simpl; split_and!; [done|apply heap_grows_refl|done]].
  cbv [get_st put_st mbind sterr_bind]. cbn [st_db st_heap st_out].
  destruct (graph_query d stmt kvs) as [d' [rows|msg]];
    [|intros [= <- <-]; simpl; split_and!; [done|apply heap_grows_refl|done]].
  cbv [m_heap m_set_heap mret sterr_ret]. cbn [st_heap st_out st_db].
  intros [= <- <-]. simpl.
  destruct (alloc_tree_ok (TList rows) h Hwf) as (Hwf' & Hg & Hv).
  split_and!; [done|done|]. intros a [= <-]. apply HQ; [by exists rows|done..].
Qed.

(** [m_alloc], its continuation told only that the heap grew and holds
    the new object. *)
Lemma wp_alloc_grows ob Q h :
  obj_okb h ob = true ->
  (forall l h', heap_grows h h' -> h' !! l = Some ob -> Q l h') -> wp (m_alloc ob) Q h.
Proof.
  intros Hob HQ. apply wp_alloc; [done|]. intros l Hl. apply HQ; [apply heap_grows_insert|].
  apply lookup_insert_eq.
Qed.
End WP.

(** [carry] moves the facts [value_okb h v] and [heap_grows h0 h] along a
    step [heap_grows h h'] of the heap. *)
Ltac carry :=
  repeat match goal with
  | Hg : heap_grows ?h ?h', H : value_okb ?h ?v = true |- _ =>
      let H' := fresh in
      pose proof (value_okb_grows h h' v Hg H) as H'; clear H; rename H' into H
  | Hg : heap_grows ?h ?h', H : heap_grows ?h0 ?h |- _ =>
      let H' := fresh in
      pose proof (heap_grows_trans h0 h h' H Hg) as H'; clear H; rename H' into H
  end.

Lemma entry_value_okb h l kvs i k v :
  wf_heap h -> h !! l = Some (ODict kvs) -> kvs !! i = Some (k, v) -> value_okb h v = true.
Proof.
  intros Hwf Hl Hi. destruct (wf_heap_dict _ _ _ Hwf Hl) as [Hok _].
  pose proof (Forall_lookup_1 _ _ _ _ Hok Hi) as Hkv. simpl in Hkv.
  by apply andb_prop in Hkv as [_ ?].
Qed.

Lemma py_or_okb h x y :
  value_okb h x = true -> value_okb h y = true -> value_okb h (py_or h x y) = true.
Proof. unfold py_or. by destruct (truthy h x). Qed.

Lemma stmt_value_okb h st : value_okb h (stmt_value st) = true.
Proof. by destruct st. Qed.

(** ** The blocks of the node *)

Section Blocks.
Context {D : Type} `{!Neo4jGraph D}.
Implicit Types (h : heap).

Lemma wp_coerce_loop n l len0 i (Q : unit -> heap -> Prop) h :
  (forall h', heap_grows h h' -> Q tt h') -> wp (D := D) (coerce_loop n l len0 i) Q h.
Proof.
  revert i h. induction n as [|n IH]; intros i h HQ; simpl.
  - apply wp_ret, HQ, heap_grows_refl.
  - apply wp_bind, wp_items. intros l' kvs Hl'.
    destruct (decide (length kvs = len0)); [|apply wp_throw].
    destruct (kvs !! i) as [[k v]|] eqn:Hi; [|apply wp_ret, HQ, heap_grows_refl].
    apply wp_wf. intros Hwf. apply wp_bind, wp_str; [by eapply entry_value_okb|]. intros s.
    apply wp_bind, wp_setitem; [done|]. intros h' _ _ Hg. apply IH. intros h'' Hg'.
    apply HQ. by eapply heap_grows_trans.
Qed.

Lemma wp_coerce_parameters v (Q : unit -> heap -> Prop) h :
  (forall h', heap_grows h h' -> Q tt h') -> wp (D := D) (coerce_parameters v) Q h.
Proof.
  intros HQ. unfold coerce_parameters. apply wp_bind, wp_items. intros l kvs _.
  by apply wp_coerce_loop.
Qed.

Lemma wp_read_state state Q h :
  value_okb h state = true ->
  (forall h' errors name params, heap_grows h h' -> value_okb h' (VRef errors) = true ->
     value_okb h' name = true -> value_okb h' params = true -> Q (errors, name, params) h') ->
  wp (D := D) (read_state state) Q h.
Proof.
  intros Hst HQ. unfold read_state.
  apply wp_bind, wp_alloc_grows; [done|]. intros errors h1 Hg1 He1.
  pose proof (value_okb_VRef _ _ _ He1) as Hokerr. clear He1. carry.
  apply wp_bind, wp_get; [done|done|]. intros name Hname.
  apply wp_bind, wp_alloc_grows; [done|]. intros dflt h2 Hg2 Hd2.
  pose proof (value_okb_VRef _ _ _ Hd2) as Hokd. clear Hd2. carry.
  apply wp_bind, wp_get; [done|done|]. intros params Hparams.
  apply wp_bind, wp_print; [by repeat constructor|].
  apply wp_bind, wp_print; [by repeat constructor|].
  by apply wp_ret, HQ.
Qed.

Lemma wp_get_parameters params Q h :
  value_okb h params = true ->
  (forall h' v, heap_grows h h' -> value_okb h' v = true -> Q v h') ->
  wp (D := D) (get_parameters params) Q h.
Proof.
  intros Hp HQ. unfold get_parameters.
  apply wp_bind, wp_alloc_grows; [done|]. intros dflt h1 Hg1 Hd1.
  pose proof (value_okb_VRef _ _ _ Hd1) as Hokd. clear Hd1. carry.
  apply wp_get; [done|done|]. intros v Hv. by apply HQ.
Qed.

Lemma wp_read_request state Q h :
  value_okb h state = true ->
  (forall h' errors name params parameters, heap_grows h h' ->
     value_okb h' (VRef errors) = true -> value_okb h' name = true ->
     value_okb h' params = true -> value_okb h' parameters = true ->
     Q (errors, name, params, parameters) h') ->
  wp (D := D) (read_request state) Q h.
Proof.
  intros Hst HQ. unfold read_request.
  apply wp_bind, wp_read_state; [done|]. intros h1 errors name params Hg1 He Hn Hp.
  apply wp_bind, wp_get_parameters; [done|]. intros h2 parameters Hg2 Hpar. carry.
  apply wp_bind, wp_coerce_parameters. intros h3 Hg3. carry.
  by apply wp_ret, HQ.
Qed.

Lemma wp_run_statement reg errors name params parameters Q h :
  value_okb h (VRef errors) = true -> value_okb h name = true -> value_okb h params = true ->
  (forall h' st records, heap_grows h h' -> value_okb h' records = true -> Q (st, records) h') ->
  wp (D := D) (run_statement reg errors name params parameters) Q h.
Proof.
  intros He Hn Hp HQ. unfold run_statement.
  apply wp_bind, wp_get; [done|done|]. intros q _.
  apply wp_bind, wp_lift. intros _ statement _.
  apply wp_bind, wp_print; [repeat constructor; apply stmt_value_okb|].
  destruct statement as [stmt|].
  - apply wp_bind, wp_query. intros h1 records _ _ Hg1 Hr. carry.
    apply wp_bind, wp_str; [done|]. intros rs.
    apply wp_bind, wp_print; [by repeat constructor|].
    by apply wp_ret, HQ.
  - apply wp_bind, wp_str; [done|]. intros nm.
    apply wp_bind, wp_append; [done|]. intros h1 _ _ Hg1. carry.
    apply wp_bind, wp_alloc_grows; [done|]. intros rl h2 Hg2 Hrl. carry.
    apply wp_ret, HQ; [done|]. by eapply value_okb_VRef.
Qed.

(** The six fields of the [CypherOutputState] literal are distinct
    strings, so the dict is well formed as soon as its values are. *)
Lemma cypher_fields_okb h task stmt params errors records steps :
  value_okb h task = true -> value_okb h stmt = true -> value_okb h params = true ->
  value_okb h (VRef errors) = true -> value_okb h records = true ->
  value_okb h (VRef steps) = true ->
  obj_okb h (ODict (cypher_fields task stmt params errors records steps)) = true.
Proof.
  intros H1 H2 H3 H4 H5 H6. unfold obj_okb, cypher_fields. cbn [forallb fst snd].
  rewrite H1, H2, H3, H4, H5, H6. reflexivity.
Qed.

Lemma wp_build_output nr state errors st params records Q h :
  value_okb h nr = true -> value_okb h state = true -> value_okb h (VRef errors) = true ->
  value_okb h params = true -> value_okb h records = true ->
  (forall h' out, heap_grows h h' -> value_okb h' out = true -> Q out h') ->
  wp (D := D) (build_output nr state errors st params records) Q h.
Proof.
  intros Hnr Hst He Hp Hr HQ. unfold build_output.
  apply wp_bind, wp_get; [done|done|]. intros task Ht.
  apply wp_bind, wp_heap.
  pose proof (py_or_okb h _ _ (stmt_value_okb h st) (eq_refl : value_okb h (VStr "") = true))
    as Hstmt.
  pose proof (py_or_okb h _ _ Hr Hnr) as Hrecs.
  apply wp_bind, wp_alloc_grows; [done|]. intros steps h1 Hg1 Hs1.
  pose proof (value_okb_VRef _ _ _ Hs1) as Hoks. clear Hs1. carry.
  apply wp_bind, wp_alloc_grows; [by apply cypher_fields_okb|]. intros l0 h2 Hg2 _. carry.
  apply wp_bind, wp_alloc_grows; [by apply cypher_fields_okb|]. intros cy h3 Hg3 Hc3.
  pose proof (value_okb_VRef _ _ _ Hc3) as Hokc. clear Hc3. carry.
  apply wp_bind, wp_alloc_grows; [cbn [obj_okb forallb]; by rewrite Hokc|]. intros cyphers h4 Hg4 Hc4.
  pose proof (value_okb_VRef _ _ _ Hc4) as Hokcs. clear Hc4. carry.
  apply wp_bind, wp_alloc_grows; [done|]. intros steps' h5 Hg5 Hs5.
  pose proof (value_okb_VRef _ _ _ Hs5) as Hoks'. clear Hs5. carry.
  apply wp_bind, wp_alloc_grows; [cbn [obj_okb forallb fst snd]; by rewrite Hokcs, Hoks'|]. intros out h6 Hg6 Ho6.
  pose proof (value_okb_VRef _ _ _ Ho6) as Hoko. clear Ho6. carry.
  by apply wp_ret, HQ.
Qed.
End Blocks.

(** ** The invariant *)

Section Invariant.
Context {D : Type} `{!Neo4jGraph D}.

(** The node preserves the heap invariant: from a well-formed heap, on
    a [state] and sentinel whose references are allocated, every run,
    returning or raising, leaves a well-formed heap that keeps every
    object of the first, and returns an allocated value. *)
Lemma predefined_cypher_wp_wf reg nr state h :
  value_okb h state = true -> value_okb h nr = true ->
  wp (D := D) (predefined_cypher reg nr state) (fun out h' => value_okb h' out = true) h.
Proof.
  intros Hst Hnr. unfold predefined_cypher.
  apply wp_bind, wp_read_request; [done|].
  intros h1 errors name params parameters Hg1 He Hn Hp Hpar. carry.
  apply wp_bind, wp_run_statement; [done|done|done|]. intros h2 st records Hg2 Hr. carry.
  by apply wp_build_output.
Qed.
End Invariant.
