(* ===== verification/Calls.v ===== *)
(** * Database calls: at most one per invocation

    The specification (sections 4.2 and 6) has the node call the database
    once on a registry hit and never otherwise.  To count the calls, any
    database is wrapped in [counted], an instance of [Neo4jGraph] that
    adds one to a counter at every query and otherwise behaves as the
    database it wraps, as a metric log counts the instructions of a
    machine.  [calls_le k m] says that every run of [m], returning or
    raising, makes at most [k] calls; each primitive of [Node] gets a
    rule, each block a lemma, and the node the bound [1] for every input. *)

From Stdlib Require Import ZArith String Ascii.
From stdpp Require Import base gmap strings list.
From S2P Require Import Prelude PyObject PyRepr PyTree GraphDB Node.

(** ** The counting database *)

Record counted (D : Type) := Counted { calls : nat; inner : D }.
Arguments Counted {D} _ _.
Arguments calls {D} _.
Arguments inner {D} _.

Definition counted_query {D : Type} `{!Neo4jGraph D} (c : counted D) (t : string)
    (kvs : list (value * value)) : counted D * res string (list pytree) :=
  let '(d', r) := graph_query (inner c) t kvs in (Counted (S (calls c)) d', r).

#[export] Instance counted_graph {D : Type} `{!Neo4jGraph D} : Neo4jGraph (counted D) :=
  {| graph_query := counted_query |}.

Section Calls.
Context {D : Type} `{!Neo4jGraph D}.
Local Abbreviation PyM := (StErr (pystate (counted D)) exn).

(** Every run of [m] makes at most [k] calls. *)
Definition calls_le {A} (k : nat) (m : PyM A) : Prop :=
  forall s, calls (st_db (m s).1) <= calls (st_db s) + k.

(** ** Structural rules *)

Lemma calls_ret {A} k (a : A) : calls_le k (mret a).
Proof. intros s. simpl. lia. Qed.

Lemma calls_throw {A} k (e : exn) : calls_le k (raise! e : PyM A).
Proof. intros s. simpl. lia. Qed.

Lemma calls_bind {A B} k k' (m : PyM A) (f : A -> PyM B) :
  calls_le k m -> (forall a, calls_le k' (f a)) -> calls_le (k + k') (m ≫= f).
Proof.
  intros Hm Hf s. rewrite sterr_bind_run. specialize (Hm s).
  destruct (m s) as [s1 [a|e]]; simpl in *; [|lia].
  specialize (Hf a s1). lia.
Qed.

Lemma calls_weaken {A} k k' (m : PyM A) : k <= k' -> calls_le k m -> calls_le k' m.
Proof. intros Hk Hm s. specialize (Hm s). lia. Qed.

(** A computation that leaves the database as it was. *)
Lemma calls_db_same {A} (m : PyM A) :
  (forall s, st_db (m s).1 = st_db s) -> calls_le 0 m.
Proof. intros Hm s. rewrite Hm. lia. Qed.

(** ** The primitives *)

Lemma calls_heap : calls_le 0 m_heap.
Proof. by apply calls_db_same. Qed.

Lemma calls_set_heap h : calls_le 0 (m_set_heap h).
Proof. by apply calls_db_same. Qed.

Lemma calls_lift {A} (f : heap -> res exn A) : calls_le 0 (m_lift f).
Proof. by apply calls_db_same. Qed.

Lemma calls_alloc ob : calls_le 0 (m_alloc ob).
Proof. by apply calls_db_same. Qed.

Lemma calls_get v k df : calls_le 0 (m_get v k df).
Proof. apply calls_lift. Qed.

Lemma calls_items v : calls_le 0 (m_items v).
Proof. apply calls_lift. Qed.

Lemma calls_str v : calls_le 0 (m_str v).
Proof.
  apply calls_db_same. intros s. cbv [m_str m_heap mbind sterr_bind].
  by destruct (py_str _ v).
Qed.

Lemma calls_setitem l k v : calls_le 0 (m_setitem l k v).
Proof.
  apply calls_db_same. intros s. cbv [m_setitem m_heap mbind sterr_bind lift_res].
  by destruct (dict_setitem _ l k v).
Qed.

Lemma calls_append l v : calls_le 0 (m_append l v).
Proof.
  apply calls_db_same. intros s. cbv [m_append m_heap mbind sterr_bind lift_res].
  by destruct (list_append _ l v).
Qed.

Lemma calls_print args : calls_le 0 (m_print args).
Proof.
  apply (calls_bind 0 0); [|intros; by apply calls_db_same].
  induction args as [|a args IH]; [apply calls_ret|].
  apply (calls_bind 0 0); [apply calls_str|]. intros s.
  apply (calls_bind 0 0); [exact IH|]. intros. apply calls_ret.
Qed.

(** [graph.query] is the one primitive that calls the database, once. *)
Lemma calls_query t v : calls_le 1 (m_query t v).
Proof.
  apply (calls_bind 0 1); [apply calls_items|]. intros [l kvs] s.
  cbv [get_st put_st mbind sterr_bind]. cbn [st_db graph_query counted_graph counted_query].
  unfold counted_query. destruct (graph_query (inner (st_db s)) t kvs) as [d' [rows|msg]]; simpl; lia.
Qed.

(** The two ways a bound is split over [≫=]. *)
Lemma calls_bind0 {A B} k (m : PyM A) (f : A -> PyM B) :
  calls_le 0 m -> (forall a, calls_le k (f a)) -> calls_le k (m ≫= f).
Proof. apply (calls_bind 0 k). Qed.

Lemma calls_bind1 {A B} (m : PyM A) (f : A -> PyM B) :
  calls_le 1 m -> (forall a, calls_le 0 (f a)) -> calls_le 1 (m ≫= f).
Proof. apply (calls_bind 1 0). Qed.
End Calls.

Create HintDb calls.
#[export] Hint Resolve calls_heap calls_set_heap calls_lift calls_alloc calls_get calls_items
  calls_str calls_setitem calls_append calls_print calls_query : calls.

(** [calls_go] walks a block: each step of a [≫=] is a primitive of the
    hint database, the continuation is walked after its bound variables
    are split, and [match]es on the values are split. *)
Ltac calls_go :=
  repeat first
    [ progress cbv beta iota
    | apply calls_ret | apply calls_throw
    | solve [eauto with calls]
    | apply calls_bind0; [solve [eauto with calls] | intros ?]
    | apply calls_bind1; [solve [eauto with calls] | intros ?]
    | match goal with x : _ * _ |- _ => destruct x end
    | match goal with |- calls_le _ (match ?x with _ => _ end) => destruct x end ].

Section Blocks.
Context {D : Type} `{!Neo4jGraph D}.

Lemma calls_coerce_loop n l len0 i : calls_le (D := D) 0 (coerce_loop n l len0 i).
Proof.
  revert i. induction n as [|n IH]; intros i; [apply calls_ret|]. cbn [coerce_loop].
  calls_go; apply IH.
Qed.

Lemma calls_coerce_parameters v : calls_le (D := D) 0 (coerce_parameters v).
Proof. unfold coerce_parameters. calls_go. apply calls_coerce_loop. Qed.

Lemma calls_read_state state : calls_le (D := D) 0 (read_state state).
Proof. unfold read_state. calls_go. Qed.

Lemma calls_get_parameters params : calls_le (D := D) 0 (get_parameters params).
Proof. unfold get_parameters. calls_go. Qed.

Lemma calls_read_request state : calls_le (D := D) 0 (read_request state).
Proof.
  unfold read_request.
  apply calls_bind0; [apply calls_read_state|]. intros [[errors name] params].
  apply calls_bind0; [apply calls_get_parameters|]. intros parameters.
  apply calls_bind0; [apply calls_coerce_parameters|]. intros _. apply calls_ret.
Qed.

Lemma calls_run_statement reg errors name params parameters :
  calls_le (D := D) 1 (run_statement reg errors name params parameters).
Proof. unfold run_statement. calls_go. Qed.

Lemma calls_build_output nr state errors st params records :
  calls_le (D := D) 0 (build_output nr state errors st params records).
Proof. unfold build_output. calls_go. Qed.
End Blocks.

Section Node.
Context {D : Type} `{!Neo4jGraph D}.

(** C12 (at most one database call).  For every registry, sentinel and
    state, and every database, every run of the node, returning or
    raising, calls the database at most once: reading the request and
    coercing the parameters never call it, the statement block calls it
    at most once ([graph.query] on a hit), and building the output never
    calls it. *)
Theorem predefined_cypher_calls_at_most_one reg nr state :
  calls_le (D := D) 1 (predefined_cypher reg nr state).
Proof.
  unfold predefined_cypher.
  apply calls_bind0; [apply calls_read_request|]. intros [[[errors name] params] parameters].
  apply calls_bind1; [apply calls_run_statement|]. intros [st records].
  apply calls_build_output.
Qed.
End Node.
