(* ===== verification/NodeSpec.v ===== *)
(** * What the [predefined_cypher] node does

    The node of [Node], run on a request dict of the shape the orchestrator
    builds ([request_shape]), block by block: reading the request
    ([read_state_run], [get_parameters_run], [read_request_run]), looking
    the statement up and running it ([run_statement_*_run]), building the
    returned dict ([build_output_run]), and the three ways the rest of the
    node ends once the request is read ([node_error_tail],
    [node_miss_tail], [node_hit_tail]).  The returned dict is read back
    through [view_cypher] and [view_steps], the views a caller has of it.
    The theorems: the outcome on a registry miss and on a hit, for every
    database; the aliasing of the echoed [parameters] with the caller's
    dict; the exceptions the node raises, and after which mutations; the
    default branches of [dict.get]. *)

From Stdlib Require Import ZArith String Ascii.
From stdpp Require Import base gmap strings list.
From S2P Require Import Prelude PyObject PyRepr PyTree TreeRead GraphDB Node Scenarios Runs Coerce.

(** ** Reading the request (lines 40-52) *)

Definition obj_at (h : heap) (v : value) : option obj :=
  match v with VRef l => h !! l | _ => None end.

Section ReadRequest.
Context {D : Type} `{!Neo4jGraph D}.
Implicit Types (h : heap) (o : list string) (d : D).



(** The name the node reports, and its [str]. *)
Definition query_name_of (skvs : list (value * value)) : value :=
  default (VStr "") (dict_lookup skvs (VStr "query_name")).



(** The value of [state.get("query_parameters", dflt)]. *)
Definition params_of (skvs : list (value * value)) (dflt : loc) : value :=
  default (VRef dflt) (dict_lookup skvs (VStr "query_parameters")).

(** [str] of a value of a heap, computed in a larger heap, is its
    [str] in the heap it belongs to. *)
Lemma py_str_back h h' v s :
  wf_heap h -> value_okb h v = true -> heap_extends h h' -> py_str h' v = Some s -> py_str h v = Some s.
Proof.
  intros Hwf Hv E Hs. destruct (py_str_total h v Hwf Hv) as [s0 Hs0].
  rewrite (py_str_extends h h' v s0 E Hs0) in Hs. by rewrite Hs0, Hs.
Qed.

(** Lines 40-47: two fresh objects (the [errors] list and the default
    dict), two lines printed, and the three values read. *)
Lemma read_state_run h o d ls skvs :
  wf_heap h -> h !! ls = Some (ODict skvs) ->
  exists errors dflt o',
    read_state (VRef ls) (PyState h o d) =
      (PyState (<[dflt := ODict []]> (<[errors := OList []]> h)) (o ++ o') d,
       Ok (errors, query_name_of skvs, params_of skvs dflt)) /\
    h !! errors = None /\ h !! dflt = None /\ errors <> dflt /\
    wf_heap (<[dflt := ODict []]> (<[errors := OList []]> h)) /\
    exists s1 s2,
      py_str (<[dflt := ODict []]> (<[errors := OList []]> h)) (query_name_of skvs) = Some s1 /\
      py_str (<[dflt := ODict []]> (<[errors := OList []]> h)) (params_of skvs dflt) = Some s2 /\
      o' = ["statement_name " ++ s1; "params " ++ s2].
Proof.
  intros Hwf Hls. unfold read_state.
  rewrite sterr_bind_run, m_alloc_run. cbv beta iota.
  destruct (wf_heap_alloc h (OList [])) as [Hwf1 _]; [done|done|].
  rewrite sterr_bind_run, m_get_run, (dict_get_dict _ ls skvs); [|eauto with pym|done].
  cbv beta iota. rewrite sterr_bind_run, m_alloc_run. cbv beta iota.
  destruct (wf_heap_alloc (alloc h (OList [])).2 (ODict [])) as [Hwf2 Hd]; [done|done|].
  rewrite sterr_bind_run, m_get_run, (dict_get_dict _ ls skvs); [|eauto with pym|done].
  cbv beta iota.
  set (h2 := (alloc (alloc h (OList [])).2 (ODict [])).2) in *.
  change (default (VStr "") (dict_lookup skvs (VStr "query_name"))) with (query_name_of skvs).
  change (default _ (dict_lookup skvs (VStr "query_parameters")))
    with (params_of skvs (alloc (alloc h (OList [])).2 (ODict [])).1).
  assert (Hname : value_okb h2 (query_name_of skvs) = true)
    by (eapply default_lookup_okb; eauto with pym).
  assert (Hpar : value_okb h2 (params_of skvs (alloc (alloc h (OList [])).2 (ODict [])).1) = true)
    by (eapply default_lookup_okb; eauto with pym).
  destruct (py_str_total h2 _ Hwf2 Hname) as [s1 Hs1].
  destruct (py_str_total h2 _ Hwf2 Hpar) as [s2 Hs2].
  rewrite sterr_bind_run, (m_print_run h2 o d [VStr "statement_name"; _] ["statement_name"; s1])
    by (cbn [mapM]; by rewrite py_str_VStr, Hs1).
  cbv beta iota.
  rewrite sterr_bind_run, (m_print_run h2 _ d [VStr "params"; _] ["params"; s2])
    by (cbn [mapM]; by rewrite py_str_VStr, Hs2).
  cbv beta iota. unfold h2 in *. name_allocs. fresh_ne.
  exists l, l0, ["statement_name " ++ s1; "params " ++ s2]. rewrite <- app_assoc.
  by repeat split; [..|exists s1, s2].
Qed.

(** Line 50 on a dict [params]. *)
Lemma get_parameters_run h o d lp pkvs :
  h !! lp = Some (ODict pkvs) ->
  exists dflt,
    get_parameters (VRef lp) (PyState h o d) =
      (PyState (<[dflt := ODict []]> h) o d,
       Ok (default (VRef dflt) (dict_lookup pkvs (VStr "parameters")))) /\
    h !! dflt = None.
Proof.
  intros Hlp. unfold get_parameters. rewrite sterr_bind_run, m_alloc_run. cbv beta iota.
  name_allocs. fresh_ne. exists l. split; [|done].
  rewrite m_get_run, (dict_get_dict _ lp pkvs); [done|by simplify_map_eq|done].
Qed.

(** Line 50 on anything else: [params.get] raises [AttributeError]. *)
Lemma get_parameters_not_dict h o d v :
  value_okb h v = true -> (forall kvs, obj_at h v <> Some (ODict kvs)) ->
  exists dflt,
    get_parameters v (PyState h o d) =
      (PyState (<[dflt := ODict []]> h) o d,
       Err (AttributeError (no_attr_msg (<[dflt := ODict []]> h) v "get"))) /\
    h !! dflt = None.
Proof.
  intros Hok Hv. unfold get_parameters. rewrite sterr_bind_run, m_alloc_run. cbv beta iota.
  name_allocs. exists l. split; [|done]. rewrite m_get_run. destruct v as [| | | |lv]; try done.
  destruct (value_okb_VRef_inv _ _ Hok) as [x Hx]. fresh_ne. simpl in Hv |- *.
  rewrite lookup_insert_ne by done.
    destruct (h !! lv) as [[kvs|xs]|] eqn:E; [by destruct (Hv kvs)|done|done].
Qed.

Lemma read_request_run h o d ls skvs lp pkvs lpar parkvs :
  wf_heap h -> h !! ls = Some (ODict skvs) ->
  dict_lookup skvs (VStr "query_parameters") = Some (VRef lp) -> h !! lp = Some (ODict pkvs) ->
  dict_lookup pkvs (VStr "parameters") = Some (VRef lpar) -> h !! lpar = Some (ODict parkvs) ->
  exists h' o' errors kvs',
    read_request (VRef ls) (PyState h o d) =
      (PyState h' o' d, Ok (errors, query_name_of skvs, VRef lp, VRef lpar)) /\
    wf_heap h' /\ heap_grows h h' /\ h !! errors = None /\
    h' !! errors = Some (OList []) /\
    h' !! lpar = Some (ODict kvs') /\ length kvs' = length parkvs /\ kvs'.*1 = parkvs.*1 /\
    (forall j, coerced_at h' lpar parkvs kvs' j) /\
    (forall l, l <> lpar -> is_Some (h !! l) -> h' !! l = h !! l) /\
    (forall s1 s2, py_str h (query_name_of skvs) = Some s1 -> py_str h (VRef lp) = Some s2 ->
       o' = app o ["statement_name " ++ s1; "params " ++ s2]).
Proof.
  intros Hwf Hls Hqp Hlp Hpar Hlpar.
  destruct (read_state_run h o d ls skvs Hwf Hls) as (errors & dflt & o1 & Hrs & He & Hd & Hed & Hwf2 & Hlog).
  unfold read_request. rewrite sterr_bind_run, Hrs. cbv beta iota.
  unfold params_of. rewrite Hqp. simpl default.
  destruct (get_parameters_run (<[dflt := ODict []]> (<[errors := OList []]> h)) (o ++ o1) d lp pkvs)
    as (dflt' & Hgp & Hd'); [fresh_ne; by simplify_map_eq|].
  rewrite sterr_bind_run, Hgp. cbv beta iota. rewrite Hpar. simpl default.
  set (h3 := <[dflt' := ODict []]> (<[dflt := ODict []]> (<[errors := OList []]> h))) in *.
  assert (Hwf3 : wf_heap h3) by (apply wf_heap_insert; [done|reflexivity]).
  assert (Hold : forall l x, h !! l = Some x -> h3 !! l = Some x).
  { intros l x Hx. unfold h3. fresh_ne. by simplify_map_eq. }
  destruct (coerce_parameters_run h3 (o ++ o1) d lpar parkvs Hwf3 (Hold _ _ Hlpar))
    as (kvs' & Hrun & Hwf' & Hlen & Hkeys & Hco).
  rewrite sterr_bind_run, Hrun. cbv beta iota.
  eexists _, _, _, kvs'. split; [reflexivity|].
  assert (Hne : errors <> lpar) by (intros ->; congruence).
  split; [done|]. split.
  { eapply heap_grows_trans; [|apply heap_grows_insert].
    intros l [x Hx]. rewrite (Hold l x Hx). by eexists. }
  split; [done|]. split.
  { unfold h3. fresh_ne. by simplify_map_eq. }
  split; [apply lookup_insert_eq|]. do 2 (split; [done|]). split.
  { intros j. by apply coerced_at_insert. }
  split; [intros l Hl [x Hx]; rewrite lookup_insert_ne by done; by rewrite (Hold l x Hx)|].
  intros s1 s2 Hs1 Hs2. destruct Hlog as (s1' & s2' & Hs1' & Hs2' & ->).
  unfold params_of in Hs2'. rewrite Hqp in Hs2'. simpl default in Hs2'.
  assert (E2 : heap_extends h (<[dflt := ODict []]> (<[errors := OList []]> h))).
  { intros l x Hx. fresh_ne. by simplify_map_eq. }
  rewrite (py_str_extends _ _ _ _ E2 Hs1) in Hs1'. rewrite (py_str_extends _ _ _ _ E2 Hs2) in Hs2'.
  by simplify_eq.
Qed.
End ReadRequest.

(** ** Reading the returned dict back *)

(** [v[key]] for a dict [v] and a string key. *)
Definition field (h : heap) (v : value) (key : string) : option value :=
  match obj_at h v with Some (ODict kvs) => dict_lookup kvs (VStr key) | _ => None end.

Definition list_at (h : heap) (v : value) : option (list value) :=
  match obj_at h v with Some (OList xs) => Some xs | _ => None end.

(** The one [CypherOutputState] of the result, its lists read out. *)
Record cypher_view := CypherView {
  cv_task : value;
  cv_statement : value;
  cv_parameters : value;
  cv_errors : list value;
  cv_records : value;
  cv_steps : list value
}.

Definition view_cypher (h : heap) (out : value) : option cypher_view :=
  lc ← field h out "cyphers";
  match list_at h lc with
  | Some [cy] =>
      task ← field h cy "task";
      stmt ← field h cy "statement";
      ps ← field h cy "parameters";
      ev ← field h cy "errors";
      es ← list_at h ev;
      rs ← field h cy "records";
      sv ← field h cy "steps";
      ss ← list_at h sv;
      Some (CypherView task stmt ps es rs ss)
  | _ => None
  end.

(** The top-level [steps] of the result. *)
Definition view_steps (h : heap) (out : value) : option (list value) :=
  sv ← field h out "steps"; list_at h sv.

Section BuildOutput.
Context {D : Type} `{!Neo4jGraph D}.
Implicit Types (h : heap) (o : list string) (d : D).

Definition task_of (skvs : list (value * value)) : value :=
  default (VStr "") (dict_lookup skvs (VStr "task")).

Lemma build_output_run h o d nr ls skvs errors xs st params r :
  h !! ls = Some (ODict skvs) -> h !! errors = Some (OList xs) ->
  exists h' out,
    build_output nr (VRef ls) errors st params r (PyState h o d) = (PyState h' o d, Ok out) /\
    heap_grows h h' /\ (forall l x, h !! l = Some x -> h' !! l = Some x) /\
    view_cypher h' out =
      Some (CypherView (task_of skvs) (py_or h (stmt_value st) (VStr "")) params xs
                       (py_or h r nr) [VStr step_name]) /\
    view_steps h' out = Some [VStr step_name].
Proof.
  intros Hls Herr. unfold build_output.
  rewrite sterr_bind_run, m_get_run, (dict_get_dict _ ls skvs) by done. cbv beta iota.
  cbv [m_heap mbind sterr_bind]. cbn [st_heap].
  rewrite !m_alloc_run. cbv beta iota. name_allocs.
  eexists _, _. split; [reflexivity|].
  split; [auto 10 with pym|].
  split; [intros l' x Hx; fresh_ne; by simplify_map_eq|].
  fresh_ne. cbv [view_cypher view_steps field obj_at list_at]. simplify_map_eq.
  split; reflexivity.
Qed.
End BuildOutput.

(** ** Looking up and running the statement (lines 54-64) *)

Section RunStatement.
Context {D : Type} `{!Neo4jGraph D}.
Implicit Types (h : heap) (o : list string) (d : D).


Definition query_of (pkvs : list (value * value)) : value :=
  default VNone (dict_lookup pkvs (VStr "query")).


Lemma run_statement_miss_run reg h o d errors xs name nm lp pkvs lpar :
  wf_heap h -> h !! lp = Some (ODict pkvs) ->
  reg_get reg h (query_of pkvs) = Ok None ->
  h !! errors = Some (OList xs) -> py_str h name = Some nm ->
  exists o' rl,
    run_statement reg errors name (VRef lp) (VRef lpar) (PyState h o d) =
      (PyState (<[rl := OList []]> (<[errors := OList (xs ++ [VStr (miss_msg nm)])]> h)) o' d,
       Ok (None, VRef rl)) /\
    h !! rl = None /\ o' = app o ["statement None"].
Proof.
  intros Hwf Hlp Hreg Herr Hnm. unfold run_statement.
  rewrite sterr_bind_run, m_get_run, (dict_get_dict _ lp pkvs) by done. cbv beta iota.
  rewrite sterr_bind_run, m_lift_run. fold (query_of pkvs). rewrite Hreg. cbv beta iota.
  rewrite sterr_bind_run, (m_print_run h o d _ ["statement"; "None"]) by reflexivity.
  cbv beta iota.
  rewrite sterr_bind_run, (m_str_run _ _ _ _ _ Hnm). cbv beta iota.
  rewrite sterr_bind_run, (m_append_run _ _ _ _ _ (<[errors := OList (xs ++ [VStr (miss_msg nm)])]> h));
    [|unfold list_append; by rewrite Herr].
  cbv beta iota. rewrite sterr_bind_run, m_alloc_run. cbv beta iota. name_allocs.
  eexists _, _. split; [reflexivity|]. done.
Qed.

Lemma run_statement_error_run reg h o d errors name lp pkvs par e :
  h !! lp = Some (ODict pkvs) -> reg_get reg h (query_of pkvs) = Err e ->
  run_statement reg errors name (VRef lp) par (PyState h o d) = (PyState h o d, Err e).
Proof.
  intros Hlp Hreg. unfold run_statement.
  rewrite sterr_bind_run, m_get_run, (dict_get_dict _ lp pkvs) by done. cbv beta iota.
  rewrite sterr_bind_run, m_lift_run. fold (query_of pkvs). by rewrite Hreg.
Qed.

Lemma run_statement_hit_run reg h o d errors name lp pkvs lpar kvs t :
  wf_heap h -> h !! lp = Some (ODict pkvs) ->
  reg_get reg h (query_of pkvs) = Ok (Some t) -> h !! lpar = Some (ODict kvs) ->
  match graph_query d t kvs with
  | (d', Ok rows) =>
      exists o' rs,
        run_statement reg errors name (VRef lp) (VRef lpar) (PyState h o d) =
          (PyState (alloc_tree_list h rows).2 o' d', Ok (Some t, (alloc_tree_list h rows).1)) /\
        py_str (alloc_tree_list h rows).2 (alloc_tree_list h rows).1 = Some rs /\
        o' = app o ["statement " ++ t; "records: " ++ rs]
  | (d', Err msg) =>
      exists o',
        run_statement reg errors name (VRef lp) (VRef lpar) (PyState h o d) =
          (PyState h o' d', Err (Neo4jError msg)) /\ o' = app o ["statement " ++ t]
  end.
Proof.
  intros Hwf Hlp Hreg Hpar. unfold run_statement.
  rewrite sterr_bind_run, m_get_run, (dict_get_dict _ lp pkvs) by done. cbv beta iota.
  rewrite sterr_bind_run, m_lift_run. fold (query_of pkvs). rewrite Hreg. cbv beta iota.
  rewrite sterr_bind_run, (m_print_run h o d _ ["statement"; t]) by reflexivity.
  cbv beta iota.
  rewrite sterr_bind_run, (m_query_run _ _ _ _ _ _ Hpar).
  destruct (graph_query d t kvs) as [d' [rows|msg]]; cbv beta iota; [|by eexists].
  destruct (alloc_tree_ok (TList rows) h Hwf) as (Hwf' & _ & Hv).
  destruct (py_str_total _ _ Hwf' Hv) as [rs Hrs].
  rewrite sterr_bind_run, (m_str_run _ _ _ _ _ Hrs). cbv beta iota.
  rewrite sterr_bind_run, (m_print_run _ _ d' _ ["records: " ++ rs]) by reflexivity.
  eexists _, rs. split; [reflexivity|]. split; [exact Hrs|]. by rewrite <- app_assoc.
Qed.
End RunStatement.

Lemma reg_get_heap reg h h' q r : reg_get reg h q = Ok r -> reg_get reg h' q = Ok r.
Proof. by destruct q. Qed.

Lemma py_or_stmt_none h : py_or h (stmt_value None) (VStr "") = VStr "".
Proof. reflexivity. Qed.

Lemma py_or_stmt_some h t : py_or h (stmt_value (Some t)) (VStr "") = VStr t.
Proof. unfold py_or. simpl. destruct (String.eqb_spec t "") as [->|]; done. Qed.

Lemma py_or_empty_list h l v : h !! l = Some (OList []) -> py_or h (VRef l) v = v.
Proof. intros Hl. unfold py_or. simpl. by rewrite Hl. Qed.

(** [records or NO_CYPHER_RESULTS] on the stored rows: the rows unless there
    are none. *)
Lemma py_or_rows h rows v :
  py_or (alloc_tree_list h rows).2 (alloc_tree_list h rows).1 v =
  match rows with [] => v | _ => (alloc_tree_list h rows).1 end.
Proof.
  destruct (alloc_tree_list_shape h rows) as (l & vs & Hv & Hl & Hlen).
  unfold py_or. rewrite Hv. simpl. rewrite Hl.
  destruct rows, vs; simpl in *; done.
Qed.

(** ** The node *)

(** The request as the orchestrator builds it: [state["query_parameters"]]
    is a dict and its ["parameters"] a dict, an object of its own. *)
Definition request_shape (h : heap) (ls : loc) (skvs : list (value * value))
    (lp : loc) (pkvs : list (value * value)) (lpar : loc) (parkvs : list (value * value)) : Prop :=
  h !! ls = Some (ODict skvs) /\
  dict_lookup skvs (VStr "query_parameters") = Some (VRef lp) /\ h !! lp = Some (ODict pkvs) /\
  dict_lookup pkvs (VStr "parameters") = Some (VRef lpar) /\ h !! lpar = Some (ODict parkvs) /\
  lpar <> ls /\ lpar <> lp.

(** The rest of the node, once [read_request] has returned. *)
Section NodeTails.
Context {D : Type} `{!Neo4jGraph D}.
Implicit Types (h : heap) (o : list string) (d : D).
Context (reg : gmap string string) (nr : value) (h : heap) (o : list string) (d : D).
Context (h1 : heap) (o1 : list string) (ls lp lpar errors : loc) (name : value).
Context (skvs pkvs : list (value * value)).
Hypothesis Hrr : read_request (VRef ls) (PyState h o d) =
  (PyState h1 o1 d, Ok (errors, name, VRef lp, VRef lpar)).
Hypothesis Hls1 : h1 !! ls = Some (ODict skvs).
Hypothesis Hlp1 : h1 !! lp = Some (ODict pkvs).
Hypothesis Herr1 : h1 !! errors = Some (OList []).

Lemma node_error_tail e :
  reg_get reg h1 (query_of pkvs) = Err e ->
  predefined_cypher reg nr (VRef ls) (PyState h o d) = (PyState h1 o1 d, Err e).
Proof.
  intros Hreg. unfold predefined_cypher. rewrite sterr_bind_run, Hrr. cbv beta iota.
  rewrite sterr_bind_run. by rewrite (run_statement_error_run _ _ _ _ _ _ _ _ _ _ Hlp1 Hreg).
Qed.

Lemma node_miss_tail nm :
  wf_heap h1 -> reg_get reg h1 (query_of pkvs) = Ok None -> py_str h1 name = Some nm ->
  exists h' o' out,
    predefined_cypher reg nr (VRef ls) (PyState h o d) = (PyState h' o' d, Ok out) /\
    view_cypher h' out =
      Some (CypherView (task_of skvs) (VStr "") (VRef lp) [VStr (miss_msg nm)] nr
                       [VStr step_name]) /\
    view_steps h' out = Some [VStr step_name] /\
    (forall l x, h1 !! l = Some x -> l <> errors -> h' !! l = Some x) /\
    o' = app o1 ["statement None"].
Proof.
  intros Hwf1 Hreg Hnm. unfold predefined_cypher. rewrite sterr_bind_run, Hrr. cbv beta iota.
  destruct (run_statement_miss_run reg h1 o1 d errors [] name nm lp pkvs lpar)
    as (o2 & rl & Hrs & Hrl & Ho2); try done.
  rewrite sterr_bind_run, Hrs. cbv beta iota. simpl app.
  assert (errors <> ls) by (intros ->; congruence).
  assert (rl <> ls) by (intros ->; congruence).
  assert (rl <> errors) by (intros ->; congruence).
  destruct (build_output_run (<[rl := OList []]> (<[errors := OList [VStr (miss_msg nm)]]> h1))
              o2 d nr ls skvs errors [VStr (miss_msg nm)] None (VRef lp) (VRef rl))
    as (h3 & out & Hbo & _ & Hext & Hview & Hsteps); [by simplify_map_eq|by simplify_map_eq|].
  exists h3, o2, out. split; [done|]. split.
  { rewrite Hview, py_or_stmt_none, py_or_empty_list; [done|]. apply lookup_insert_eq. }
  split; [done|]. split; [|done]. intros l x Hx Hl. apply Hext.
  rewrite !lookup_insert_ne; [done|congruence|congruence].
Qed.

Lemma node_hit_tail parkvs t :
  wf_heap h1 -> h1 !! lpar = Some (ODict parkvs) -> reg_get reg h1 (query_of pkvs) = Ok (Some t) ->
  match graph_query d t parkvs with
  | (d', Ok rows) =>
      exists h' o' out,
        predefined_cypher reg nr (VRef ls) (PyState h o d) = (PyState h' o' d', Ok out) /\
        view_cypher h' out =
          Some (CypherView (task_of skvs) (VStr t) (VRef lp) []
                  (match rows with [] => nr | _ => (alloc_tree_list h1 rows).1 end)
                  [VStr step_name]) /\
        view_steps h' out = Some [VStr step_name] /\
        heap_extends (alloc_tree_list h1 rows).2 h' /\
        exists rs, py_str (alloc_tree_list h1 rows).2 (alloc_tree_list h1 rows).1 = Some rs /\
          o' = app o1 ["statement " ++ t; "records: " ++ rs]
  | (d', Err msg) =>
      exists o', predefined_cypher reg nr (VRef ls) (PyState h o d) =
        (PyState h1 o' d', Err (Neo4jError msg)) /\ o' = app o1 ["statement " ++ t]
  end.
Proof.
  intros Hwf1 Hlpar1 Hreg. unfold predefined_cypher. rewrite sterr_bind_run, Hrr. cbv beta iota.
  pose proof (run_statement_hit_run reg h1 o1 d errors name lp pkvs lpar parkvs t
                Hwf1 Hlp1 Hreg Hlpar1) as Hrs.
  destruct (graph_query d t parkvs) as [d' [rows|msg]].
  2:{ destruct Hrs as [o2 [Hrs Ho2]]. rewrite sterr_bind_run, Hrs. cbv beta iota. by eexists. }
  destruct Hrs as (o2 & rs & Hrs & Hrs' & Ho2). rewrite sterr_bind_run, Hrs. cbv beta iota.
  destruct (build_output_run (alloc_tree_list h1 rows).2 o2 d' nr ls skvs errors []
              (Some t) (VRef lp) (alloc_tree_list h1 rows).1)
    as (h3 & out & Hbo & _ & Hext & Hview & Hsteps); [by apply alloc_tree_extends..|].
  exists h3, o2, out. split; [done|]. split; [by rewrite Hview, py_or_stmt_some, py_or_rows|].
  split; [done|]. split; [intros l x Hx; by apply Hext|]. by exists rs.
Qed.
End NodeTails.

Section NodeTheorems.
Context {D : Type} `{!Neo4jGraph D}.
Implicit Types (h : heap) (o : list string) (d : D).

(** C2 (registry miss).  When [params["query"]] is not a key of the
    registry, the node returns normally without querying the database: the
    one [CypherOutputState] has an empty [statement], exactly one error,
    [Unable to find the specified Cypher statement: <str(query_name)>],
    [records] equal to [NO_CYPHER_RESULTS], [parameters] the caller's
    [query_parameters] dict, the task echoed, and the step marker, and the
    top-level [steps] is the step marker. *)
Theorem predefined_cypher_miss reg nr h o d ls skvs lp pkvs lpar parkvs nm :
  wf_heap h -> request_shape h ls skvs lp pkvs lpar parkvs ->
  reg_get reg h (query_of pkvs) = Ok None ->
  hashable (query_name_of skvs) = true -> py_str h (query_name_of skvs) = Some nm ->
  exists h' o' out,
    predefined_cypher reg nr (VRef ls) (PyState h o d) = (PyState h' o' d, Ok out) /\
    view_cypher h' out =
      Some (CypherView (task_of skvs) (VStr "") (VRef lp) [VStr (miss_msg nm)] nr
                       [VStr step_name]) /\
    view_steps h' out = Some [VStr step_name].
Proof.
  intros Hwf (Hls & Hqp & Hlp & Hpar & Hlpar & Hne1 & Hne2) Hreg Hname Hnm.
  destruct (read_request_run h o d ls skvs lp pkvs lpar parkvs)
    as (h1 & o1 & errors & kvs' & Hrr & Hwf1 & _ & _ & Herr1 & _ & _ & _ & _ & Hframe & _);
    try done.
  destruct (node_miss_tail reg nr h o d h1 o1 ls lp lpar errors (query_name_of skvs) skvs pkvs
              Hrr ltac:(rewrite Hframe; [done|congruence|by eexists])
              ltac:(rewrite Hframe; [done|congruence|by eexists]) Herr1 nm)
    as (h' & o' & out & Hrun & Hview & Hsteps & _);
    [done|by eapply reg_get_heap|by rewrite (py_str_scalar _ h)|].
  by exists h', o', out.
Qed.

(** C3 (registry hit).  When [params["query"]] names a registered
    template [t], the database is queried once, with [t] and the entries of
    the coerced parameter dict (every value replaced by its [str], keys and
    order kept).  If the query returns rows, the node returns a
    [CypherOutputState] whose [statement] is [t], with no error, whose
    [records] are the returned rows or [NO_CYPHER_RESULTS] when there are
    none, and the step markers; if the query raises, the node raises the
    same fault, after the caller's parameter dict was already coerced. *)
Theorem predefined_cypher_hit reg nr h o d ls skvs lp pkvs lpar parkvs t :
  wf_heap h -> request_shape h ls skvs lp pkvs lpar parkvs ->
  reg_get reg h (query_of pkvs) = Ok (Some t) ->
  exists h1 kvs',
    h1 !! lpar = Some (ODict kvs') /\ length kvs' = length parkvs /\
    kvs'.*1 = parkvs.*1 /\ (forall j, coerced_at h1 lpar parkvs kvs' j) /\
    match graph_query d t kvs' with
    | (d', Ok rows) =>
        (exists h' o' out,
          predefined_cypher reg nr (VRef ls) (PyState h o d) = (PyState h' o' d', Ok out) /\
          view_cypher h' out =
            Some (CypherView (task_of skvs) (VStr t) (VRef lp) []
                    (match rows with [] => nr | _ => (alloc_tree_list h1 rows).1 end)
                    [VStr step_name]) /\
          view_steps h' out = Some [VStr step_name])
    | (d', Err msg) =>
        (exists h' o',
          predefined_cypher reg nr (VRef ls) (PyState h o d) =
            (PyState h' o' d', Err (Neo4jError msg)) /\
          h' !! lpar = Some (ODict kvs'))
    end.
Proof.
  intros Hwf (Hls & Hqp & Hlp & Hpar & Hlpar & Hne1 & Hne2) Hreg.
  destruct (read_request_run h o d ls skvs lp pkvs lpar parkvs)
    as (h1 & o1 & errors & kvs' & Hrr & Hwf1 & _ & _ & Herr1 & Hlpar1 & Hlen & Hkeys
        & Hco & Hframe & _); try done.
  exists h1, kvs'. do 4 (split; [done|]).
  pose proof (node_hit_tail reg nr h o d h1 o1 ls lp lpar errors (query_name_of skvs) skvs pkvs
                Hrr ltac:(rewrite Hframe; [done|congruence|by eexists])
                ltac:(rewrite Hframe; [done|congruence|by eexists]) Herr1 kvs' t
                Hwf1 Hlpar1 ltac:(by eapply reg_get_heap)) as Htail.
  destruct (graph_query d t kvs') as [d' [rows|msg]].
  - destruct Htail as (h' & o' & out & ? & ? & ? & _). by exists h', o', out.
  - destruct Htail as [o' [? _]]. by exists h1, o'.
Qed.
End NodeTheorems.

(** ** What the node does to the caller's objects, and when it raises *)

Section NodeEffects.
Context {D : Type} `{!Neo4jGraph D}.
Implicit Types (h : heap) (o : list string) (d : D).

(** The entries the node stores in the heap stay there through the rest
    of the run, whichever way it ends. *)
Lemma node_after_read reg nr h o d h1 o1 ls skvs lp pkvs lpar errors kvs' s' r :
  read_request (VRef ls) (PyState h o d) =
    (PyState h1 o1 d, Ok (errors, query_name_of skvs, VRef lp, VRef lpar)) ->
  wf_heap h1 -> h1 !! ls = Some (ODict skvs) -> h1 !! lp = Some (ODict pkvs) ->
  h1 !! errors = Some (OList []) -> h1 !! lpar = Some (ODict kvs') ->
  predefined_cypher reg nr (VRef ls) (PyState h o d) = (s', r) ->
  st_heap s' !! lpar = Some (ODict kvs') /\ st_heap s' !! lp = Some (ODict pkvs) /\
  (forall out, r = Ok out ->
     exists cv, view_cypher (st_heap s') out = Some cv /\ cv_parameters cv = VRef lp).
Proof.
  intros Hrr Hwf1 Hls1 Hlp1 Herr1 Hlpar1 Hrun.
  assert (lpar <> errors /\ lp <> errors) as [Hne1 Hne2] by (split; intros ->; congruence).
  destruct (reg_get reg h1 (query_of pkvs)) as [[t|]|e] eqn:Hreg.
  - pose proof (node_hit_tail reg nr h o d h1 o1 ls lp lpar errors (query_name_of skvs) skvs pkvs
                  Hrr Hls1 Hlp1 Herr1 kvs' t Hwf1 Hlpar1 Hreg) as Htail.
    destruct (graph_query d t kvs') as [d' [rows|msg]].
    + destruct Htail as (h' & o' & out & Hrun' & Hview & _ & Hext & _).
      rewrite Hrun' in Hrun. injection Hrun as <- <-. simpl.
      split; [by apply Hext, alloc_tree_extends|]. split; [by apply Hext, alloc_tree_extends|].
      intros ? [= <-]. by eexists.
    + destruct Htail as [o' [Hrun' _]]. rewrite Hrun' in Hrun. by injection Hrun as <- <-.
  - destruct (py_str_total h1 (query_name_of skvs)) as [nm Hnm];
      [done|by eapply default_lookup_okb|].
    destruct (node_miss_tail reg nr h o d h1 o1 ls lp lpar errors (query_name_of skvs) skvs pkvs
                Hrr Hls1 Hlp1 Herr1 nm Hwf1 Hreg Hnm) as (h' & o' & out & Hrun' & Hview & _ & Hext & _).
    rewrite Hrun' in Hrun. injection Hrun as <- <-. simpl.
    split; [by apply Hext|]. split; [by apply Hext|]. intros ? [= <-]. by eexists.
  - rewrite (node_error_tail reg nr h o d h1 o1 ls lp lpar errors (query_name_of skvs) pkvs
               Hrr Hlp1 e Hreg) in Hrun.
    by injection Hrun as <- <-.
Qed.

(** C6 (the caller's parameters are coerced in place, and echoed).  On a
    request of the orchestrator's shape, whichever way the node ends
    (normally, by a database fault, or by a [TypeError] of the lookup),
    the caller's [query_parameters["parameters"]] dict afterwards has the
    same keys in the same order, and at each position [j] the [str] of
    the value it held there, computed in the caller's heap where the
    positions before [j] already hold their strings ([coerced_at], as
    C4); when the node returns, the [parameters] field of its
    [CypherOutputState] is the caller's [query_parameters] dict itself,
    whose ["parameters"] is that coerced dict: the output echoes the
    coerced values, not the original ones. *)
Theorem predefined_cypher_mutates_caller_parameters reg nr h o d ls skvs lp pkvs lpar parkvs
    s' r :
  wf_heap h -> request_shape h ls skvs lp pkvs lpar parkvs ->
  predefined_cypher reg nr (VRef ls) (PyState h o d) = (s', r) ->
  exists kvs',
    st_heap s' !! lpar = Some (ODict kvs') /\ length kvs' = length parkvs /\ kvs'.*1 = parkvs.*1 /\
    (forall j, coerced_at h lpar parkvs kvs' j) /\
    field (st_heap s') (VRef lp) "parameters" = Some (VRef lpar) /\
    (forall out, r = Ok out ->
       exists cv, view_cypher (st_heap s') out = Some cv /\ cv_parameters cv = VRef lp).
Proof.
  intros Hwf (Hls & Hqp & Hlp & Hpar & Hlpar & Hne1 & Hne2) Hrun.
  destruct (read_request_run h o d ls skvs lp pkvs lpar parkvs)
    as (h1 & o1 & errors & kvs' & Hrr & Hwf1 & _ & _ & Herr1 & Hlpar1 & Hlen & Hkeys
        & Hco & Hframe & _); try done.
  destruct (node_after_read reg nr h o d h1 o1 ls skvs lp pkvs lpar errors kvs' s' r Hrr Hwf1
              ltac:(rewrite Hframe; [done|congruence|by eexists])
              ltac:(rewrite Hframe; [done|congruence|by eexists]) Herr1 Hlpar1 Hrun)
    as (Hlpar' & Hlp' & Hout).
  exists kvs'. do 3 (split; [done|]). split.
  { intros j. apply (coerced_at_shrink h h1); [done|done|done| |done].
    intros l x Hx Hl. rewrite Hframe; [done|done|by eexists]. }
  split; [|done]. cbv [field obj_at]. by rewrite Hlp'.
Qed.

(** The type name of an object the node has not replaced, or replaced by
    an object of the same kind. *)
Lemma type_name_frame h h1 lpar kvs kvs' lq :
  h !! lpar = Some (ODict kvs) -> h1 !! lpar = Some (ODict kvs') ->
  (forall l, l <> lpar -> is_Some (h !! l) -> h1 !! l = h !! l) -> is_Some (h !! lq) ->
  type_name h1 (VRef lq) = type_name h (VRef lq).
Proof.
  intros Hl Hl1 Hframe Hq. simpl. destruct (decide (lq = lpar)) as [->|Hne].
  - by rewrite Hl, Hl1.
  - by rewrite Hframe.
Qed.

(** C7 (an unhashable query raises [TypeError]).  When
    [query_parameters["query"]] is a dict or a list, the registry lookup
    [predefined_cypher_dict.get(...)] raises [TypeError: unhashable type],
    which the node does not catch: the node raises it, without querying
    the database, and after having coerced the caller's parameters in
    place.  The specification says the lookup never raises. *)
Theorem predefined_cypher_unhashable_query reg nr h o d ls skvs lp pkvs lpar parkvs lq :
  wf_heap h -> request_shape h ls skvs lp pkvs lpar parkvs -> query_of pkvs = VRef lq ->
  exists h' o' kvs',
    predefined_cypher reg nr (VRef ls) (PyState h o d) =
      (PyState h' o' d, Err (TypeError (unhashable_msg h (VRef lq)))) /\
    h' !! lpar = Some (ODict kvs') /\ all_strings kvs'.
Proof.
  intros Hwf (Hls & Hqp & Hlp & Hpar & Hlpar & Hne1 & Hne2) Hq.
  destruct (read_request_run h o d ls skvs lp pkvs lpar parkvs)
    as (h1 & o1 & errors & kvs' & Hrr & Hwf1 & _ & _ & Herr1 & Hlpar1 & Hlen & Hkeys
        & Hco & Hframe & _); try done.
  assert (Hlq : is_Some (h !! lq)).
  { unfold query_of in Hq. destruct (dict_lookup pkvs (VStr "query")) eqn:E; [|done].
    simpl in Hq. subst. apply (dict_lookup_okb h lp pkvs _ _ Hwf Hlp) in E.
    by apply bool_decide_eq_true_1 in E. }
  exists h1, o1, kvs'. split; [|split; [done|by eapply coerced_all_strings]].
  unfold unhashable_msg. rewrite <- (type_name_frame h h1 lpar parkvs kvs' lq) by done.
  apply (node_error_tail reg nr h o d h1 o1 ls lp lpar errors (query_name_of skvs) pkvs Hrr).
  - rewrite Hframe; [done|congruence|by eexists].
  - by rewrite Hq.
Qed.

(** C8 (a [query_parameters] that is not a dict raises [AttributeError]).
    When [state["query_parameters"]] is present and is not a dict (a
    string, [None], a number, a list), the node prints its two lines,
    ["statement_name " + str(query_name)] and ["params " + str(v)] of
    that value [v], and raises [AttributeError: '<type>' object has no
    attribute 'get'] at line 50, before the lookup and without querying
    the database; every object of the caller is left as it was. *)
Theorem predefined_cypher_params_not_dict reg nr h o d ls skvs v :
  wf_heap h -> h !! ls = Some (ODict skvs) ->
  dict_lookup skvs (VStr "query_parameters") = Some v ->
  (forall kvs, obj_at h v <> Some (ODict kvs)) ->
  exists h' o',
    predefined_cypher reg nr (VRef ls) (PyState h o d) =
      (PyState h' (o ++ o') d, Err (AttributeError (no_attr_msg h v "get"))) /\
    (forall l x, h !! l = Some x -> h' !! l = Some x) /\
    exists s1 s2, py_str h (query_name_of skvs) = Some s1 /\ py_str h v = Some s2 /\
      o' = ["statement_name " ++ s1; "params " ++ s2].
Proof.
  intros Hwf Hls Hqp Hv.
  destruct (read_state_run h o d ls skvs Hwf Hls) as (errors & dflt & o1 & Hrs & He & Hd & Hed & Hwf2 & Hlog).
  assert (Hvok : value_okb h v = true) by (eapply dict_lookup_okb; eauto).
  set (h2 := <[dflt := ODict []]> (<[errors := OList []]> h)) in *.
  assert (Hext : forall l x, h !! l = Some x -> h2 !! l = Some x).
  { intros l x Hx. unfold h2. fresh_ne. by simplify_map_eq. }
  destruct (get_parameters_not_dict h2 (o ++ o1) d v) as (dflt' & Hgp & Hd').
  { eapply value_okb_grows; [|done]. intros l [x Hx]. eexists. by apply Hext. }
  { intros kvs. destruct v as [| | | |l]; try done. simpl in Hv |- *.
    destruct (value_okb_VRef_inv _ _ Hvok) as [x Hx]. rewrite (Hext _ _ Hx), <- Hx. apply Hv. }
  unfold predefined_cypher, read_request. rewrite !sterr_bind_run, Hrs. cbv beta iota.
  unfold params_of. rewrite Hqp. simpl default. rewrite sterr_bind_run, Hgp.
  exists (<[dflt' := ODict []]> h2), o1. split_and!.
  - do 3 f_equal. unfold no_attr_msg. f_equal. f_equal. apply type_name_extends; [done|].
    intros l x Hx%Hext. clearbody h2. fresh_ne. by rewrite lookup_insert_ne.
  - intros l x Hx%Hext. clearbody h2. fresh_ne. by rewrite lookup_insert_ne.
  - destruct Hlog as (s1 & s2 & Hs1 & Hs2 & ->). unfold params_of in Hs2. rewrite Hqp in Hs2.
    exists s1, s2. split_and!; [|by apply (py_str_back h h2)|done].
    apply (py_str_back h h2); [done| |exact Hext|done].
    by apply (default_lookup_okb h ls skvs).
Qed.

(** C9 (no [query_parameters]: the defaults lead to a miss).  When the
    state has no [query_parameters], [params] is a fresh empty dict,
    [parameters] a fresh empty dict, the lookup key is [None], which no
    registry holds: the node returns the miss outcome, whose [parameters]
    is that fresh empty dict, without querying the database. *)
Theorem predefined_cypher_default_params reg nr h o d ls skvs nm :
  wf_heap h -> h !! ls = Some (ODict skvs) ->
  dict_lookup skvs (VStr "query_parameters") = None ->
  hashable (query_name_of skvs) = true -> py_str h (query_name_of skvs) = Some nm ->
  exists h' o' out lp,
    predefined_cypher reg nr (VRef ls) (PyState h o d) = (PyState h' o' d, Ok out) /\
    h !! lp = None /\ h' !! lp = Some (ODict []) /\
    view_cypher h' out =
      Some (CypherView (task_of skvs) (VStr "") (VRef lp) [VStr (miss_msg nm)] nr
                       [VStr step_name]).
Proof.
  intros Hwf Hls Hqp Hname Hnm.
  destruct (read_state_run h o d ls skvs Hwf Hls) as (errors & dflt & o1 & Hrs & He & Hd & Hed & Hwf2 & _).
  set (h2 := <[dflt := ODict []]> (<[errors := OList []]> h)) in *.
  destruct (get_parameters_run h2 (o ++ o1) d dflt []) as (dflt' & Hgp & Hd');
    [apply lookup_insert_eq|].
  set (h3 := <[dflt' := ODict []]> h2).
  assert (Hwf3 : wf_heap h3) by (apply wf_heap_insert; [done|reflexivity]).
  destruct (coerce_parameters_run h3 (o ++ o1) d dflt' [] Hwf3) as (kvs' & Hco & _ & Hlen & _);
    [apply lookup_insert_eq|].
  destruct kvs'; [|done]. unfold h3 in Hco. rewrite insert_insert_eq in Hco. fold h3 in Hco.
  assert (Hrr : read_request (VRef ls) (PyState h o d) =
                  (PyState h3 (o ++ o1) d, Ok (errors, query_name_of skvs, VRef dflt, VRef dflt'))).
  { unfold read_request. rewrite sterr_bind_run, Hrs. cbv beta iota.
    unfold params_of. rewrite Hqp. simpl default. rewrite sterr_bind_run, Hgp. cbv beta iota.
    change (default (VRef dflt') (dict_lookup [] (VStr "parameters"))) with (VRef dflt').
    fold h3. by rewrite sterr_bind_run, Hco. }
  assert (Hls2 : h2 !! ls = Some (ODict skvs)) by (unfold h2; fresh_ne; by simplify_map_eq).
  assert (Hd2 : h2 !! dflt = Some (ODict [])) by apply lookup_insert_eq.
  assert (He2 : h2 !! errors = Some (OList [])) by (unfold h2; by simplify_map_eq).
  clearbody h2. fresh_ne.
  destruct (node_miss_tail reg nr h o d h3 (o ++ o1) ls dflt dflt' errors (query_name_of skvs)
              skvs [] Hrr ltac:(unfold h3; by simplify_map_eq)
              ltac:(unfold h3; by simplify_map_eq) ltac:(unfold h3; by simplify_map_eq)
              nm Hwf3 eq_refl ltac:(by rewrite (py_str_scalar _ h)))
    as (h' & o' & out & Hrun & Hview & _ & Hext & _).
  exists h', o', out, dflt. split; [done|]. split; [done|]. split; [|done].
  apply Hext; [unfold h3; by simplify_map_eq|done].
Qed.
End NodeEffects.

(** ** The scenarios of the specification *)

(** Scenario B: the miss theorem at an empty registry. *)
Lemma predefined_cypher_miss_witness :
  exists h' o' out,
    predefined_cypher registry_B no_results (VRef 5%positive) (PyState heap_B [] db_B) =
      (PyState h' o' db_B, Ok out) /\
    view_cypher h' out =
      Some (CypherView (VStr "Find someone") (VStr "") (VRef 4%positive)
              [VStr "Unable to find the specified Cypher statement: lookup_person"]
              no_results [VStr "execute_predefined_cypher"]) /\
    view_steps h' out = Some [VStr "execute_predefined_cypher"].
Proof.
  apply (predefined_cypher_miss registry_B no_results heap_B [] db_B
           5%positive state_kvs_B 4%positive params_kvs_B 3%positive parameters_kvs_B
           "lookup_person").
  - apply (bool_decide_unpack _). vm_compute. exact I.
  - vm_compute. repeat split; reflexivity || lia.
  - vm_compute. reflexivity.
  - vm_compute. reflexivity.
  - vm_compute. reflexivity.
Defined.

(** Scenario A: the hit theorem at a registered query. *)
Lemma predefined_cypher_hit_witness :
  exists h1 kvs',
    h1 !! 3%positive = Some (ODict kvs') /\ length kvs' = length parameters_kvs_A /\
    kvs'.*1 = parameters_kvs_A.*1 /\
    (forall j, coerced_at h1 3%positive parameters_kvs_A kvs' j) /\
    match graph_query db_A find_person kvs' with
    | (d', Ok rows) =>
        (exists h' o' out,
          predefined_cypher registry_A no_results (VRef 5%positive) (PyState heap_A [] db_A) =
            (PyState h' o' d', Ok out) /\
          view_cypher h' out =
            Some (CypherView (VStr "Who is person 42?") (VStr find_person) (VRef 4%positive) []
                    (match rows with [] => no_results | _ => (alloc_tree_list h1 rows).1 end)
                    [VStr step_name]) /\
          view_steps h' out = Some [VStr step_name])
    | (d', Err msg) =>
        (exists h' o',
          predefined_cypher registry_A no_results (VRef 5%positive) (PyState heap_A [] db_A) =
            (PyState h' o' d', Err (Neo4jError msg)) /\
          h' !! 3%positive = Some (ODict kvs'))
    end.
Proof.
  apply (predefined_cypher_hit registry_A no_results heap_A [] db_A
           5%positive state_kvs_A 4%positive params_kvs_A 3%positive parameters_kvs_A find_person).
  - apply (bool_decide_unpack _). vm_compute. exact I.
  - vm_compute. repeat split; reflexivity || lia.
  - vm_compute. reflexivity.
Defined.




(** Scenario A: after the run, [{"id": 42}] holds [{"id": "42"}], and the
    output's [parameters] is the caller's dict that holds it. *)
Lemma predefined_cypher_mutates_caller_parameters_witness :
  let r := predefined_cypher registry_A no_results (VRef 5%positive) (PyState heap_A [] db_A) in
  exists kvs',
    st_heap r.1 !! 3%positive = Some (ODict kvs') /\ length kvs' = length parameters_kvs_A /\
    kvs'.*1 = parameters_kvs_A.*1 /\ (forall j, coerced_at heap_A 3%positive parameters_kvs_A kvs' j) /\
    field (st_heap r.1) (VRef 4%positive) "parameters" = Some (VRef 3%positive) /\
    (forall out, r.2 = Ok out ->
       exists cv, view_cypher (st_heap r.1) out = Some cv /\ cv_parameters cv = VRef 4%positive).
Proof.
  apply (predefined_cypher_mutates_caller_parameters registry_A no_results heap_A [] db_A
           5%positive state_kvs_A 4%positive params_kvs_A 3%positive parameters_kvs_A).
  - apply (bool_decide_unpack _). vm_compute. exact I.
  - vm_compute. repeat split; reflexivity || lia.
  - apply surjective_pairing.
Defined.

(** Scenario D: [{"query": {"name": "find_person"}, ...}] raises
    [TypeError: unhashable type: 'dict']. *)
Lemma predefined_cypher_unhashable_query_witness :
  unhashable_msg heap_D (VRef 3%positive) = "unhashable type: 'dict'" /\
  exists h' o' kvs',
    predefined_cypher registry_A no_results (VRef 6%positive) (PyState heap_D [] db_A) =
      (PyState h' o' db_A, Err (TypeError (unhashable_msg heap_D (VRef 3%positive)))) /\
    h' !! 4%positive = Some (ODict kvs') /\ all_strings kvs'.
Proof.
  split; [vm_compute; reflexivity|].
  apply (predefined_cypher_unhashable_query registry_A no_results heap_D [] db_A
           6%positive (dict_entries heap_D 6%positive) 5%positive (dict_entries heap_D 5%positive)
           4%positive (dict_entries heap_D 4%positive) 3%positive).
  - apply (bool_decide_unpack _). vm_compute. exact I.
  - vm_compute. repeat split; reflexivity || lia.
  - vm_compute. reflexivity.
Defined.

(** Scenario E: [query_parameters = "find_person"] raises
    [AttributeError: 'str' object has no attribute 'get']. *)
Lemma predefined_cypher_params_not_dict_witness :
  no_attr_msg heap_E (VStr "find_person") "get" = "'str' object has no attribute 'get'" /\
  exists h' o',
    predefined_cypher registry_A no_results (VRef 3%positive) (PyState heap_E [] db_A) =
      (PyState h' ([] ++ o') db_A,
       Err (AttributeError (no_attr_msg heap_E (VStr "find_person") "get"))) /\
    (forall l x, heap_E !! l = Some x -> h' !! l = Some x) /\
    exists s1 s2, py_str heap_E (query_name_of (dict_entries heap_E 3%positive)) = Some s1 /\
      py_str heap_E (VStr "find_person") = Some s2 /\
      o' = ["statement_name " ++ s1; "params " ++ s2].
Proof.
  split; [vm_compute; reflexivity|].
  apply (predefined_cypher_params_not_dict registry_A no_results heap_E [] db_A
           3%positive (dict_entries heap_E 3%positive) (VStr "find_person")).
  - apply (bool_decide_unpack _). vm_compute. exact I.
  - vm_compute. reflexivity.
  - vm_compute. reflexivity.
  - intros kvs. vm_compute. discriminate.
Defined.

(** Scenario F: no [query_parameters]; the miss outcome names
    [find_person]. *)
Lemma predefined_cypher_default_params_witness :
  exists h' o' out lp,
    predefined_cypher registry_A no_results (VRef 3%positive) (PyState heap_F [] db_A) =
      (PyState h' o' db_A, Ok out) /\
    heap_F !! lp = None /\ h' !! lp = Some (ODict []) /\
    view_cypher h' out =
      Some (CypherView (VStr "Who is person 42?") (VStr "") (VRef lp)
              [VStr "Unable to find the specified Cypher statement: find_person"] no_results
              [VStr step_name]).
Proof.
  apply (predefined_cypher_default_params registry_A no_results heap_F [] db_A
           3%positive (dict_entries heap_F 3%positive) "find_person").
  - apply (bool_decide_unpack _). vm_compute. exact I.
  - vm_compute. reflexivity.
  - vm_compute. reflexivity.
  - vm_compute. reflexivity.
  - vm_compute. reflexivity.
Defined.
