(* ===== verification/Errors.v ===== *)
(** * The two [AttributeError]s of the reading block

    Lines 42 and 51 call a dict method on a value the caller supplied:
    [state.get(...)] and [parameters.items()].  When that value is not a
    dict, the call raises [AttributeError], and the node ends there.  The
    two theorems say where each error happens: what the node has
    allocated and printed by then, and that it has not called the
    database or touched any object of the caller.  The other errors of
    the node are in [NodeSpec] (C7, C8) and [Refine] (C1, the database's). *)

From Stdlib Require Import ZArith String Ascii.
From stdpp Require Import base gmap strings list.
From S2P Require Import Prelude PyObject PyRepr PyTree TreeRead GraphDB Node Scenarios Runs Coerce NodeSpec.

(** ** Method calls on a value that is not a dict *)

Lemma dict_get_not_dict h v k df :
  (forall kvs, obj_at h v <> Some (ODict kvs)) ->
  dict_get h v k df = Err (AttributeError (no_attr_msg h v "get")).
Proof.
  intros Hv. destruct v as [| | | |l]; try done. simpl in Hv |- *.
  destruct (h !! l) as [[kvs|xs]|]; [by destruct (Hv kvs)|done|done].
Qed.

Lemma dict_items_not_dict h v :
  (forall kvs, obj_at h v <> Some (ODict kvs)) ->
  dict_items h v = Err (AttributeError (no_attr_msg h v "items")).
Proof.
  intros Hv. destruct v as [| | | |l]; try done. simpl in Hv |- *.
  destruct (h !! l) as [[kvs|xs]|]; [by destruct (Hv kvs)|done|done].
Qed.

(** A value that is allocated and not a dict stays so, and keeps its
    type name, in a larger heap. *)
Lemma not_dict_extends h h' v :
  value_okb h v = true -> heap_extends h h' ->
  (forall kvs, obj_at h v <> Some (ODict kvs)) ->
  (forall kvs, obj_at h' v <> Some (ODict kvs)) /\
  (forall attr, no_attr_msg h' v attr = no_attr_msg h v attr).
Proof.
  intros Hok E Hv. split.
  - destruct v as [| | | |l]; try done. destruct (value_okb_VRef_inv _ _ Hok) as [x Hx].
    simpl in Hv |- *. rewrite (E _ _ Hx). rewrite <- Hx. apply Hv.
  - intros attr. unfold no_attr_msg. by rewrite (type_name_extends h h').
Qed.

Section Errors.
Context {D : Type} `{!Neo4jGraph D}.
Implicit Types (h : heap) (o : list string) (d : D).

(** C18 (a state that is not a dict raises at line 42).  When the node
    is invoked on a value that is not a dict ([None], a string, a
    number, a list), it allocates its [errors] list (line 40) and raises
    [AttributeError: '<type>' object has no attribute 'get'] at
    [state.get("query_name", "")]: nothing is printed, the database is
    not called, and the heap differs from the caller's by the fresh list
    alone. *)
Theorem predefined_cypher_state_not_dict reg nr h o d v :
  value_okb h v = true -> (forall kvs, obj_at h v <> Some (ODict kvs)) ->
  exists errors,
    predefined_cypher reg nr v (PyState h o d) =
      (PyState (<[errors := OList []]> h) o d, Err (AttributeError (no_attr_msg h v "get"))) /\
    h !! errors = None.
Proof.
  intros Hok Hv. unfold predefined_cypher, read_request, read_state.
  rewrite !sterr_bind_run, m_alloc_run. cbv beta iota.
  destruct (not_dict_extends h (alloc h (OList [])).2 v Hok (heap_extends_alloc h _) Hv) as [Hv' Hmsg].
  rewrite sterr_bind_run, m_get_run, dict_get_not_dict by done. cbv beta iota.
  rewrite Hmsg. name_allocs. exists l. by split.
Qed.

(** C19 (a [parameters] that is not a dict raises at line 51).  On a
    state dict whose [query_parameters] is a dict, when its
    [parameters] entry is present and is not a dict ([None], a string, a
    list), the node prints its two lines (lines 46-47) and raises
    [AttributeError: '<type>' object has no attribute 'items'] at
    [parameters.items()], before the statement lookup: the database is
    not called, nothing is coerced and no object of the caller changes. *)
Theorem predefined_cypher_parameters_not_dict reg nr h o d ls skvs lp pkvs v :
  wf_heap h -> h !! ls = Some (ODict skvs) ->
  dict_lookup skvs (VStr "query_parameters") = Some (VRef lp) -> h !! lp = Some (ODict pkvs) ->
  dict_lookup pkvs (VStr "parameters") = Some v ->
  (forall kvs, obj_at h v <> Some (ODict kvs)) ->
  exists h' o',
    predefined_cypher reg nr (VRef ls) (PyState h o d) =
      (PyState h' o' d, Err (AttributeError (no_attr_msg h v "items"))) /\
    heap_extends h h' /\
    forall s1 s2, py_str h (query_name_of skvs) = Some s1 -> py_str h (VRef lp) = Some s2 ->
      o' = app o ["statement_name " ++ s1; "params " ++ s2].
Proof.
  intros Hwf Hls Hqp Hlp Hpar Hv.
  assert (Hok : value_okb h v = true) by (eapply dict_lookup_okb; eauto).
  destruct (read_state_run h o d ls skvs Hwf Hls) as (errors & dflt & o1 & Hrs & He & Hd & Hed & _ & Hlog).
  set (h2 := <[dflt := ODict []]> (<[errors := OList []]> h)) in *.
  assert (E2 : heap_extends h h2) by (intros l x Hx; unfold h2; fresh_ne; by simplify_map_eq).
  destruct (get_parameters_run h2 (o ++ o1) d lp pkvs) as (dflt' & Hgp & Hd'); [by apply E2|].
  assert (E3 : heap_extends h (<[dflt' := ODict []]> h2)).
  { intros l x Hx. pose proof (E2 _ _ Hx). fresh_ne. by rewrite lookup_insert_ne. }
  destruct (not_dict_extends h _ v Hok E3 Hv) as [Hv' Hmsg].
  unfold predefined_cypher, read_request. rewrite !sterr_bind_run, Hrs. cbv beta iota.
  unfold params_of. rewrite Hqp. simpl default. rewrite sterr_bind_run, Hgp. cbv beta iota.
  rewrite Hpar. simpl default. unfold coerce_parameters.
  rewrite !sterr_bind_run, m_items_run, dict_items_not_dict by done. cbv beta iota.
  rewrite Hmsg. eexists _, _. split_and!; [reflexivity|exact E3|].
  intros s1 s2 Hs1 Hs2. destruct Hlog as (s1' & s2' & Hs1' & Hs2' & ->).
  unfold params_of in Hs2'. rewrite Hqp in Hs2'. simpl default in Hs2'.
  rewrite (py_str_extends _ _ _ _ E2 Hs1) in Hs1'. rewrite (py_str_extends _ _ _ _ E2 Hs2) in Hs2'.
  by simplify_eq.
Qed.
End Errors.

(** ** Scenarios *)

(** Scenario G: the model passed the parameters as a list. *)
Definition request_G : pytree :=
  TDict [(SStr "task", TScalar (SStr "Who is person 42?"));
         (SStr "query_name", TScalar (SStr "find_person"));
         (SStr "query_parameters",
           TDict [(SStr "query", TScalar (SStr "find_person"));
                  (SStr "parameters", TList [TScalar (SInt 42)])])].
Definition heap_G : heap := Eval vm_compute in (alloc_tree heap0 request_G).2.

(** The orchestrator's state is [None]. *)
Lemma predefined_cypher_state_not_dict_witness :
  no_attr_msg heap_A VNone "get" = "'NoneType' object has no attribute 'get'" /\
  exists errors,
    predefined_cypher registry_A no_results VNone (PyState heap_A [] db_A) =
      (PyState (<[errors := OList []]> heap_A) [] db_A,
       Err (AttributeError (no_attr_msg heap_A VNone "get"))) /\
    heap_A !! errors = None.
Proof.
  split; [vm_compute; reflexivity|].
  apply (predefined_cypher_state_not_dict registry_A no_results heap_A [] db_A VNone).
  - reflexivity.
  - intros kvs. discriminate.
Defined.

(** Scenario G raises [AttributeError: 'list' object has no attribute
    'items'] after printing the name and the bag. *)
Lemma predefined_cypher_parameters_not_dict_witness :
  no_attr_msg heap_G (VRef 3%positive) "items" = "'list' object has no attribute 'items'" /\
  exists h' o',
    predefined_cypher registry_A no_results (VRef 5%positive) (PyState heap_G [] db_A) =
      (PyState h' o' db_A, Err (AttributeError (no_attr_msg heap_G (VRef 3%positive) "items"))) /\
    heap_extends heap_G h' /\
    forall s1 s2, py_str heap_G (query_name_of (dict_entries heap_G 5%positive)) = Some s1 ->
      py_str heap_G (VRef 4%positive) = Some s2 ->
      o' = app [] ["statement_name " ++ s1; "params " ++ s2].
Proof.
  split; [vm_compute; reflexivity|].
  apply (predefined_cypher_parameters_not_dict registry_A no_results heap_G [] db_A
           5%positive (dict_entries heap_G 5%positive) 4%positive (dict_entries heap_G 4%positive)).
  - apply (bool_decide_unpack _). vm_compute. exact I.
  - vm_compute. reflexivity.
  - vm_compute. reflexivity.
  - vm_compute. reflexivity.
  - vm_compute. reflexivity.
  - intros kvs. vm_compute. discriminate.
Defined.
