(* ===== verification/NodeType.v ===== *)
(** * The type of the returned dict, for every input

    [CypherOutputState] is a [TypedDict] of the state modules (outside
    [src/]): [statement] a string, [parameters] the request's parameter
    bag (a dict), [errors] a list of strings, [records] the result set
    (a non-empty list) or [NO_CYPHER_RESULTS], and [steps] the step
    marker.  At run time a [TypedDict] is a plain dict and nothing checks
    these types; this file shows that the node fills them, whatever the
    state it receives, whenever it returns.  The proof follows the blocks
    of the node with the [wp] of [NodeInv], carrying a frame: the node
    mutates no list but [errors], and a dict stays a dict ([keeps]).  The
    same run gives the specification's invariant of section 3: [errors]
    is non-empty if and only if [statement] is empty, for every registry
    without an empty template. *)

From Stdlib Require Import ZArith String Ascii.
From stdpp Require Import base gmap strings list.
From S2P Require Import Prelude PyObject PyRepr PyTree GraphDB Node Scenarios Runs NodeInv NodeSpec.

(** ** The types of the fields *)

Definition is_str (v : value) : bool := match v with VStr _ => true | _ => false end.

Definition is_dict (h : heap) (v : value) : bool :=
  match obj_at h v with Some (ODict _) => true | _ => false end.

Definition is_list (h : heap) (v : value) : bool :=
  match obj_at h v with Some (OList _) => true | _ => false end.

(** The fields of [CypherOutputState] as the node fills them; [nr] is
    [NO_CYPHER_RESULTS]. *)
Definition cypher_output_typed (h : heap) (nr : value) (cv : cypher_view) : bool :=
  is_str (cv_statement cv) && is_dict h (cv_parameters cv) && forallb is_str (cv_errors cv) &&
  ((is_list h (cv_records cv) && truthy h (cv_records cv)) || bool_decide (cv_records cv = nr)) &&
  bool_decide (cv_steps cv = [VStr step_name]).

(** ** The frame: dicts stay dicts, lists keep their items *)

Definition keeps (h h' : heap) : Prop :=
  (forall l kvs, h !! l = Some (ODict kvs) -> exists kvs', h' !! l = Some (ODict kvs')) /\
  (forall l xs, h !! l = Some (OList xs) -> h' !! l = Some (OList xs)).

Lemma keeps_refl h : keeps h h.
Proof. split; eauto. Qed.

Lemma keeps_trans h1 h2 h3 : keeps h1 h2 -> keeps h2 h3 -> keeps h1 h3.
Proof.
  intros [D12 L12] [D23 L23]. split; [|eauto].
  intros l kvs Hl. destruct (D12 l kvs Hl) as [kvs' Hl']. eauto.
Qed.

Lemma extends_keeps h h' : heap_extends h h' -> keeps h h'.
Proof. intros E. split; eauto. Qed.

Lemma keeps_alloc h ob : keeps h (alloc h ob).2.
Proof. apply extends_keeps, heap_extends_alloc. Qed.

Lemma dict_setitem_keeps h l k v h' : dict_setitem h l k v = Ok h' -> keeps h h'.
Proof.
  unfold dict_setitem. destruct (h !! l) as [[kvs|xs]|] eqn:Hl; try done.
  destruct (hashable k); [|done]. intros [= <-]. split.
  - intros l' kvs' Hl'. destruct (decide (l = l')) as [->|Hne]; [by simplify_map_eq; eauto|].
    rewrite lookup_insert_ne by done. eauto.
  - intros l' xs Hl'. rewrite lookup_insert_ne; [done|]. intros ->. congruence.
Qed.

Lemma is_dict_keeps h h' v : keeps h h' -> is_dict h v = true -> is_dict h' v = true.
Proof.
  intros [Hd _]. destruct v as [| | | |l]; try done. unfold is_dict, obj_at.
  destruct (h !! l) as [[kvs|]|] eqn:Hl; try done. by destruct (Hd l kvs Hl) as [? ->].
Qed.

Lemma is_list_keeps h h' v : keeps h h' -> is_list h v = true -> is_list h' v = true.
Proof.
  intros [_ Hls]. destruct v as [| | | |l]; try done. unfold is_list, obj_at.
  destruct (h !! l) as [[|xs]|] eqn:Hl; try done. by rewrite (Hls l xs Hl).
Qed.

(** A dict that answered [.get] is a dict. *)
Lemma dict_get_is_dict h v k df r : dict_get h v k df = Ok r -> is_dict h v = true.
Proof.
  destruct v as [| | | |l]; try done. unfold is_dict, obj_at; simpl.
  by destruct (h !! l) as [[|]|].
Qed.

(** [.append] on the list at [l] keeps every other list and every dict. *)
Lemma list_append_keeps h l v h' xs :
  list_append h l v = Ok h' -> h !! l = Some (OList xs) ->
  h' !! l = Some (OList (xs ++ [v])) /\
  (forall l' kvs, h !! l' = Some (ODict kvs) -> h' !! l' = Some (ODict kvs)).
Proof.
  unfold list_append. intros E Hl. rewrite Hl in E. injection E as <-.
  split; [apply lookup_insert_eq|]. intros l' kvs Hl'.
  rewrite lookup_insert_ne; [done|]. intros ->. congruence.
Qed.

(** The truth of a value and [or] read only its object, which a larger
    heap keeps. *)
Lemma truthy_extends h h' v :
  heap_extends h h' -> value_okb h v = true -> truthy h' v = truthy h v.
Proof.
  intros E Hv. destruct v as [| | | |l]; try done. simpl in *.
  apply bool_decide_eq_true in Hv as [x Hx]. by rewrite Hx, (E _ _ Hx).
Qed.

Lemma py_or_extends h h' x y :
  heap_extends h h' -> value_okb h x = true -> py_or h' x y = py_or h x y.
Proof. intros E Hx. unfold py_or. by rewrite (truthy_extends h h' x E Hx). Qed.

(** [carry_keeps] moves the facts [is_dict h v], [h !! l = Some (OList xs)]
    and [keeps h0 h] along a step [keeps h h'], and the facts of [carry]
    along [heap_grows]. *)
Ltac carry_keeps :=
  repeat match goal with
  | K : keeps ?h ?h', H : is_dict ?h ?v = true |- _ =>
      let H' := fresh in pose proof (is_dict_keeps h h' v K H) as H'; clear H; rename H' into H
  | K : keeps ?h ?h', H : ?h !! ?e = Some (OList ?xs) |- _ =>
      let H' := fresh in pose proof (proj2 K e xs H) as H'; clear H; rename H' into H
  | K : keeps ?h ?h', H : keeps ?h0 ?h |- _ =>
      let H' := fresh in pose proof (keeps_trans h0 h h' H K) as H'; clear H; rename H' into H
  end; carry.

Section Blocks.
Context {D : Type} `{!Neo4jGraph D}.
Implicit Types (h : heap).

(** [m_alloc], its continuation told that the heap grew by one fresh
    object. *)
Lemma wp_alloc_keeps ob Q h :
  obj_okb h ob = true ->
  (forall l h', heap_grows h h' -> keeps h h' -> h' !! l = Some ob -> Q l h') ->
  wp (D := D) (m_alloc ob) Q h.
Proof.
  intros Hob HQ. apply wp_alloc; [done|]. intros l Hl. apply HQ.
  - apply heap_grows_insert.
  - apply extends_keeps. intros l' x Hx. rewrite lookup_insert_ne; [done|]. intros ->. congruence.
  - apply lookup_insert_eq.
Qed.

Lemma wp_coerce_loop_keeps n l len0 i Q h :
  (forall h', heap_grows h h' -> keeps h h' -> Q tt h') -> wp (D := D) (coerce_loop n l len0 i) Q h.
Proof.
  revert i h. induction n as [|n IH]; intros i h HQ; simpl.
  - apply wp_ret, HQ; [apply heap_grows_refl|apply keeps_refl].
  - apply wp_bind, wp_items. intros l' kvs Hl'.
    destruct (decide (length kvs = len0)); [|apply wp_throw].
    destruct (kvs !! i) as [[k v]|] eqn:Hi;
      [|apply wp_ret, HQ; [apply heap_grows_refl|apply keeps_refl]].
    apply wp_wf. intros Hwf. apply wp_bind, wp_str; [by eapply entry_value_okb|]. intros s.
    apply wp_bind, wp_setitem; [done|]. intros h' Hset _ Hg. apply IH. intros h'' Hg' Hk'.
    apply HQ; [by eapply heap_grows_trans|]. eapply keeps_trans; [|exact Hk'].
    by eapply dict_setitem_keeps.
Qed.

Lemma wp_coerce_parameters_keeps v Q h :
  (forall h', heap_grows h h' -> keeps h h' -> Q tt h') -> wp (D := D) (coerce_parameters v) Q h.
Proof.
  intros HQ. unfold coerce_parameters. apply wp_bind, wp_items. intros l kvs _.
  by apply wp_coerce_loop_keeps.
Qed.

(** Lines 40-52: when they return, [errors] is a fresh empty list, and
    [state] and [params] answered [.get], so they are dicts. *)
Lemma wp_read_request_keeps state Q h :
  value_okb h state = true ->
  (forall h' errors name params parameters, heap_grows h h' ->
     value_okb h' (VRef errors) = true -> value_okb h' name = true ->
     value_okb h' params = true -> value_okb h' parameters = true ->
     h' !! errors = Some (OList []) -> is_dict h' state = true -> is_dict h' params = true ->
     Q (errors, name, params, parameters) h') ->
  wp (D := D) (read_request state) Q h.
Proof.
  intros Hst HQ. unfold read_request, read_state.
  apply wp_bind, wp_bind, wp_alloc_keeps; [done|]. intros errors h1 Hg1 K1 He1.
  pose proof (value_okb_VRef _ _ _ He1) as Hokerr. carry.
  apply wp_bind, wp_get_ok; [done|]. intros name Hget Hname.
  pose proof (dict_get_is_dict _ _ _ _ _ Hget) as Hsd. clear Hget.
  apply wp_bind, wp_alloc_keeps; [done|]. intros dflt h2 Hg2 K2 Hd2.
  pose proof (value_okb_VRef _ _ _ Hd2) as Hokd. clear Hd2. carry_keeps.
  apply wp_bind, wp_get_ok; [done|]. intros params _ Hparams.
  apply wp_bind, wp_print; [by repeat constructor|].
  apply wp_bind, wp_print; [by repeat constructor|].
  apply wp_ret. unfold get_parameters.
  apply wp_bind, wp_bind, wp_alloc_keeps; [done|]. intros dflt' h3 Hg3 K3 Hd3.
  pose proof (value_okb_VRef _ _ _ Hd3) as Hokd'. clear Hd3. carry_keeps.
  apply wp_get_ok; [done|]. intros parameters Hgp Hpar.
  pose proof (dict_get_is_dict _ _ _ _ _ Hgp) as Hpd. clear Hgp.
  apply wp_bind, wp_coerce_parameters_keeps. intros h4 Hg4 K4. carry_keeps.
  apply wp_ret. by apply HQ.
Qed.
(** A registry hit is a template of the registry. *)
Lemma reg_get_some reg h q t : reg_get reg h q = Ok (Some t) -> exists k, reg !! k = Some t.
Proof. destruct q; simpl; try done. intros [= E]. eauto. Qed.

(** Lines 54-64: [errors] holds the one miss message, or stays empty on
    a hit with a template of the registry; [records] is a list; the
    dicts stay dicts. *)
Lemma wp_run_statement_keeps reg errors name params parameters Q h :
  value_okb h (VRef errors) = true -> value_okb h name = true -> value_okb h params = true ->
  h !! errors = Some (OList []) ->
  (forall h' st records, heap_grows h h' -> value_okb h' records = true ->
     (forall v, is_dict h v = true -> is_dict h' v = true) -> is_list h' records = true ->
     match st with
     | None => exists nm, h' !! errors = Some (OList [VStr (miss_msg nm)])
     | Some t => h' !! errors = Some (OList []) /\ exists k, reg !! k = Some t
     end -> Q (st, records) h') ->
  wp (D := D) (run_statement reg errors name params parameters) Q h.
Proof.
  intros He Hn Hp Herr HQ. unfold run_statement.
  apply wp_bind, wp_get; [done|done|]. intros q _.
  apply wp_bind, wp_lift. intros _ statement Hreg.
  apply wp_bind, wp_print; [repeat constructor; apply stmt_value_okb|].
  destruct statement as [t|].
  - apply wp_bind, wp_query. intros h1 records (rows & -> & ->) _ Hg1 Hr.
    pose proof (extends_keeps _ _ (alloc_tree_extends_heap (TList rows) h)) as K1.
    apply wp_bind, wp_str; [done|]. intros rs.
    apply wp_bind, wp_print; [by repeat constructor|].
    apply wp_ret, HQ; [done|done|by intros v; apply is_dict_keeps| |].
    + destruct (alloc_tree_list_shape h rows) as (l & vs & -> & Hl & _).
      unfold is_list, obj_at. by rewrite Hl.
    + split; [by apply K1|]. by eapply reg_get_some.
  - apply wp_bind, wp_str; [done|]. intros nm.
    apply wp_bind, wp_append; [done|]. intros h1 Happ _ Hg1.
    destruct (list_append_keeps _ _ _ _ _ Happ Herr) as [Herr1 Hd1]. simpl in Herr1.
    apply wp_bind, wp_alloc_keeps; [done|]. intros rl h2 Hg2 K2 Hrl.
    apply wp_ret, HQ.
    + by do 2 (eapply heap_grows_trans; [eassumption|]); apply heap_grows_refl.
    + by eapply value_okb_VRef.
    + intros v Hv. apply (is_dict_keeps h1); [done|].
      destruct v as [| | | |l]; try done. unfold is_dict, obj_at in *.
      destruct (h !! l) as [[kvs|]|] eqn:Hl; try done. by rewrite (Hd1 _ _ Hl).
    + unfold is_list, obj_at. by rewrite Hrl.
    + exists nm. by apply K2.
Qed.
End Blocks.

Section Node.
Context {D : Type} `{!Neo4jGraph D}.
Implicit Types (h : heap).
Local Abbreviation PyM := (StErr (pystate D) exn).

(** A [wp] and a run that returns whatever the output and the database
    give both postconditions. *)
Lemma wp_and_run {A} (m : PyM A) Q (P : A -> heap -> Prop) h :
  wp m Q h ->
  (forall o d, exists h' o' d' a, m (PyState h o d) = (PyState h' o' d', Ok a) /\ P a h') ->
  wp m (fun a h' => Q a h' /\ P a h') h.
Proof.
  intros Hm Hrun Hwf o d s' r E. destruct (Hm Hwf o d s' r E) as (Hwf' & Hg & HQ).
  split_and!; [done|done|]. intros a ->. split; [by apply HQ|].
  destruct (Hrun o d) as (h' & o' & d' & a' & E' & HP). rewrite E' in E.
  by injection E as <- <-.
Qed.

(** Lines 66-80 on a dict [state] and a list [errors]. *)
Lemma wp_build_output_view nr state errors es st params records Q h :
  value_okb h nr = true -> value_okb h state = true -> value_okb h (VRef errors) = true ->
  value_okb h params = true -> value_okb h records = true ->
  is_dict h state = true -> h !! errors = Some (OList es) ->
  (forall h' out, heap_grows h h' -> heap_extends h h' ->
     (exists task, view_cypher h' out =
        Some (CypherView task (py_or h (stmt_value st) (VStr "")) params es
                (py_or h records nr) [VStr step_name])) ->
     view_steps h' out = Some [VStr step_name] -> Q out h') ->
  wp (D := D) (build_output nr state errors st params records) Q h.
Proof.
  intros Hnr Hst He Hp Hr Hsd Herr HQ.
  destruct state as [| | | |ls]; try done. unfold is_dict, obj_at in Hsd.
  destruct (h !! ls) as [[skvs|]|] eqn:Hls; try done.
  eapply wp_mono.
  - apply wp_and_run; [by apply (wp_build_output nr (VRef ls) errors st params records
                                  (fun out h' => heap_grows h h'))|].
    intros o d.
    destruct (build_output_run h o d nr ls skvs errors es st params records Hls Herr)
      as (h' & out & Hrun & _ & Hext & Hview & Hsteps).
    exists h', o, d, out. split; [exact Hrun|]. exact (conj Hext (conj Hview Hsteps)).
  - intros out h' [Hg (Hext & Hview & Hsteps)]. apply HQ; [done|exact Hext| |done]. eauto.
Qed.
(** The node, for every input: when it returns, its [CypherOutputState]
    has the statement [st or ""], the dict [params], the errors of the
    statement block, [records or nr] with a list [records], and the step
    marker, and the top-level steps are the step marker. *)
Lemma wp_node_shape reg nr state h :
  value_okb h state = true -> value_okb h nr = true ->
  wp (D := D) (predefined_cypher reg nr state) (fun out h' =>
    exists task params st records es,
      view_cypher h' out = Some (CypherView task (py_or h' (stmt_value st) (VStr "")) params es
                                   (py_or h' records nr) [VStr step_name]) /\
      view_steps h' out = Some [VStr step_name] /\
      is_dict h' params = true /\ is_list h' records = true /\
      match st with
      | None => exists nm, es = [VStr (miss_msg nm)]
      | Some t => es = [] /\ exists k, reg !! k = Some t
      end) h.
Proof.
  intros Hst Hnr. unfold predefined_cypher.
  apply wp_bind, wp_read_request_keeps; [done|].
  intros h1 errors name params parameters Hg1 He Hn Hp Hpar Herr Hsd Hpd. carry.
  apply wp_bind, wp_run_statement_keeps; [done..|].
  intros h2 st records Hg2 Hr Hdk Hrl Hst2. carry.
  assert (Hstok : value_okb h2 (stmt_value st) = true) by apply stmt_value_okb.
  destruct st as [t|]; [destruct Hst2 as [Herr2 Hreg]|destruct Hst2 as [nm Herr2]];
    (eapply wp_build_output_view; [done|done|done|done|done|by apply Hdk|exact Herr2|]);
    intros h3 out Hg3 E3 [task Hview] Hsteps;
    pose proof (extends_keeps _ _ E3) as K3;
    rewrite <- !(py_or_extends h2 h3) in Hview by done.
  - exists task, params, (Some t), records, []. split_and!; try done.
    + apply (is_dict_keeps h2); [done|]. by apply Hdk.
    + by apply (is_list_keeps h2).
  - exists task, params, None, records, [VStr (miss_msg nm)]. split_and!; try done.
    + apply (is_dict_keeps h2); [done|]. by apply Hdk.
    + by apply (is_list_keeps h2).
    + by exists nm.
Qed.
End Node.

Section Theorems.
Context {D : Type} `{!Neo4jGraph D}.

(** C13 (the returned dict has the type of [CypherOutputState]).  From
    any well-formed heap, for any [state] and sentinel whose references
    are allocated, every registry and every database, whenever the node
    returns, its one [CypherOutputState] has a string [statement], a dict
    [parameters], a list of strings [errors], [records] a non-empty list
    or [NO_CYPHER_RESULTS], and [steps] the step marker, and the
    top-level [steps] is the step marker. *)
Theorem predefined_cypher_output_typed reg nr state h :
  value_okb h state = true -> value_okb h nr = true ->
  wp (D := D) (predefined_cypher reg nr state) (fun out h' =>
    exists cv, view_cypher h' out = Some cv /\ cypher_output_typed h' nr cv = true /\
               view_steps h' out = Some [VStr step_name]) h.
Proof.
  intros Hst Hnr. eapply wp_mono; [by apply wp_node_shape|].
  intros out h' (task & params & st & records & es & Hview & Hsteps & Hpd & Hrl & Hes).
  eexists. split; [exact Hview|]. split; [|done].
  unfold cypher_output_typed. cbn [cv_statement cv_parameters cv_errors cv_records cv_steps].
  rewrite Hpd, (bool_decide_eq_true_2 ([VStr step_name] = [VStr step_name]) eq_refl).
  assert (Hstr : is_str (py_or h' (stmt_value st) (VStr "")) = true)
    by (destruct st; unfold py_or; cbn [stmt_value truthy]; [destruct (negb _)|]; reflexivity).
  assert (Hes' : forallb is_str es = true)
    by (destruct st; [destruct Hes as [-> _]|destruct Hes as [nm ->]]; reflexivity).
  rewrite Hstr, Hes'. unfold py_or. destruct (truthy h' records) eqn:T.
  - by rewrite Hrl, T.
  - rewrite bool_decide_eq_true_2 by done. by rewrite orb_true_r.
Qed.

(** C14 (the specification's invariant of section 3).  For every
    registry without an empty template, from any well-formed heap, any
    state and sentinel, and every database, whenever the node returns,
    the [errors] of its [CypherOutputState] are non-empty if and only if
    its [statement] is the empty string. *)
Theorem predefined_cypher_errors_iff_no_statement reg nr state h :
  map_Forall (fun _ t => t <> EmptyString) reg ->
  value_okb h state = true -> value_okb h nr = true ->
  wp (D := D) (predefined_cypher reg nr state) (fun out h' =>
    exists cv, view_cypher h' out = Some cv /\ (cv_errors cv <> [] <-> cv_statement cv = VStr "")) h.
Proof.
  intros Hreg Hst Hnr. eapply wp_mono; [by apply wp_node_shape|].
  intros out h' (task & params & st & records & es & Hview & _ & _ & _ & Hes).
  eexists. split; [exact Hview|]. cbn [cv_errors cv_statement].
  destruct st as [t|].
  - destruct Hes as [-> [k Hk]]. pose proof (Hreg k t Hk) as Ht.
    unfold py_or. cbn [stmt_value truthy]. destruct (String.eqb_spec t "") as [->|_]; [done|].
    simpl. split; [done|]. by intros [= ?].
  - destruct Hes as [nm ->]. by split.
Qed.
End Theorems.

Lemma predefined_cypher_output_typed_witness :
  (value_okb heap_A (VRef 5%positive) = true /\ value_okb heap_A no_results = true) /\
  wp (predefined_cypher registry_A no_results (VRef 5%positive)) (fun out h' =>
    exists cv, view_cypher h' out = Some cv /\ cypher_output_typed h' no_results cv = true /\
               view_steps h' out = Some [VStr step_name]) heap_A.
Proof.
  split; [split; vm_compute; reflexivity|].
  apply (predefined_cypher_output_typed (D := mock_db)); vm_compute; reflexivity.
Defined.

Lemma predefined_cypher_errors_iff_no_statement_witness :
  (map_Forall (fun _ t => t <> EmptyString) registry_A /\
   value_okb heap_A (VRef 5%positive) = true /\ value_okb heap_A no_results = true) /\
  wp (predefined_cypher registry_A no_results (VRef 5%positive)) (fun out h' =>
    exists cv, view_cypher h' out = Some cv /\
               (cv_errors cv <> [] <-> cv_statement cv = VStr "")) heap_A.
Proof.
  assert (Hreg : map_Forall (fun _ t => t <> EmptyString) registry_A)
    by (apply (bool_decide_unpack _); vm_compute; reflexivity).
  split; [split_and!; [exact Hreg|vm_compute; reflexivity|vm_compute; reflexivity]|].
  apply (predefined_cypher_errors_iff_no_statement (D := mock_db)); [exact Hreg|vm_compute; reflexivity..].
Defined.
