(* ===== verification/Refine.v ===== *)
(** * The node refines the specification's dispatch

    A request of the specification ([Dispatch.request]) is stored on the
    heap as the orchestrator's state dict ([request_tree]); the node runs
    on it; its returned dict is read back as a [QueryOutcome]
    ([read_outcome]).  The theorem: for every registry, database,
    sentinel and request, the node does what [dispatch] does (same
    database call with the same bindings, same fault, same outcome), with
    one difference, the echoed parameter bag, which holds the coerced
    values ([echo_coerced]) where the specification echoes the original
    ones. *)

From Stdlib Require Import ZArith String Ascii.
From stdpp Require Import base gmap strings list.
From S2P Require Import Prelude PyObject PyRepr PyTree TreeRead GraphDB Dispatch Node Scenarios Runs Coerce NodeSpec.

(** ** Reading the outcome back *)

Definition read_str (v : value) : option string :=
  match v with VStr s => Some s | _ => None end.

Definition read_outcome (n : nat) (h : heap) (out : value) : option outcome :=
  cv ← view_cypher h out;
  task ← read_tree n h (cv_task cv);
  stmt ← read_str (cv_statement cv);
  ps ← read_tree n h (cv_parameters cv);
  es ← mapM read_str (cv_errors cv);
  rs ← read_tree n h (cv_records cv);
  ss ← mapM read_str (cv_steps cv);
  Some (Outcome task stmt ps es rs ss).

Definition outcome_depth (oc : outcome) : nat :=
  Nat.max (tree_depth (oc_task oc))
    (Nat.max (tree_depth (oc_parameters oc)) (tree_depth (oc_records oc))).

Definition with_parameters (oc : outcome) (p : pytree) : outcome :=
  Outcome (oc_task oc) (oc_statement oc) p (oc_errors oc) (oc_records oc) (oc_steps oc).

(** The bag the node echoes: the caller's, after the coercion. *)
Definition echo_coerced (rq : request) : pytree :=
  bag_tree (rq_query rq) (coerce_bag (rq_params rq)).

(** The request as the state dict holds it once the node has coerced
    its parameters in place. *)
Definition coerced_request (rq : request) : request :=
  Request (rq_task rq) (rq_name rq) (rq_query rq) (coerce_bag (rq_params rq)).

(** The rows a database returns are well keyed: the keys of every dict
    of a row are distinct, as the keys of a driver's record are. *)
Definition rows_keyed {D : Type} `{!Neo4jGraph D} (d : D) : Prop :=
  forall t kvs d' rows, graph_query d t kvs = (d', Ok rows) -> forallb tree_keys_ok rows = true.

(** The lines the node prints on a stored request (lines 46, 47, 55 and
    58): the name and the parameter bag as the request carries them, since
    they are printed before the coercion; the statement, [None] on a miss;
    on a hit that returns rows, the rows. *)
Definition node_log_tail {D : Type} `{!Neo4jGraph D} (reg : gmap string string) (d : D)
    (rq : request) : list string :=
  match registry_lookup reg (rq_query rq) with
  | None => ["statement None"]
  | Some t =>
      ("statement " ++ t) ::
        match (graph_query d t (bindings (rq_params rq))).2 with
        | Ok rows => ["records: " ++ tree_str (TList rows)]
        | Err _ => []
        end
  end.

Definition node_log {D : Type} `{!Neo4jGraph D} (reg : gmap string string) (d : D)
    (rq : request) : list string :=
  app ["statement_name " ++ tree_str (rq_name rq);
       "params " ++ tree_str (bag_tree (rq_query rq) (rq_params rq))]
    (node_log_tail reg d rq).

(** Scenario A's state dict as a request of the specification. *)
Definition rq_A : request :=
  Request (TScalar (SStr "Who is person 42?")) (TScalar (SStr "find_person"))
          (SStr "find_person") [(SStr "id", TScalar (SInt 42))].

(** ** The stored request *)

Lemma request_keys_ok rq :
  tree_keys_ok (request_tree rq) = true ->
  tree_keys_ok (rq_task rq) = true /\ tree_keys_ok (rq_name rq) = true /\
  keys_unique (map (fun kv => scalar_value kv.1) (rq_params rq)) = true /\
  Forall (fun kv => tree_keys_ok kv.2 = true) (rq_params rq).
Proof.
  intros Hok. simpl in Hok.
  repeat match goal with H : _ && _ = true |- _ => apply andb_prop in H as [? ?] end.
  split_and!; try assumption. by apply forallb_Forall.
Qed.

Lemma bag_keys_ok rq :
  tree_keys_ok (request_tree rq) = true -> tree_keys_ok (bag_tree (rq_query rq) (rq_params rq)) = true.
Proof.
  intros Hok. apply andb_prop in Hok as [_ Hf]. cbn [forallb snd] in Hf.
  by apply andb_prop in Hf as [_ Hf]; apply andb_prop in Hf as [_ Hf]; apply andb_prop in Hf as [Hf _].
Qed.

(** The three dicts of a stored request, and where each subtree was
    stored: the task, then the name, then the parameter values, each in a
    window of the allocation that ends before the parameter dict [lpar]
    exists. *)
Lemma alloc_request h rq :
  tree_keys_ok (request_tree rq) = true ->
  exists ls lp lpar hp pvs,
    let ht := (alloc_tree h (rq_task rq)).2 in
    let h0 := (alloc_tree h (request_tree rq)).2 in
    (alloc_tree h (request_tree rq)).1 = VRef ls /\
    h0 !! ls = Some (ODict [(VStr "task", (alloc_tree h (rq_task rq)).1);
                            (VStr "query_name", (alloc_tree ht (rq_name rq)).1);
                            (VStr "query_parameters", VRef lp)]) /\
    h0 !! lp = Some (ODict [(VStr "query", scalar_value (rq_query rq));
                            (VStr "parameters", VRef lpar)]) /\
    h0 !! lpar = Some (ODict pvs) /\
    Forall2 (fun kx kv => kv.1 = scalar_value kx.1 /\
               exists hi, kv.2 = (alloc_tree hi kx.2).1 /\ heap_extends (alloc_tree hi kx.2).2 hp)
      (rq_params rq) pvs /\
    heap_extends (alloc_tree ht (rq_name rq)).2 hp /\ heap_extends hp h0 /\
    hp !! lpar = None /\ ls <> lp /\ ls <> lpar /\ lp <> lpar /\
    (alloc_tree (alloc_tree ht (rq_name rq)).2 (bag_tree (rq_query rq) (rq_params rq))).1 = VRef lp /\
    heap_extends (alloc_tree (alloc_tree ht (rq_name rq)).2 (bag_tree (rq_query rq) (rq_params rq))).2 h0.
Proof.
  intros Hok. apply request_keys_ok in Hok as (_ & _ & Hu & _).
  destruct rq as [task name q ps]. unfold request_tree, bag_tree.
  cbn [rq_task rq_name rq_query rq_params] in *.
  rewrite alloc_tree_TDict, ?alloc_seq_cons, ?alloc_seq_nil, ?alloc_entry_fst, ?alloc_entry_snd.
  cbn [fst snd].
  rewrite alloc_tree_TDict, ?alloc_seq_cons, ?alloc_seq_nil, ?alloc_entry_fst, ?alloc_entry_snd.
  cbn [fst snd]. rewrite !alloc_tree_TScalar, !alloc_tree_TDict. cbn [fst snd].
  set (ht := (alloc_tree h task).2). set (hn := (alloc_tree ht name).2).
  destruct (alloc_seq_spec alloc_entry (fun _ => True) heap_extends
              (fun (kx : scalar * pytree) (kv : value * value) hf =>
                 kv.1 = scalar_value kx.1 /\
                 exists hi, kv.2 = (alloc_tree hi kx.2).1 /\ heap_extends (alloc_tree hi kx.2).2 hf)
              heap_extends_refl heap_extends_trans) with (xs := ps) (h := hn)
    as (_ & Hgrow & HF); [| |done|].
  { intros kx kv h1 h2 [Hk (hi & Hv & He)] H12. split; [done|].
    exists hi. split; [done|]. by eapply heap_extends_trans. }
  { apply Forall_forall. intros [k x] _ h1 _. rewrite alloc_entry_fst, alloc_entry_snd.
    split_and!; [done|apply alloc_tree_extends_heap|done|]. exists h1. split; [done|].
    apply heap_extends_refl. }
  set (pvs := (alloc_seq alloc_entry hn ps).1) in *. set (hp := (alloc_seq alloc_entry hn ps).2) in *.
  rewrite (dict_of_pairs_id pvs) by (erewrite stored_keys; [exact Hu|exact HF]).
  rewrite !dict_of_pairs_id by reflexivity.
  set (lpar := (alloc hp (ODict pvs)).1). set (h5 := (alloc hp (ODict pvs)).2).
  set (o6 := ODict [(scalar_value (SStr "query"), scalar_value q);
                    (scalar_value (SStr "parameters"), VRef lpar)]).
  set (lp := (alloc h5 o6).1). set (h6 := (alloc h5 o6).2).
  set (o7 := ODict [(scalar_value (SStr "task"), (alloc_tree h task).1);
                    (scalar_value (SStr "query_name"), (alloc_tree ht name).1);
                    (scalar_value (SStr "query_parameters"), VRef lp)]).
  assert (H5 : h5 !! lpar = Some (ODict pvs)) by apply alloc_lookup.
  assert (H6 : h6 !! lp = Some o6) by apply alloc_lookup.
  assert (H7 : (alloc h6 o7).2 !! (alloc h6 o7).1 = Some o7) by apply alloc_lookup.
  pose proof (alloc_fresh hp (ODict pvs)) as F5. pose proof (alloc_fresh h5 o6) as F6.
  pose proof (alloc_fresh h6 o7) as F7.
  assert (E56 : heap_extends h5 h6) by apply heap_extends_alloc.
  assert (E67 : heap_extends h6 (alloc h6 o7).2) by apply heap_extends_alloc.
  exists (alloc h6 o7).1, lp, lpar, hp, pvs. cbn zeta.
  split_and!; [reflexivity|exact H7|by apply E67|by apply E67, E56|exact HF|exact Hgrow| |exact F5| | | |
                reflexivity|exact E67].
  - eapply heap_extends_trans; [apply heap_extends_alloc|].
    eapply heap_extends_trans; [exact E56|exact E67].
  - intros Heq. rewrite <- Heq in H6. by rewrite F7 in H6.
  - intros Heq. rewrite <- Heq in H5. by rewrite (extends_None _ _ _ E56 F7) in H5.
  - intros Heq. rewrite <- Heq in H5. unfold lp in H5. by rewrite F6 in H5.
Qed.

(** ** The coerced parameters are the specification's bindings *)

(** The objects of a subtree stored before [lpar] existed are untouched
    by the coercion of [lpar]. *)
Lemma window_agree hi t hp h1 lpar ob :
  heap_extends (alloc_tree hi t).2 hp -> hp !! lpar = None -> heap_extends hp h1 ->
  agree_new hi (alloc_tree hi t).2 (<[lpar := ob]> h1).
Proof.
  intros Ew Hp E1 l x _ Hx. apply Ew in Hx. rewrite lookup_insert_ne; [by apply E1|].
  intros ->. congruence.
Qed.

Lemma coerced_bindings h1 lpar ps pvs kvs' hp :
  Forall (fun kv => tree_keys_ok kv.2 = true) ps ->
  Forall2 (fun kx kv => kv.1 = scalar_value kx.1 /\
             exists hi, kv.2 = (alloc_tree hi kx.2).1 /\ heap_extends (alloc_tree hi kx.2).2 hp)
    ps pvs ->
  hp !! lpar = None -> heap_extends hp h1 ->
  length kvs' = length pvs -> (forall j, coerced_at h1 lpar pvs kvs' j) ->
  kvs' = bindings ps.
Proof.
  intros Hok HF Hp E1 Hlen Hco. apply list_eq. intros j. unfold bindings.
  rewrite lookup_map_list. pose proof (Forall2_length _ _ _ HF) as Hlen'.
  destruct (pvs !! j) as [[k v]|] eqn:Hj.
  - destruct (Forall2_lookup_r _ _ _ _ _ HF Hj) as ([k0 x] & Hps & Hk & hi & Hv & Hw).
    destruct (Hco j k v Hj) as (s & Hkvs & Hs). rewrite Hkvs, Hps. cbn [fst snd] in *.
    subst k v. rewrite py_str_alloc_tree in Hs.
    + by injection Hs as <-.
    + exact (Forall_lookup_1 _ _ _ _ Hok Hps).
    + by apply window_agree with hp.
  - apply lookup_ge_None in Hj. rewrite !lookup_ge_None_2; [done|lia|lia].
Qed.

(** The echoed bag, read back after the coercion. *)
Lemma read_tree_scalar n h sc : read_tree n h (scalar_value sc) = Some (TScalar sc).
Proof. by destruct sc, n. Qed.

Lemma read_bindings n h lpar ps :
  h !! lpar = Some (ODict (bindings ps)) ->
  read_tree (S n) h (VRef lpar) = Some (TDict (coerce_bag ps)).
Proof.
  intros Hlpar. cbn [read_tree]. rewrite Hlpar. unfold bindings, coerce_bag.
  rewrite (mapM_map_Forall2 _ (fun kv : scalar * pytree => (kv.1, TScalar (SStr (tree_str kv.2))))
             ps (map (fun kv => (scalar_value kv.1, VStr (tree_str kv.2))) ps)); [done|].
  clear Hlpar. induction ps as [|[k t] ps IH]; cbn [map]; constructor; [|done].
  cbn [fst snd]. rewrite scalar_of_value. destruct n; reflexivity.
Qed.

Lemma read_tree_dict n h l kvs :
  h !! l = Some (ODict kvs) ->
  read_tree (S n) h (VRef l) =
    TDict <$> mapM (fun kv => k ← scalar_of kv.1; t ← read_tree n h kv.2; Some (k, t)) kvs.
Proof. intros Hl. cbn [read_tree]. by rewrite Hl. Qed.

Lemma read_bag h lp lpar q ps n :
  h !! lp = Some (ODict [(VStr "query", scalar_value q); (VStr "parameters", VRef lpar)]) ->
  h !! lpar = Some (ODict (bindings ps)) -> 2 < n ->
  read_tree n h (VRef lp) = Some (bag_tree q (coerce_bag ps)).
Proof.
  intros Hlp Hlpar Hn. destruct n as [|[|n]]; [lia|lia|].
  rewrite (read_tree_dict _ _ _ _ Hlp). cbn [mapM fst snd scalar_of mbind option_bind].
  rewrite read_tree_scalar.
  rewrite (read_bindings n h lpar ps Hlpar). reflexivity.
Qed.

(** [str] of a parameter dict that holds the bindings, and of its bag:
    the coerced bag's [tree_str]. *)
Lemma repr_bindings n h st ps :
  mapM (fun kv => sk ← repr_fuel n h st kv.1; sv ← repr_fuel n h st kv.2; Some (sk ++ ": " ++ sv)%string)
    (bindings ps) =
  Some (map (fun kv : scalar * pytree => scalar_repr kv.1 ++ ": " ++ tree_repr kv.2)%string (coerce_bag ps)).
Proof.
  unfold coerce_bag. rewrite map_map. apply mapM_map_Forall2.
  induction ps as [|[k t] ps IH]; constructor; [|done].
  cbn [fst snd]. rewrite repr_fuel_scalar. change (VStr (tree_str t)) with (scalar_value (SStr (tree_str t))).
  by rewrite repr_fuel_scalar.
Qed.

Lemma repr_fuel_dict n h st l kv kvs :
  h !! l = Some (ODict (kv :: kvs)) -> l ∉ st ->
  repr_fuel (S n) h st (VRef l) =
    ss ← mapM (fun kv => sk ← repr_fuel n h (l :: st) kv.1; sv ← repr_fuel n h (l :: st) kv.2;
                         Some (sk ++ ": " ++ sv)%string) (kv :: kvs);
    Some ("{" ++ repr_join ss ++ "}")%string.
Proof. intros Hl Hst. cbn [repr_fuel]. by rewrite Hl, bool_decide_eq_false_2. Qed.

Lemma py_str_bag h lp lpar q ps :
  h !! lp = Some (ODict [(VStr "query", scalar_value q); (VStr "parameters", VRef lpar)]) ->
  h !! lpar = Some (ODict (bindings ps)) ->
  py_str h (VRef lp) = Some (tree_str (bag_tree q (coerce_bag ps))).
Proof.
  intros Hlp Hlpar.
  assert (Hne : lp <> lpar).
  { intros ->. rewrite Hlp in Hlpar. injection Hlpar as E.
    assert (Hin : In (VStr "parameters", VRef lpar) (bindings ps)) by (rewrite <- E; right; left; done).
    apply in_map_iff in Hin as (kv & Heq & _). inversion Heq. }
  assert (Hsize : 2 <= size h).
  { assert (Hsub : <[lp := ODict [(VStr "query", scalar_value q); (VStr "parameters", VRef lpar)]]>
                     ({[lpar := ODict (bindings ps)]} : heap) ⊆ h).
    { apply insert_subseteq_l; [done|]. by apply map_singleton_subseteq_l. }
    apply map_subseteq_size in Hsub. rewrite map_size_insert_None, map_size_singleton in Hsub; [lia|].
    by rewrite lookup_singleton_ne. }
  unfold py_str, py_repr, repr_fuel_for. apply (repr_fuel_mono 3); [lia|].
  assert (Hpar : repr_fuel 2 h [lp] (VRef lpar) = Some (tree_repr (TDict (coerce_bag ps)))).
  { destruct ps as [|kv ps].
    - cbn [repr_fuel]. by rewrite Hlpar, bool_decide_eq_false_2 by (rewrite list_elem_of_singleton; congruence).
    - rewrite (repr_fuel_dict 1 h [lp] lpar _ (bindings ps) Hlpar)
        by (rewrite list_elem_of_singleton; congruence).
      change (_ :: bindings ps) with (bindings (kv :: ps)). by rewrite repr_bindings. }
  rewrite (repr_fuel_dict 2 h [] lp _ _ Hlp) by apply not_elem_of_nil.
  cbn [mapM fst snd]. rewrite !repr_fuel_scalar, Hpar. reflexivity.
Qed.

Lemma bindings_coerce_bag ps : bindings (coerce_bag ps) = bindings ps.
Proof. unfold bindings, coerce_bag. rewrite map_map. done. Qed.

Lemma node_log_tail_coerced {D : Type} `{!Neo4jGraph D} reg (d : D) rq :
  node_log_tail reg d (coerced_request rq) = node_log_tail reg d rq.
Proof. unfold node_log_tail. cbn [rq_query rq_params coerced_request]. by rewrite bindings_coerce_bag. Qed.

(** ** The node on a stored request *)

Lemma reg_get_scalar reg h q : reg_get reg h (scalar_value q) = Ok (registry_lookup reg q).
Proof. by destruct q. Qed.

Lemma mapM_read_str ss : mapM read_str (map VStr ss) = Some ss.
Proof. induction ss as [|s ss IH]; [done|]. cbn. by rewrite IH. Qed.

Lemma read_outcome_view n h out vt st vp es vr ss t p r :
  view_cypher h out = Some (CypherView vt (VStr st) vp (map VStr es) vr (map VStr ss)) ->
  read_tree n h vt = Some t -> read_tree n h vp = Some p -> read_tree n h vr = Some r ->
  read_outcome n h out = Some (Outcome t st p es r ss).
Proof.
  intros Hv Ht Hp Hr. unfold read_outcome. rewrite Hv.
  cbn [mbind option_bind cv_task cv_statement cv_parameters cv_errors cv_records cv_steps].
  by rewrite Ht, Hp, Hr, !mapM_read_str.
Qed.

Lemma bag_depth q ps : 1 < tree_depth (bag_tree q ps).
Proof. cbn [bag_tree tree_depth map foldr fst snd]. lia. Qed.

Lemma outcome_depth_lt oc n :
  outcome_depth oc < n ->
  tree_depth (oc_task oc) < n /\ tree_depth (oc_parameters oc) < n /\
  tree_depth (oc_records oc) < n.
Proof. unfold outcome_depth. lia. Qed.

(** The node's output dict read back: the task and records as read, the
    parameter bag through its two dicts. *)
Lemma read_node_outcome n h out vt st lp lpar q ps es vr ss t r :
  view_cypher h out = Some (CypherView vt (VStr st) (VRef lp) (map VStr es) vr (map VStr ss)) ->
  h !! lp = Some (ODict [(VStr "query", scalar_value q); (VStr "parameters", VRef lpar)]) ->
  h !! lpar = Some (ODict (bindings ps)) -> 2 < n ->
  read_tree n h vt = Some t -> read_tree n h vr = Some r ->
  read_outcome n h out = Some (Outcome t st (bag_tree q (coerce_bag ps)) es r ss).
Proof.
  intros Hv Hlp Hlpar Hn Ht Hr. eapply read_outcome_view; [exact Hv|exact Ht| |exact Hr].
  by apply (read_bag h lp lpar).
Qed.

Section Refinement.
Context {D : Type} `{!Neo4jGraph D}.
Implicit Types (h : heap) (o : list string) (d : D).

(** Lines 40-52 on a stored request: the parameter dict now holds the
    specification's bindings, the name prints as [tree_str], and every
    heap that keeps the objects of the heap after this block (the fresh
    [errors] list apart) reads the task back. *)
Lemma stored_request_run h o d rq :
  wf_heap h -> tree_keys_ok (request_tree rq) = true ->
  exists ls lp lpar h1 o1 errors,
    let vn := (alloc_tree (alloc_tree h (rq_task rq)).2 (rq_name rq)).1 in
    (alloc_tree h (request_tree rq)).1 = VRef ls /\
    read_request (VRef ls) (PyState (alloc_tree h (request_tree rq)).2 o d) =
      (PyState h1 o1 d, Ok (errors, vn, VRef lp, VRef lpar)) /\
    wf_heap h1 /\
    h1 !! ls = Some (ODict [(VStr "task", (alloc_tree h (rq_task rq)).1);
                            (VStr "query_name", vn); (VStr "query_parameters", VRef lp)]) /\
    h1 !! lp = Some (ODict [(VStr "query", scalar_value (rq_query rq));
                            (VStr "parameters", VRef lpar)]) /\
    h1 !! errors = Some (OList []) /\ h1 !! lpar = Some (ODict (bindings (rq_params rq))) /\
    (alloc_tree h (request_tree rq)).2 !! ls = h1 !! ls /\
    (alloc_tree h (request_tree rq)).2 !! lp = h1 !! lp /\
    heap_extends h h1 /\ h !! errors = None /\
    (forall h', (forall l x, h1 !! l = Some x -> l <> errors -> h' !! l = Some x) ->
       py_str h' vn = Some (tree_str (rq_name rq))) /\
    o1 = app o ["statement_name " ++ tree_str (rq_name rq);
                "params " ++ tree_str (bag_tree (rq_query rq) (rq_params rq))] /\
    forall h', (forall l x, h1 !! l = Some x -> l <> errors -> h' !! l = Some x) ->
      forall n, tree_depth (rq_task rq) < n ->
      read_tree n h' (alloc_tree h (rq_task rq)).1 = Some (rq_task rq).
Proof.
  intros Hwf Hok. pose proof (request_keys_ok _ Hok) as (Hokt & Hokn & _ & Hokp).
  destruct (alloc_request h rq Hok)
    as (ls & lp & lpar & hp & pvs & Hv & Hls & Hlp & Hlpar & HF & Enp & Ep0 & Hp & Hne1 & Hne2 & Hne3
        & Hbag & Ebag).
  set (h0 := (alloc_tree h (request_tree rq)).2) in *.
  set (ht := (alloc_tree h (rq_task rq)).2) in *.
  destruct (alloc_tree_ok (request_tree rq) h Hwf) as (Hwf0 & _ & _). fold h0 in Hwf0.
  destruct (read_request_run h0 o d ls _ lp _ lpar pvs Hwf0 Hls eq_refl Hlp eq_refl Hlpar)
    as (h1 & o1 & errors & kvs' & Hrr & Hwf1 & _ & Herr0 & Herr1 & Hlpar1 & Hlen & _ & Hco & Hframe & Hlog).
  (* [h1] keeps every object of [h0] but [lpar] *)
  assert (Hkeep : forall l x, h0 !! l = Some x -> l <> lpar -> h1 !! l = Some x).
  { intros l x Hx Hl. rewrite Hframe; [done|done|by eexists]. }
  assert (Ehp : heap_extends hp h1).
  { intros l x Hx. apply Hkeep; [by apply Ep0|]. intros ->. congruence. }
  assert (Etn : heap_extends ht hp).
  { eapply heap_extends_trans; [apply alloc_tree_extends_heap|exact Enp]. }
  assert (Hkvs : kvs' = bindings (rq_params rq)) by (eapply coerced_bindings; eauto).
  subst kvs'.
  exists ls, lp, lpar, h1, o1, errors. cbn zeta.
  split_and!; [done|done|done|by apply Hkeep|by apply Hkeep|done|done
               |by rewrite (Hkeep _ _ Hls)|by rewrite (Hkeep _ _ Hlp)| | | | |].
  - intros l x Hx. apply Ehp, Etn. revert l x Hx.
    change (heap_extends h ht). apply alloc_tree_extends_heap.
  - by apply (extends_None _ _ _ (alloc_tree_extends_heap (request_tree rq) h)).
  - intros h' Hh'. apply py_str_alloc_tree; [done|]. intros l x _ Hx.
    apply Hh'; [by apply Ehp, Enp|]. intros ->. by rewrite (Ep0 _ _ (Enp _ _ Hx)) in Herr0.
  - apply Hlog.
    + change (py_str h0 (alloc_tree ht (rq_name rq)).1 = Some (tree_str (rq_name rq))).
      apply py_str_alloc_tree; [done|]. apply agree_new_extends.
      by apply (heap_extends_trans _ hp).
    + rewrite <- Hbag. apply py_str_alloc_tree; [by apply bag_keys_ok|]. by apply agree_new_extends.
  - intros h' Hh' n Hn. apply alloc_tree_read; [done|done|].
    intros l x _ Hx. apply Hh'; [by apply Ehp, Etn|]. intros ->. by rewrite (Ep0 _ _ (Etn _ _ Hx)) in Herr0.
Qed.
(** ** After the request is read

    The rest of the node (lines 54-80) on a state whose parameter dict
    already holds the specification's bindings: it does what [dispatch]
    does, and keeps every object of the heap after the read but the fresh
    [errors] list.  The task, the name and the sentinel are given by how
    they read back in every such heap. *)
Section AfterRead.
Context (reg : gmap string string) (sentinel : pytree) (nr : value) (rq : request).
Context (h : heap) (o : list string) (d : D) (h1 : heap) (o1 : list string).
Context (ls lp lpar errors : loc) (vt vn : value).
Hypothesis Hrows : rows_keyed d.
Hypothesis Hrr : read_request (VRef ls) (PyState h o d) =
  (PyState h1 o1 d, Ok (errors, vn, VRef lp, VRef lpar)).
Hypothesis Hwf1 : wf_heap h1.
Hypothesis Hls1 : h1 !! ls = Some (ODict [(VStr "task", vt); (VStr "query_name", vn);
                                          (VStr "query_parameters", VRef lp)]).
Hypothesis Hlp1 : h1 !! lp = Some (ODict [(VStr "query", scalar_value (rq_query rq));
                                          (VStr "parameters", VRef lpar)]).
Hypothesis Herr1 : h1 !! errors = Some (OList []).
Hypothesis Hlpar1 : h1 !! lpar = Some (ODict (bindings (rq_params rq))).
(** The heaps that keep the objects of [h1] but [errors]. *)
Let keeps_h1 (h' : heap) : Prop := forall l x, h1 !! l = Some x -> l <> errors -> h' !! l = Some x.
Hypothesis Htask : forall h', keeps_h1 h' ->
  forall n, tree_depth (rq_task rq) < n -> read_tree n h' vt = Some (rq_task rq).
Hypothesis Hnm : forall h', keeps_h1 h' -> py_str h' vn = Some (tree_str (rq_name rq)).
Hypothesis Hsent : forall h', keeps_h1 h' ->
  forall n, tree_depth sentinel < n -> read_tree n h' nr = Some sentinel.

Lemma refine_after_read :
  match dispatch reg sentinel d rq with
  | (d', Ok oc) => exists h' o' out,
      predefined_cypher reg nr (VRef ls) (PyState h o d) = (PyState h' o' d', Ok out) /\
      (forall n, outcome_depth oc < n ->
         read_outcome n h' out = Some (with_parameters oc (echo_coerced rq))) /\
      keeps_h1 h'
  | (d', Err msg) => exists o',
      predefined_cypher reg nr (VRef ls) (PyState h o d) = (PyState h1 o' d', Err (Neo4jError msg))
  end.
Proof.
  unfold dispatch, with_parameters, echo_coerced.
  pose proof (reg_get_scalar reg h1 (rq_query rq)) as Hq.
  pose proof (bag_depth (rq_query rq) (rq_params rq)).
  destruct (registry_lookup reg (rq_query rq)) as [t|] eqn:Hreg.
  - pose proof (node_hit_tail reg nr _ o d h1 o1 ls lp lpar errors _ _ _ Hrr Hls1 Hlp1 Herr1
                  (bindings (rq_params rq)) t Hwf1 Hlpar1 Hq) as Htail.
    destruct (graph_query d t (bindings (rq_params rq))) as [d' [rows|msg]] eqn:Hg.
    + destruct Htail as (h' & o' & out & Hrun & Hview & _ & Hext & _).
      assert (Hk : keeps_h1 h') by (intros l x Hx _; by apply Hext, alloc_tree_extends).
      exists h', o', out. split; [exact Hrun|]. split; [|exact Hk]. intros n Hn.
      apply outcome_depth_lt in Hn as (Hnt & Hnp & Hnr). cbn [oc_task oc_parameters oc_records] in *.
      eapply (read_node_outcome n h' out _ _ lp lpar) with (es := []) (ss := [spec_step]);
        [exact Hview|by apply Hext, alloc_tree_extends|by apply Hext, alloc_tree_extends|lia
        |by apply Htask|].
      destruct rows as [|r rows]; [by apply Hsent|].
      unfold alloc_tree_list. apply alloc_tree_read; [exact (Hrows _ _ _ _ Hg)|exact Hnr|].
      by apply agree_new_extends.
    + destruct Htail as [o' [Hrun _]]. by eexists.
  - destruct (node_miss_tail reg nr _ o d h1 o1 ls lp lpar errors _ _ _ Hrr Hls1 Hlp1 Herr1
                (tree_str (rq_name rq)) Hwf1 Hq (Hnm h1 (fun _ _ H _ => H)))
      as (h' & o' & out & Hrun & Hview & _ & Hkeep & _).
    exists h', o', out. split; [exact Hrun|]. split; [|exact Hkeep]. intros n Hn.
    apply outcome_depth_lt in Hn as (Hnt & Hnp & Hnr). cbn [oc_task oc_parameters oc_records] in *.
    assert (lp <> errors /\ lpar <> errors) as [Hne1 Hne2] by (split; intros ->; congruence).
    eapply (read_node_outcome n h' out _ _ lp lpar)
      with (es := [lookup_miss_msg (tree_str (rq_name rq))]) (ss := [spec_step]);
      [exact Hview|by apply Hkeep|by apply Hkeep|lia|by apply Htask|by apply Hsent].
Qed.
End AfterRead.

(** C1 (refinement of the specification's dispatch).  Store a request of
    the specification as the orchestrator's state dict and run the node on
    it, with [nr] the stored sentinel.  If [dispatch] returns an outcome,
    the node returns normally, leaves the database as [dispatch] does, and
    its output dict reads back as that outcome, with the parameter bag
    holding the coerced values; if [dispatch] propagates a database fault,
    the node raises that fault. *)
Theorem predefined_cypher_refines_dispatch reg sentinel h nr o d rq :
  wf_heap h -> rows_keyed d -> tree_keys_ok (request_tree rq) = true ->
  (forall n, tree_depth sentinel < n -> read_tree n h nr = Some sentinel) ->
  match dispatch reg sentinel d rq with
  | (d', Ok oc) => exists h' o' out,
      predefined_cypher reg nr (alloc_tree h (request_tree rq)).1
        (PyState (alloc_tree h (request_tree rq)).2 o d) = (PyState h' o' d', Ok out) /\
      forall n, outcome_depth oc < n ->
        read_outcome n h' out = Some (with_parameters oc (echo_coerced rq))
  | (d', Err msg) => exists s',
      predefined_cypher reg nr (alloc_tree h (request_tree rq)).1
        (PyState (alloc_tree h (request_tree rq)).2 o d) = (s', Err (Neo4jError msg))
  end.
Proof.
  intros Hwf Hrows Hok Hsent.
  destruct (stored_request_run h o d rq Hwf Hok) as
    (ls & lp & lpar & h1 & o1 & errors & Hv & Hrr & Hwf1 & Hls1 & Hlp1 & Herr1 & Hlpar1
     & _ & _ & E1 & Herrh & Hnm & _ & Htask).
  rewrite Hv.
  assert (Hsent1 : forall h', (forall l x, h1 !! l = Some x -> l <> errors -> h' !! l = Some x) ->
            forall n, tree_depth sentinel < n -> read_tree n h' nr = Some sentinel).
  { intros h' Hk n Hn. apply (read_tree_extends _ h); [|by apply Hsent].
    intros l x Hx. apply Hk; [by apply E1|]. intros ->. congruence. }
  pose proof (refine_after_read reg sentinel nr rq _ o d h1 o1 ls lp lpar errors _ _ Hrows Hrr
                Hwf1 Hls1 Hlp1 Herr1 Hlpar1 Htask Hnm Hsent1) as Hafter.
  destruct (dispatch reg sentinel d rq) as [d' [oc|msg]];
    [destruct Hafter as (h' & o' & out & Hrun & Hread & _)|destruct Hafter as [o' Hrun]]; eauto.
Qed.

(** Lines 54-80 after the read: the node appends the statement line
    and, when the database returns rows, the records line. *)
Lemma log_after_read reg nr rq h o d h1 o1 ls lp lpar errors vt vn :
  rows_keyed d ->
  read_request (VRef ls) (PyState h o d) = (PyState h1 o1 d, Ok (errors, vn, VRef lp, VRef lpar)) ->
  wf_heap h1 ->
  h1 !! ls = Some (ODict [(VStr "task", vt); (VStr "query_name", vn); (VStr "query_parameters", VRef lp)]) ->
  h1 !! lp = Some (ODict [(VStr "query", scalar_value (rq_query rq)); (VStr "parameters", VRef lpar)]) ->
  h1 !! errors = Some (OList []) -> h1 !! lpar = Some (ODict (bindings (rq_params rq))) ->
  py_str h1 vn = Some (tree_str (rq_name rq)) ->
  st_out (predefined_cypher reg nr (VRef ls) (PyState h o d)).1 = app o1 (node_log_tail reg d rq).
Proof.
  intros Hrows Hrr Hwf1 Hls1 Hlp1 Herr1 Hlpar1 Hnm.
  unfold node_log_tail. pose proof (reg_get_scalar reg h1 (rq_query rq)) as Hq.
  destruct (registry_lookup reg (rq_query rq)) as [t|] eqn:Hreg.
  - pose proof (node_hit_tail reg nr _ o d h1 o1 ls lp lpar errors _ _ _ Hrr Hls1 Hlp1 Herr1
                  (bindings (rq_params rq)) t Hwf1 Hlpar1 Hq) as Htail.
    destruct (graph_query d t (bindings (rq_params rq))) as [d' [rows|msg]] eqn:Hg; cbn [snd].
    + destruct Htail as (h' & o' & out & Hrun & _ & _ & _ & rs & Hrs & ->).
      unfold alloc_tree_list in Hrs.
      rewrite py_str_alloc_tree in Hrs; [|exact (Hrows _ _ _ _ Hg)|apply agree_new_refl].
      injection Hrs as <-. by rewrite Hrun.
    + destruct Htail as (o' & Hrun & ->). by rewrite Hrun.
  - destruct (node_miss_tail reg nr _ o d h1 o1 ls lp lpar errors _ _ _ Hrr Hls1 Hlp1 Herr1
                (tree_str (rq_name rq)) Hwf1 Hq Hnm) as (h' & o' & out & Hrun & _ & _ & _ & ->).
    by rewrite Hrun.
Qed.

(** C11 (the log).  On a stored request, whatever the registry and the
    database do, the node appends to stdout exactly the lines of
    [node_log]: [statement_name] and [params] with the [str] of the name
    and of the parameter bag before the coercion, then [statement] with
    the template or [None], then, when the database returns rows,
    [records: ] with their [str]; a database fault stops the log after
    the statement line. *)
Theorem predefined_cypher_log reg h nr o d rq :
  wf_heap h -> rows_keyed d -> tree_keys_ok (request_tree rq) = true ->
  st_out (predefined_cypher reg nr (alloc_tree h (request_tree rq)).1
            (PyState (alloc_tree h (request_tree rq)).2 o d)).1 = app o (node_log reg d rq).
Proof.
  intros Hwf Hrows Hok.
  destruct (stored_request_run h o d rq Hwf Hok) as
    (ls & lp & lpar & h1 & o1 & errors & Hv & Hrr & Hwf1 & Hls1 & Hlp1 & Herr1 & Hlpar1
     & _ & _ & _ & _ & Hnm & Hlog1 & _).
  rewrite Hv, (log_after_read reg nr rq _ o d h1 o1 ls lp lpar errors _ _ Hrows Hrr Hwf1 Hls1 Hlp1
                 Herr1 Hlpar1 (Hnm h1 (fun _ _ H _ => H))), Hlog1.
  unfold node_log. by rewrite <- app_assoc.
Qed.
End Refinement.

(** The mock database returns the rows of its table. *)
Lemma mock_rows_keyed (m : mock_db) :
  Forall (fun e => forallb tree_keys_ok e.2 = true) (mock_table m) -> rows_keyed m.
Proof.
  intros Hm t kvs d' rows. cbn [graph_query mock_graph]. unfold mock_query.
  destruct (list_find _ _) as [[i [t' rs]]|] eqn:Hf; [|done]. intros [= _ <-].
  apply list_find_Some in Hf as (Hi & _ & _). exact (Forall_lookup_1 _ _ _ _ Hm Hi).
Qed.

Lemma no_results_read n : tree_depth no_results_tree < n -> read_tree n heap0 no_results = Some no_results_tree.
Proof.
  intros Hn. change heap0 with (alloc_tree ∅ no_results_tree).2.
  change no_results with (alloc_tree ∅ no_results_tree).1.
  apply alloc_tree_read; [reflexivity|exact Hn|apply agree_new_refl].
Qed.

Lemma heap0_wf : wf_heap heap0.
Proof. apply (bool_decide_unpack _). vm_compute. reflexivity. Qed.

Lemma db_A_rows_keyed : rows_keyed db_A.
Proof. apply mock_rows_keyed. repeat constructor. Qed.

Lemma predefined_cypher_refines_dispatch_witness :
  (wf_heap heap0 /\ rows_keyed db_A /\ tree_keys_ok (request_tree rq_A) = true /\
   (forall n, tree_depth no_results_tree < n -> read_tree n heap0 no_results = Some no_results_tree)) /\
  match dispatch registry_A no_results_tree db_A rq_A with
  | (d', Ok oc) => exists h' o' out,
      predefined_cypher registry_A no_results (alloc_tree heap0 (request_tree rq_A)).1
        (PyState (alloc_tree heap0 (request_tree rq_A)).2 [] db_A) = (PyState h' o' d', Ok out) /\
      forall n, outcome_depth oc < n ->
        read_outcome n h' out = Some (with_parameters oc (echo_coerced rq_A))
  | (d', Err msg) => exists s',
      predefined_cypher registry_A no_results (alloc_tree heap0 (request_tree rq_A)).1
        (PyState (alloc_tree heap0 (request_tree rq_A)).2 [] db_A) = (s', Err (Neo4jError msg))
  end.
Proof.
  pose proof heap0_wf as Hwf. pose proof db_A_rows_keyed as Hrows.
  assert (Hok : tree_keys_ok (request_tree rq_A) = true) by (vm_compute; reflexivity).
  split; [split_and!; [exact Hwf|exact Hrows|exact Hok|exact no_results_read]|].
  exact (predefined_cypher_refines_dispatch registry_A no_results_tree heap0 no_results [] db_A rq_A
           Hwf Hrows Hok no_results_read).
Defined.

(** On scenario A the log shows the parameter as the request carries it
    ([42]), while the echoed bag holds ['42']. *)
Lemma predefined_cypher_log_witness :
  (wf_heap heap0 /\ rows_keyed db_A /\ tree_keys_ok (request_tree rq_A) = true) /\
  st_out (predefined_cypher registry_A no_results (alloc_tree heap0 (request_tree rq_A)).1
            (PyState (alloc_tree heap0 (request_tree rq_A)).2 [] db_A)).1 =
    app [] (node_log registry_A db_A rq_A) /\
  node_log registry_A db_A rq_A =
    ["statement_name find_person";
     "params {'query': 'find_person', 'parameters': {'id': 42}}";
     "statement " ++ find_person;
     "records: [{'p': 'Ann'}]"].
Proof.
  pose proof heap0_wf as Hwf. pose proof db_A_rows_keyed as Hrows.
  assert (Hok : tree_keys_ok (request_tree rq_A) = true) by (vm_compute; reflexivity).
  split; [split_and!; [exact Hwf|exact Hrows|exact Hok]|].
  split; [exact (predefined_cypher_log registry_A heap0 no_results [] db_A rq_A Hwf Hrows Hok)|].
  vm_compute. reflexivity.
Defined.
