(* ===== verification/Rerun.v ===== *)
(** * Repeated invocations on the same state dict

    The node coerces the caller's parameter dict in place (C6), so a
    state dict it has seen is not the dict it received.  The orchestrator
    may invoke the node again on the same dict (a retry after a fault, a
    replayed step), and, since the coroutine never suspends, concurrent
    invocations run one after the other.  [invocations] is the step
    relation of such sequences: each step is one run of the node on the
    same [state] value, returning or raising, from the heap, output and
    database the previous run left.  [ready] is the invariant that holds
    after the first run: the parameter dict holds the specification's
    bindings, and the task, the name and the sentinel read back as they
    were stored.  Every run from a [ready] state is [ready] again and
    refines [dispatch]; so every invocation of every sequence refines
    [dispatch] on the original request. *)

From Stdlib Require Import ZArith String Ascii.
From stdpp Require Import base gmap strings list.
From S2P Require Import Prelude PyObject PyRepr PyTree TreeRead GraphDB Dispatch Node Scenarios Runs Coerce NodeInv NodeSpec Refine.

(** ** Sequences of invocations *)

Section Invocations.
Context {D : Type} `{!Neo4jGraph D}.
Context (reg : gmap string string) (nr state : value).

(** The states reachable by zero or more invocations of the node on
    [state], each returning or raising. *)
Inductive invocations : pystate D -> pystate D -> Prop :=
| inv_refl s : invocations s s
| inv_next s s1 s2 r :
    predefined_cypher reg nr state s = (s1, r) -> invocations s1 s2 -> invocations s s2.

Lemma invocations_trans s1 s2 s3 : invocations s1 s2 -> invocations s2 s3 -> invocations s1 s3.
Proof. induction 1; eauto using invocations. Qed.
End Invocations.

(** ** The invariant between invocations *)

Section Ready.
Context {D : Type} `{!Neo4jGraph D}.
Context (sentinel : pytree) (nr : value) (rq : request) (ls lp lpar : loc) (vt vn : value).

(** The state dict at [ls] with its task [vt] and name [vn], the bag at
    [lp], the coerced parameter dict at [lpar]. *)
Definition ready (s : pystate D) : Prop :=
  wf_heap (st_heap s) /\ rows_keyed (st_db s) /\
  st_heap s !! ls = Some (ODict [(VStr "task", vt); (VStr "query_name", vn);
                                 (VStr "query_parameters", VRef lp)]) /\
  st_heap s !! lp = Some (ODict [(VStr "query", scalar_value (rq_query rq));
                                 (VStr "parameters", VRef lpar)]) /\
  st_heap s !! lpar = Some (ODict (bindings (rq_params rq))) /\
  (forall n, tree_depth (rq_task rq) < n -> read_tree n (st_heap s) vt = Some (rq_task rq)) /\
  py_str (st_heap s) vn = Some (tree_str (rq_name rq)) /\
  (forall n, tree_depth sentinel < n -> read_tree n (st_heap s) nr = Some sentinel).

(** Every fact of [ready] is about objects a larger heap keeps. *)
Lemma ready_extends h o d h' o' d' :
  ready (PyState h o d) -> heap_extends h h' -> wf_heap h' -> rows_keyed d' ->
  ready (PyState h' o' d').
Proof.
  intros (_ & _ & Hls & Hlp & Hlpar & Ht & Hn & Hs) E Hwf' Hk'. cbn [st_heap st_db] in *.
  split_and!; try done; try by apply E.
  - intros n Hd. by apply (read_tree_extends _ h), Ht.
  - by apply (py_str_extends h).
  - intros n Hd. by apply (read_tree_extends _ h), Hs.
Qed.

(** A dict that already holds strings is left as it was by the coercion. *)
Lemma coerced_bindings_id h1 lpar' ps kvs' :
  length kvs' = length (bindings ps) -> (forall j, coerced_at h1 lpar' (bindings ps) kvs' j) ->
  kvs' = bindings ps.
Proof.
  intros Hlen Hco. apply list_eq. intros j.
  destruct (bindings ps !! j) as [[k v]|] eqn:Hj.
  - destruct (Hco j k v Hj) as (s & -> & Hs).
    unfold bindings in Hj. rewrite lookup_map_list in Hj.
    destruct (ps !! j) as [[k0 t]|]; simpl in Hj; [|done]. injection Hj as <- <-.
    by injection Hs as ->.
  - apply lookup_ge_None in Hj. apply lookup_ge_None_2. lia.
Qed.

(** Lines 40-52 from a [ready] state: the coercion writes back the
    strings the dict holds, so the heap only grows, by the fresh
    [errors] list and the two defaults; the bag printed is the coerced
    one. *)
Lemma ready_read h o d :
  ready (PyState h o d) ->
  exists h1 o1 errors,
    read_request (VRef ls) (PyState h o d) =
      (PyState h1 o1 d, Ok (errors, vn, VRef lp, VRef lpar)) /\
    wf_heap h1 /\ heap_extends h h1 /\ h !! errors = None /\ h1 !! errors = Some (OList []) /\
    o1 = app o ["statement_name " ++ tree_str (rq_name rq); "params " ++ tree_str (echo_coerced rq)].
Proof.
  intros (Hwf & _ & Hls & Hlp & Hlpar & _ & Hn & _). cbn [st_heap] in *.
  destruct (read_request_run h o d ls _ lp _ lpar _ Hwf Hls eq_refl Hlp eq_refl Hlpar)
    as (h1 & o1 & errors & kvs' & Hrr & Hwf1 & _ & Herr0 & Herr1 & Hlpar1 & Hlen & _ & Hco
        & Hframe & Hlog).
  rewrite (coerced_bindings_id _ _ _ _ Hlen Hco) in Hlpar1.
  exists h1, o1, errors. split_and!; [exact Hrr|done| |done|done|].
  - intros l x Hx. destruct (decide (l = lpar)) as [->|Hne]; [congruence|].
    rewrite Hframe; [done|done|by eexists].
  - apply Hlog; [exact Hn|exact (py_str_bag h lp lpar _ _ Hlp Hlpar)].
Qed.
End Ready.

(** ** Every run keeps the heap well formed *)

Section RunWf.
Context {D : Type} `{!Neo4jGraph D}.

Lemma node_run_wf reg nr state h o d s' r :
  wf_heap h -> value_okb h state = true -> value_okb h nr = true ->
  predefined_cypher (D := D) reg nr state (PyState h o d) = (s', r) -> wf_heap (st_heap s').
Proof.
  intros Hwf Hst Hnr Hrun.
  by destruct (predefined_cypher_wp_wf (D := D) reg nr state h Hst Hnr Hwf o d s' r Hrun) as [? _].
Qed.
End RunWf.

(** ** One invocation keeps the invariant and refines [dispatch] *)

Lemma value_okb_read h v t : (forall n, tree_depth t < n -> read_tree n h v = Some t) -> value_okb h v = true.
Proof.
  intros Hr. destruct v as [| | | |l]; try done. simpl.
  apply bool_decide_eq_true. apply (read_tree_VRef (S (tree_depth t)) _ _ t), Hr. lia.
Qed.

(** The database [dispatch] leaves is one a query of [d] left. *)
Lemma dispatch_db_keyed {D : Type} `{!Neo4jGraph D} reg sentinel (d : D) rq :
  rows_keyed d -> (forall d t kvs, rows_keyed d -> rows_keyed (graph_query d t kvs).1) ->
  rows_keyed (dispatch reg sentinel d rq).1.
Proof.
  intros Hd Hp. unfold dispatch. destruct (registry_lookup reg (rq_query rq)) as [t|]; [|done].
  specialize (Hp d t (bindings (rq_params rq)) Hd).
  by destruct (graph_query d t (bindings (rq_params rq))) as [d' [|]].
Qed.

(** The run of the node on [state] from [s] does what [dispatch] does
    with the database of [s] (C1's conclusion), and the state it leaves,
    returning or raising, satisfies [P]. *)
Definition refines_at {D : Type} `{!Neo4jGraph D} (reg : gmap string string) (sentinel : pytree)
    (nr : value) (rq : request) (state : value) (P : pystate D -> Prop) (s : pystate D) : Prop :=
  match dispatch reg sentinel (st_db s) rq with
  | (d', Ok oc) => exists h' o' out,
      predefined_cypher reg nr state s = (PyState h' o' d', Ok out) /\
      (forall n, outcome_depth oc < n ->
         read_outcome n h' out = Some (with_parameters oc (echo_coerced rq))) /\
      P (PyState h' o' d')
  | (d', Err msg) => exists h' o',
      predefined_cypher reg nr state s = (PyState h' o' d', Err (Neo4jError msg)) /\ P (PyState h' o' d')
  end.

(** The state a run leaves satisfies [P] and holds the database
    [dispatch] leaves. *)
Lemma refines_at_run {D : Type} `{!Neo4jGraph D} reg sentinel nr rq state P (s s1 : pystate D) r :
  refines_at reg sentinel nr rq state P s -> predefined_cypher reg nr state s = (s1, r) ->
  P s1 /\ st_db s1 = (dispatch reg sentinel (st_db s) rq).1.
Proof.
  unfold refines_at. destruct (dispatch reg sentinel (st_db s) rq) as [d' [oc|msg]].
  - intros (h' & o' & out & E & _ & HP) Hrun. rewrite E in Hrun. by injection Hrun as <- _.
  - intros (h' & o' & E & HP) Hrun. rewrite E in Hrun. by injection Hrun as <- _.
Qed.

Lemma refines_at_next {D : Type} `{!Neo4jGraph D} reg sentinel nr rq state P (s s1 : pystate D) r :
  refines_at reg sentinel nr rq state P s -> predefined_cypher reg nr state s = (s1, r) -> P s1.
Proof. intros Hat Hrun. exact (proj1 (refines_at_run _ _ _ _ _ _ _ _ _ Hat Hrun)). Qed.

Section Step.
Context {D : Type} `{!Neo4jGraph D}.
Context (reg : gmap string string) (sentinel : pytree) (nr : value) (rq : request).
Context (ls lp lpar : loc) (vt vn : value).
Hypothesis Hpres : forall (d : D) t kvs, rows_keyed d -> rows_keyed (graph_query d t kvs).1.

(** What one run from a state [s] does, when the facts of [ready] hold
    of the heap [h1] after the read in every heap that keeps its objects
    but [errors]. *)
Lemma run_after_read (h : heap) o (d : D) h1 o1 errors :
  rows_keyed d ->
  read_request (VRef ls) (PyState h o d) = (PyState h1 o1 d, Ok (errors, vn, VRef lp, VRef lpar)) ->
  wf_heap h1 -> h1 !! errors = Some (OList []) ->
  h1 !! ls = Some (ODict [(VStr "task", vt); (VStr "query_name", vn);
                          (VStr "query_parameters", VRef lp)]) ->
  h1 !! lp = Some (ODict [(VStr "query", scalar_value (rq_query rq)); (VStr "parameters", VRef lpar)]) ->
  h1 !! lpar = Some (ODict (bindings (rq_params rq))) ->
  (forall h', (forall l x, h1 !! l = Some x -> l <> errors -> h' !! l = Some x) ->
     (forall n, tree_depth (rq_task rq) < n -> read_tree n h' vt = Some (rq_task rq)) /\
     py_str h' vn = Some (tree_str (rq_name rq)) /\
     (forall n, tree_depth sentinel < n -> read_tree n h' nr = Some sentinel)) ->
  wf_heap h -> value_okb h (VRef ls) = true -> value_okb h nr = true ->
  refines_at reg sentinel nr rq (VRef ls) (ready sentinel nr rq ls lp lpar vt vn) (PyState h o d).
Proof.
  intros Hrows Hrr Hwf1 Herr1 Hls1 Hlp1 Hlpar1 Hfacts Hwf Hls Hnr. unfold refines_at. cbn [st_db].
  assert (Hne : ls <> errors /\ lp <> errors /\ lpar <> errors)
    by (split_and!; intros ->; congruence).
  destruct Hne as (Hne1 & Hne2 & Hne3).
  (* [ready] of every heap that keeps [h1] but [errors] *)
  assert (Hready : forall h' o' d', (forall l x, h1 !! l = Some x -> l <> errors -> h' !! l = Some x) ->
            wf_heap h' -> rows_keyed d' -> ready sentinel nr rq ls lp lpar vt vn (PyState h' o' d')).
  { intros h' o' d' Hk Hwf' Hk'. destruct (Hfacts h' Hk) as (Ht & Hn & Hs).
    split_and!; cbn [st_heap st_db]; try done; by apply Hk. }
  pose proof (dispatch_db_keyed reg sentinel d rq Hrows Hpres) as Hk'.
  pose proof (refine_after_read reg sentinel nr rq h o d h1 o1 ls lp lpar errors vt vn Hrows Hrr
                Hwf1 Hls1 Hlp1 Herr1 Hlpar1 (fun h' Hk => proj1 (Hfacts h' Hk))
                (fun h' Hk => proj1 (proj2 (Hfacts h' Hk))) (fun h' Hk => proj2 (proj2 (Hfacts h' Hk))))
    as Hafter.
  destruct (dispatch reg sentinel d rq) as [d' [oc|msg]]; cbn [fst] in Hk'.
  - destruct Hafter as (h' & o' & out & Hrun & Hread & Hk). exists h', o', out.
    split_and!; [done|done|]. apply Hready; [done| |done].
    exact (node_run_wf reg nr (VRef ls) h o d _ _ Hwf Hls Hnr Hrun).
  - destruct Hafter as [o' Hrun]. exists h1, o'. split; [done|].
    by apply Hready.
Qed.
(** From a [ready] state, one run refines [dispatch] and leaves a
    [ready] state. *)
Lemma ready_step (s : pystate D) :
  ready sentinel nr rq ls lp lpar vt vn s ->
  refines_at reg sentinel nr rq (VRef ls) (ready sentinel nr rq ls lp lpar vt vn) s.
Proof.
  destruct s as [h o d]. intros Hr.
  pose proof Hr as (Hwf & Hrows & Hls & Hlp & Hlpar & Ht & Hn & Hs). cbn [st_heap st_db] in *.
  destruct (ready_read sentinel nr rq ls lp lpar vt vn h o d Hr)
    as (h1 & o1 & errors & Hrr & Hwf1 & E1 & Herr0 & Herr1 & _).
  (* a heap that keeps [h1] but [errors] keeps [h] *)
  assert (Ek : forall h', (forall l x, h1 !! l = Some x -> l <> errors -> h' !! l = Some x) ->
                 heap_extends h h').
  { intros h' Hk l x Hx. apply Hk; [by apply E1|]. intros ->. congruence. }
  apply (run_after_read h o d h1 o1 errors); try done; try by apply E1.
  - intros h' Hk. pose proof (Ek h' Hk) as E. split_and!.
    + intros n' Hd. by apply (read_tree_extends _ h), Ht.
    + by apply (py_str_extends h).
    + intros n' Hd. by apply (read_tree_extends _ h), Hs.
  - simpl. rewrite Hls. by apply bool_decide_eq_true.
  - by apply (value_okb_read _ _ sentinel).
Qed.

(** What one run from a [ready] state prints: the lines the first run
    printed, but with the coerced bag on the [params] line, since the
    dict it prints is the one the first run rewrote. *)
Lemma ready_log (s s1 : pystate D) r :
  ready sentinel nr rq ls lp lpar vt vn s -> predefined_cypher reg nr (VRef ls) s = (s1, r) ->
  st_out s1 = app (st_out s) (node_log reg (st_db s) (coerced_request rq)).
Proof.
  destruct s as [h o d]. intros Hr Hrun.
  pose proof Hr as (Hwf & Hrows & Hls & Hlp & Hlpar & _ & Hn & _). cbn [st_heap st_db st_out] in *.
  destruct (ready_read sentinel nr rq ls lp lpar vt vn h o d Hr)
    as (h1 & o1 & errors & Hrr & Hwf1 & E1 & Herr0 & Herr1 & Hlog1).
  pose proof (log_after_read reg nr rq h o d h1 o1 ls lp lpar errors vt vn Hrows Hrr Hwf1
                (E1 _ _ Hls) (E1 _ _ Hlp) Herr1 (E1 _ _ Hlpar) (py_str_extends _ _ _ _ E1 Hn)) as Hout.
  rewrite Hrun in Hout. cbn [fst] in Hout. rewrite Hout, Hlog1.
  unfold node_log. rewrite node_log_tail_coerced. by rewrite <- app_assoc.
Qed.

(** Rule induction on the sequence: [ready] holds of every state that
    invocations reach from a [ready] state. *)
Lemma ready_invocations (s s' : pystate D) :
  ready sentinel nr rq ls lp lpar vt vn s -> invocations reg nr (VRef ls) s s' ->
  ready sentinel nr rq ls lp lpar vt vn s'.
Proof.
  intros Hr Hinv. induction Hinv as [s|s s1 s2 r Hrun _ IH]; [done|].
  apply IH. exact (refines_at_next _ _ _ _ _ _ _ _ _ (ready_step s Hr) Hrun).
Qed.
End Step.

(** ** The first invocation, and every later one *)

Section Sequences.
Context {D : Type} `{!Neo4jGraph D}.
Context (reg : gmap string string) (sentinel : pytree) (nr : value) (rq : request).
Hypothesis Hpres : forall (d : D) t kvs, rows_keyed d -> rows_keyed (graph_query d t kvs).1.

(** The first run on a stored request refines [dispatch] (as C1 states)
    and leaves a [ready] state. *)
Lemma first_invocation h o (d : D) :
  wf_heap h -> rows_keyed d -> tree_keys_ok (request_tree rq) = true ->
  (forall n, tree_depth sentinel < n -> read_tree n h nr = Some sentinel) ->
  exists ls lp lpar,
    let vt := (alloc_tree h (rq_task rq)).1 in
    let vn := (alloc_tree (alloc_tree h (rq_task rq)).2 (rq_name rq)).1 in
    (alloc_tree h (request_tree rq)).1 = VRef ls /\
    (alloc_tree h (request_tree rq)).2 !! ls =
      Some (ODict [(VStr "task", vt); (VStr "query_name", vn); (VStr "query_parameters", VRef lp)]) /\
    (alloc_tree h (request_tree rq)).2 !! lp =
      Some (ODict [(VStr "query", scalar_value (rq_query rq)); (VStr "parameters", VRef lpar)]) /\
    refines_at reg sentinel nr rq (VRef ls) (ready sentinel nr rq ls lp lpar vt vn)
      (PyState (alloc_tree h (request_tree rq)).2 o d).
Proof.
  intros Hwf Hrows Hok Hsent.
  destruct (stored_request_run h o d rq Hwf Hok) as
    (ls & lp & lpar & h1 & o1 & errors & Hv & Hrr & Hwf1 & Hls1 & Hlp1 & Herr1 & Hlpar1
     & E0s & E0p & E1 & Herrh & Hnm & _ & Htask).
  destruct (alloc_tree_ok (request_tree rq) h Hwf) as (Hwf0 & _ & Hok0).
  exists ls, lp, lpar. cbn zeta. split_and!; [exact Hv|by rewrite E0s|by rewrite E0p|].
  apply (run_after_read reg sentinel nr rq ls lp lpar _ _ Hpres _ o d h1 o1 errors); try done.
  - intros h' Hk. split_and!; [by apply Htask|by apply Hnm|].
    intros n Hn. apply (read_tree_extends _ h); [|by apply Hsent].
    intros l x Hx. apply Hk; [by apply E1|]. intros ->. congruence.
  - by rewrite <- Hv.
  - apply (value_okb_read _ _ sentinel). intros n Hn.
    apply (read_tree_extends _ h); [apply alloc_tree_extends_heap|by apply Hsent].
Qed.

(** C16 (every invocation on the same state dict refines [dispatch]).
    Store a request of the specification as the state dict and invoke
    the node on it any number of times, each run returning or raising,
    from the heap, output and database the previous run left, for every
    database whose queries keep its rows well keyed.  Every invocation
    of the sequence does what [dispatch] does on the original request
    with the database at that moment: the in-place coercion of the first
    run never changes what a later run sends to the database, echoes or
    returns. *)
Theorem predefined_cypher_invocations h o (d : D) s :
  wf_heap h -> rows_keyed d -> tree_keys_ok (request_tree rq) = true ->
  (forall n, tree_depth sentinel < n -> read_tree n h nr = Some sentinel) ->
  invocations reg nr (alloc_tree h (request_tree rq)).1
    (PyState (alloc_tree h (request_tree rq)).2 o d) s ->
  match dispatch reg sentinel (st_db s) rq with
  | (d', Ok oc) => exists h' o' out,
      predefined_cypher reg nr (alloc_tree h (request_tree rq)).1 s = (PyState h' o' d', Ok out) /\
      forall n, outcome_depth oc < n ->
        read_outcome n h' out = Some (with_parameters oc (echo_coerced rq))
  | (d', Err msg) => exists s',
      predefined_cypher reg nr (alloc_tree h (request_tree rq)).1 s = (s', Err (Neo4jError msg))
  end.
Proof.
  intros Hwf Hrows Hok Hsent Hinv.
  destruct (first_invocation h o d Hwf Hrows Hok Hsent) as (ls & lp & lpar & Hv & _ & _ & Hfirst).
  rewrite Hv in *.
  assert (Hat : refines_at reg sentinel nr rq (VRef ls) (ready sentinel nr rq ls lp lpar (alloc_tree h (rq_task rq)).1
                       (alloc_tree (alloc_tree h (rq_task rq)).2 (rq_name rq)).1) s).
  { inversion Hinv as [|s0 s1 s2 r Hrun Hrest]; subst; [done|].
    apply ready_step; [done|]. eapply ready_invocations; [done| |exact Hrest].
    exact (refines_at_next _ _ _ _ _ _ _ _ _ Hfirst Hrun). }
  unfold refines_at in Hat. destruct (dispatch reg sentinel (st_db s) rq) as [d' [oc|msg]].
  - destruct Hat as (h' & o' & out & Hrun & Hread & _). eauto.
  - destruct Hat as (h' & o' & Hrun & _). eauto.
Qed.
(** C17 (the caller's parameters are coerced once, and stay so).  After
    the first invocation on a stored request, returning or raising, and
    in every state any later invocations reach, the state dict and its
    bag [query_parameters] are the objects they were, and the bag's
    [parameters] dict holds the specification's bindings: each value
    replaced by its [str], once, and never changed again. *)
Theorem predefined_cypher_coerces_once h o (d : D) s1 r s :
  wf_heap h -> rows_keyed d -> tree_keys_ok (request_tree rq) = true ->
  (forall n, tree_depth sentinel < n -> read_tree n h nr = Some sentinel) ->
  predefined_cypher reg nr (alloc_tree h (request_tree rq)).1
    (PyState (alloc_tree h (request_tree rq)).2 o d) = (s1, r) ->
  invocations reg nr (alloc_tree h (request_tree rq)).1 s1 s ->
  exists ls lp lpar,
    (alloc_tree h (request_tree rq)).1 = VRef ls /\
    st_heap s !! ls = (alloc_tree h (request_tree rq)).2 !! ls /\
    st_heap s !! lp = (alloc_tree h (request_tree rq)).2 !! lp /\
    (alloc_tree h (request_tree rq)).2 !! lp =
      Some (ODict [(VStr "query", scalar_value (rq_query rq)); (VStr "parameters", VRef lpar)]) /\
    st_heap s !! lpar = Some (ODict (bindings (rq_params rq))).
Proof.
  intros Hwf Hrows Hok Hsent Hrun Hinv.
  destruct (first_invocation h o d Hwf Hrows Hok Hsent) as (ls & lp & lpar & Hv & H0s & H0p & Hfirst).
  rewrite Hv in Hrun, Hinv.
  pose proof (ready_invocations _ _ _ _ _ _ _ _ _ Hpres _ _
                (refines_at_next _ _ _ _ _ _ _ _ _ Hfirst Hrun) Hinv) as (_ & _ & Hls & Hlp & Hlpar & _).
  exists ls, lp, lpar. split_and!; [done|by rewrite Hls, H0s|by rewrite Hlp, H0p|done|done].
Qed.
End Sequences.

(** ** Two invocations on scenario A *)

(** The mock database keeps its table: its queries keep the rows well
    keyed. *)
Lemma mock_rows_keyed_table (m m' : mock_db) :
  mock_table m = mock_table m' -> rows_keyed m -> rows_keyed m'.
Proof.
  intros E Hm t' kvs' d' rows Hq. apply (Hm t' kvs' (graph_query m t' kvs').1). revert Hq.
  cbn [graph_query mock_graph]. unfold mock_query. rewrite E.
  destruct (list_find _ (mock_table m')) as [[i [t0 rs]]|]; [|done]. by intros [= _ ->].
Qed.

Lemma mock_rows_keyed_pres (d : mock_db) t kvs : rows_keyed d -> rows_keyed (graph_query d t kvs).1.
Proof.
  apply mock_rows_keyed_table. cbn [graph_query mock_graph]. unfold mock_query.
  by destruct (list_find _ (mock_table d)) as [[i [t0 rs]]|].
Qed.

Definition state_A0 : pystate mock_db :=
  PyState (alloc_tree heap0 (request_tree rq_A)).2 [] db_A.
Definition run_A1 := Eval vm_compute in
  predefined_cypher registry_A no_results (alloc_tree heap0 (request_tree rq_A)).1 state_A0.
Definition run_A2 := Eval vm_compute in
  predefined_cypher registry_A no_results (alloc_tree heap0 (request_tree rq_A)).1 run_A1.1.

Lemma predefined_cypher_invocations_witness :
  (wf_heap heap0 /\ rows_keyed db_A /\ tree_keys_ok (request_tree rq_A) = true /\
   (forall n, tree_depth no_results_tree < n -> read_tree n heap0 no_results = Some no_results_tree) /\
   invocations registry_A no_results (alloc_tree heap0 (request_tree rq_A)).1 state_A0 run_A2.1) /\
  match dispatch registry_A no_results_tree (st_db run_A2.1) rq_A with
  | (d', Ok oc) => exists h' o' out,
      predefined_cypher registry_A no_results (alloc_tree heap0 (request_tree rq_A)).1 run_A2.1 =
        (PyState h' o' d', Ok out) /\
      forall n, outcome_depth oc < n ->
        read_outcome n h' out = Some (with_parameters oc (echo_coerced rq_A))
  | (d', Err msg) => exists s',
      predefined_cypher registry_A no_results (alloc_tree heap0 (request_tree rq_A)).1 run_A2.1 =
        (s', Err (Neo4jError msg))
  end.
Proof.
  assert (Hinv : invocations registry_A no_results (alloc_tree heap0 (request_tree rq_A)).1
                   state_A0 run_A2.1).
  { apply (inv_next _ _ _ _ run_A1.1 _ run_A1.2); [vm_compute; reflexivity|].
    apply (inv_next _ _ _ _ run_A2.1 _ run_A2.2); [vm_compute; reflexivity|].
    apply inv_refl. }
  assert (Hok : tree_keys_ok (request_tree rq_A) = true) by (vm_compute; reflexivity).
  split; [split_and!; [exact heap0_wf|exact db_A_rows_keyed|exact Hok|exact no_results_read|exact Hinv]|].
  exact (predefined_cypher_invocations registry_A no_results_tree no_results rq_A mock_rows_keyed_pres
           heap0 [] db_A run_A2.1 heap0_wf db_A_rows_keyed Hok no_results_read Hinv).
Defined.

Lemma predefined_cypher_coerces_once_witness :
  (wf_heap heap0 /\ rows_keyed db_A /\ tree_keys_ok (request_tree rq_A) = true /\
   (forall n, tree_depth no_results_tree < n -> read_tree n heap0 no_results = Some no_results_tree) /\
   predefined_cypher registry_A no_results (alloc_tree heap0 (request_tree rq_A)).1 state_A0 =
     (run_A1.1, run_A1.2) /\
   invocations registry_A no_results (alloc_tree heap0 (request_tree rq_A)).1 run_A1.1 run_A2.1) /\
  exists ls lp lpar,
    (alloc_tree heap0 (request_tree rq_A)).1 = VRef ls /\
    st_heap run_A2.1 !! ls = (alloc_tree heap0 (request_tree rq_A)).2 !! ls /\
    st_heap run_A2.1 !! lp = (alloc_tree heap0 (request_tree rq_A)).2 !! lp /\
    (alloc_tree heap0 (request_tree rq_A)).2 !! lp =
      Some (ODict [(VStr "query", scalar_value (rq_query rq_A)); (VStr "parameters", VRef lpar)]) /\
    st_heap run_A2.1 !! lpar = Some (ODict (bindings (rq_params rq_A))).
Proof.
  assert (Hrun : predefined_cypher registry_A no_results (alloc_tree heap0 (request_tree rq_A)).1
                   state_A0 = (run_A1.1, run_A1.2)) by (vm_compute; reflexivity).
  assert (Hinv : invocations registry_A no_results (alloc_tree heap0 (request_tree rq_A)).1
                   run_A1.1 run_A2.1).
  { apply (inv_next _ _ _ _ run_A2.1 _ run_A2.2); [vm_compute; reflexivity|]. apply inv_refl. }
  assert (Hok : tree_keys_ok (request_tree rq_A) = true) by (vm_compute; reflexivity).
  split; [split_and!; [exact heap0_wf|exact db_A_rows_keyed|exact Hok|exact no_results_read
                      |exact Hrun|exact Hinv]|].
  exact (predefined_cypher_coerces_once registry_A no_results_tree no_results rq_A mock_rows_keyed_pres
           heap0 [] db_A run_A1.1 run_A1.2 run_A2.1 heap0_wf db_A_rows_keyed Hok no_results_read Hrun Hinv).
Defined.
