(* ===== verification/CallLog.v ===== *)
(** * What the database receives over repeated invocations

    Each invocation of the node on a stored request (the sequences of
    [Rerun]) does to the database what [dispatch] does: on a registry
    hit, one [graph.query] with the template and the coerced bindings;
    on a miss, nothing.  [query_effect] is that effect.  Over a whole
    sequence, the database is the initial one with the effect applied
    once per invocation, in order: no invocation skips its query,
    repeats it or sends other bindings, though the first one rewrote the
    caller's parameter dict.  Stdout, over the same sequence, holds the
    lines of every run in order ([session_log]). *)

From Stdlib Require Import ZArith String Ascii.
From stdpp Require Import base gmap strings list.
From S2P Require Import Prelude PyObject PyRepr PyTree TreeRead GraphDB Dispatch Node Scenarios Runs Coerce NodeInv NodeSpec Refine Rerun.

Section Effect.
Context {D : Type} `{!Neo4jGraph D}.

(** One invocation's effect on the database (specification, section
    4.2 step 3). *)
Definition query_effect (reg : gmap string string) (rq : request) (d : D) : D :=
  match registry_lookup reg (rq_query rq) with
  | Some t => (graph_query d t (bindings (rq_params rq))).1
  | None => d
  end.

(** The lines [k] invocations print, first to last.  The first run
    prints the request as stored; every later one prints the coerced
    request, since the dict it reads is the one the first run rewrote;
    each run queries the database the previous runs left. *)
Fixpoint later_logs (reg : gmap string string) (rq : request) (d : D) (k : nat) : list string :=
  match k with
  | O => []
  | S k' => app (node_log reg d (coerced_request rq)) (later_logs reg rq (query_effect reg rq d) k')
  end.

Definition session_log (reg : gmap string string) (rq : request) (d : D) (k : nat) : list string :=
  match k with
  | O => []
  | S k' => app (node_log reg d rq) (later_logs reg rq (query_effect reg rq d) k')
  end.

Lemma dispatch_effect reg sentinel d rq : (dispatch reg sentinel d rq).1 = query_effect reg rq d.
Proof.
  unfold dispatch, query_effect. destruct (registry_lookup reg (rq_query rq)) as [t|]; [|done].
  by destruct (graph_query d t (bindings (rq_params rq))) as [d' [|]].
Qed.
End Effect.

Section Database.
Context {D : Type} `{!Neo4jGraph D}.
Context (reg : gmap string string) (sentinel : pytree) (nr : value) (rq : request).
Hypothesis Hpres : forall (d : D) t kvs, rows_keyed d -> rows_keyed (graph_query d t kvs).1.

(** Rule induction: from a [ready] state, [k] invocations apply the
    effect [k] times and print [later_logs]. *)
Lemma ready_invocations_trace ls lp lpar vt vn (s s' : pystate D) :
  ready sentinel nr rq ls lp lpar vt vn s -> invocations reg nr (VRef ls) s s' ->
  exists k, st_db s' = Nat.iter k (query_effect reg rq) (st_db s) /\
            st_out s' = app (st_out s) (later_logs reg rq (st_db s) k).
Proof.
  intros Hr Hinv. revert Hr. induction Hinv as [s|s s1 s2 r Hrun _ IH]; intros Hr.
  { exists 0. by rewrite app_nil_r. }
  destruct (refines_at_run _ _ _ _ _ _ _ _ _
              (ready_step reg sentinel nr rq ls lp lpar vt vn Hpres s Hr) Hrun) as [Hr1 Hdb].
  pose proof (ready_log reg sentinel nr rq ls lp lpar vt vn s s1 r Hr Hrun) as Hout.
  destruct (IH Hr1) as (k & Hk & Hko). exists (S k). rewrite dispatch_effect in Hdb.
  rewrite Hk, Hko, Hdb, Hout, Nat.iter_succ_r. cbn [later_logs]. by rewrite <- app_assoc.
Qed.

(** The first run on a stored request prints [node_log] (as C11 states). *)
Lemma stored_first_log h o (d : D) s1 r :
  wf_heap h -> rows_keyed d -> tree_keys_ok (request_tree rq) = true ->
  predefined_cypher reg nr (alloc_tree h (request_tree rq)).1
    (PyState (alloc_tree h (request_tree rq)).2 o d) = (s1, r) ->
  st_out s1 = app o (node_log reg d rq).
Proof.
  intros Hwf Hrows Hok Hrun.
  destruct (stored_request_run h o d rq Hwf Hok) as
    (ls & lp & lpar & h1 & o1 & errors & Hv & Hrr & Hwf1 & Hls1 & Hlp1 & Herr1 & Hlpar1
     & _ & _ & _ & _ & Hnm & Hlog1 & _).
  pose proof (log_after_read reg nr rq _ o d h1 o1 ls lp lpar errors _ _ Hrows Hrr Hwf1 Hls1 Hlp1
                Herr1 Hlpar1 (Hnm h1 (fun _ _ H _ => H))) as Hout.
  rewrite <- Hv, Hrun in Hout. cbn [fst] in Hout. rewrite Hout, Hlog1. unfold node_log.
  by rewrite <- app_assoc.
Qed.

(** The same from the state the orchestrator starts from: the database
    and stdout after any sequence. *)
Lemma stored_invocations_trace h o (d : D) s :
  wf_heap h -> rows_keyed d -> tree_keys_ok (request_tree rq) = true ->
  (forall n, tree_depth sentinel < n -> read_tree n h nr = Some sentinel) ->
  invocations reg nr (alloc_tree h (request_tree rq)).1
    (PyState (alloc_tree h (request_tree rq)).2 o d) s ->
  exists k, st_db s = Nat.iter k (query_effect reg rq) d /\ st_out s = app o (session_log reg rq d k).
Proof.
  intros Hwf Hrows Hok Hsent Hinv.
  destruct (first_invocation reg sentinel nr rq Hpres h o d Hwf Hrows Hok Hsent)
    as (ls & lp & lpar & Hv & _ & _ & Hfirst).
  inversion Hinv as [|s0 s1 s2 r Hrun Hrest]; subst.
  { exists 0. by rewrite app_nil_r. }
  pose proof (stored_first_log h o d s1 r Hwf Hrows Hok Hrun) as Hout.
  rewrite Hv in Hrun, Hrest.
  destruct (refines_at_run _ _ _ _ _ _ _ _ _ Hfirst Hrun) as [Hr1 Hdb].
  destruct (ready_invocations_trace _ _ _ _ _ _ _ Hr1 Hrest) as (k & Hk & Hko). exists (S k).
  rewrite dispatch_effect in Hdb. rewrite Hk, Hko, Hdb, Hout, Nat.iter_succ_r. cbn [session_log].
  by rewrite <- app_assoc.
Qed.
End Database.

Section Claims.
Context (reg : gmap string string) (sentinel : pytree) (nr : value) (rq : request).

(** C20 (the trace of a session: database and stdout).  Store a request
    of the specification as the state dict and invoke the node on it any
    number of times, each run returning or raising, for every database
    whose queries keep its rows well keyed.  After [k] invocations the
    database is the initial one with [query_effect] applied [k] times:
    each run, the first one included, makes the query [dispatch] makes
    (the template, with the bindings computed from the original
    request), and nothing else touches the database.  Stdout holds
    [session_log]: the first run's lines print the bag as stored, every
    later run's the bag its predecessors coerced. *)
Theorem predefined_cypher_database_calls {D : Type} `{!Neo4jGraph D} h o (d : D) s :
  (forall (d : D) t kvs, rows_keyed d -> rows_keyed (graph_query d t kvs).1) ->
  wf_heap h -> rows_keyed d -> tree_keys_ok (request_tree rq) = true ->
  (forall n, tree_depth sentinel < n -> read_tree n h nr = Some sentinel) ->
  invocations reg nr (alloc_tree h (request_tree rq)).1
    (PyState (alloc_tree h (request_tree rq)).2 o d) s ->
  exists k, st_db s = Nat.iter k (query_effect reg rq) d /\ st_out s = app o (session_log reg rq d k).
Proof. intros Hpres. exact (stored_invocations_trace reg sentinel nr rq Hpres h o d s). Qed.

End Claims.

(** Scenario A, invoked twice. *)
Lemma invocations_A2 :
  invocations registry_A no_results (alloc_tree heap0 (request_tree rq_A)).1 state_A0 run_A2.1.
Proof.
  apply (inv_next _ _ _ _ run_A1.1 _ run_A1.2); [vm_compute; reflexivity|].
  apply (inv_next _ _ _ _ run_A2.1 _ run_A2.2); [vm_compute; reflexivity|].
  apply inv_refl.
Qed.

(** Two invocations of scenario A: the second prints the bag its
    predecessor coerced, [{'id': '42'}] where the first printed
    [{'id': 42}]. *)
Lemma predefined_cypher_database_calls_witness :
  ((forall (d : mock_db) t kvs, rows_keyed d -> rows_keyed (graph_query d t kvs).1) /\
   wf_heap heap0 /\ rows_keyed db_A /\ tree_keys_ok (request_tree rq_A) = true /\
   (forall n, tree_depth no_results_tree < n -> read_tree n heap0 no_results = Some no_results_tree) /\
   invocations registry_A no_results (alloc_tree heap0 (request_tree rq_A)).1 state_A0 run_A2.1) /\
  st_out run_A2.1 =
    ["statement_name find_person";
     "params {'query': 'find_person', 'parameters': {'id': 42}}";
     "statement MATCH (p:Person {id:$id}) RETURN p"; "records: [{'p': 'Ann'}]";
     "statement_name find_person";
     "params {'query': 'find_person', 'parameters': {'id': '42'}}";
     "statement MATCH (p:Person {id:$id}) RETURN p"; "records: [{'p': 'Ann'}]"] /\
  exists k, st_db run_A2.1 = Nat.iter k (query_effect registry_A rq_A) db_A /\
            st_out run_A2.1 = app [] (session_log registry_A rq_A db_A k).
Proof.
  assert (Hok : tree_keys_ok (request_tree rq_A) = true) by (vm_compute; reflexivity).
  split; [split_and!; [exact mock_rows_keyed_pres|exact heap0_wf|exact db_A_rows_keyed|exact Hok
                      |exact no_results_read|exact invocations_A2]|].
  split; [vm_compute; reflexivity|].
  exact (predefined_cypher_database_calls registry_A no_results_tree no_results rq_A heap0 [] db_A run_A2.1
           mock_rows_keyed_pres heap0_wf db_A_rows_keyed Hok no_results_read invocations_A2).
Defined.
